(** * Spatial allocation engine of [app.py]

    A shallow embedding of the placement helpers of [src/app.py]
    ([get_best_orientation], [split_free_rectangle], [prune_free_rectangles],
    [find_position_for_rect], [pack_open_face_in_container],
    [place_items_optimally], [generate_rearrangements]) and of the retrieval
    plan built inside [search_item], followed by the properties the
    specification states about them.

    Modelling conventions.
    - Numbers are exact integers ([Z]); the JSON numbers the service receives
    are taken to be integral, so [0.0] is [0] and no rounding is modelled.
    - A Python [dict] whose iteration order matters is an association list in
    insertion order; assigning to an existing key keeps the key's position.
    - A JSON object with a fixed set of required keys is a record; a key read
    with [.get(k, default)] is an [option] field.
    - [record_log] writes to the process-wide [LOGS] list and to [logs.json]
    and reads the clock; these live in an explicit [World] that every
    logging function threads. The log file is taken to be readable and
    writable. *)

From Stdlib Require Import ZArith Bool String Lia Arith List.
From Stdlib Require Import Sorted Permutation.
Import ListNotations.
Open Scope Z_scope.

Set Implicit Arguments.

(* ------------------------------------------------------------------ *)
(** ** Data model *)

Module Item.
Record t := mk
  { itemId : string;
    width : Z;
    height : Z;
    depth : Z;
    preferredZone : string;
    priority : option Z }.
End Item.

Module Container.
Record t := mk
  { containerId : string;
    zone : string;
    width : Z;
    height : Z;
    depth : Z }.
End Container.

(** A rectangle on the open face: the dict [{"x", "y", "w", "h"}]. *)
Module Rect.
Record t := mk { x : Z; y : Z; w : Z; h : Z }.
End Rect.

(** A coordinate triple; [depth] is read with [.get("depth", 0)] by the
    retrieval planner, so it may be absent. *)
Module Coord.
Record t := mk { width : Z; depth : option Z; height : Z }.
End Coord.

Module Position.
Record t := mk { startCoordinates : Coord.t; endCoordinates : Coord.t }.
End Position.

Module Placement.
Record t := mk
  { containerId : string;
    itemId : string;
    position : Position.t;
    name : option string;
    itemName : option string }.
End Placement.

(** Candidate orientation: the dict [{"w", "h", "d", "area"}]. *)
Module Orientation.
Record t := mk { w : Z; h : Z; d : Z; area : Z }.
End Orientation.

(* ------------------------------------------------------------------ *)
(** ** Python built-ins used by the code *)

(** [min(l, key=key)] on a non-empty list given as head and tail: the first
    element with the least key. *)
Definition py_min_by {A} (key : A -> Z) (x : A) (l : list A) : A :=
  fold_left (fun best o => if key o <? key best then o else best) l x.

(** [dict.get(k, default)] for an optional numeric field. *)
Definition get_default (o : option Z) (default : Z) : Z :=
  match o with Some v => v | None => default end.

(* ------------------------------------------------------------------ *)
(** ** Placement helpers *)

Definition orientations (item : Item.t) : list Orientation.t :=
  let w := Item.width item in
  let h := Item.height item in
  let d := Item.depth item in
  [ Orientation.mk w h d (w * h);
    Orientation.mk w d h (w * d);
    Orientation.mk h d w (h * d) ].

Definition get_best_orientation (item : Item.t) (container_depth : Z)
  : option (Z * Z * Z) :=
  let fitting :=
    filter (fun o => Orientation.d o <=? container_depth) (orientations item) in
  match fitting with
  | [] => None
  | o :: rest =>
    let best := py_min_by Orientation.area o rest in
    Some (Orientation.w best, Orientation.h best, Orientation.d best)
  end.

Definition split_free_rectangle (fr pr : Rect.t) : list Rect.t :=
  let ix := Z.max (Rect.x fr) (Rect.x pr) in
  let iy := Z.max (Rect.y fr) (Rect.y pr) in
  let i_right := Z.min (Rect.x fr + Rect.w fr) (Rect.x pr + Rect.w pr) in
  let i_top := Z.min (Rect.y fr + Rect.h fr) (Rect.y pr + Rect.h pr) in
  if (i_right <=? ix) || (i_top <=? iy) then [fr]
  else
    let rects :=
    (if ix >? Rect.x fr
     then [Rect.mk (Rect.x fr) (Rect.y fr) (ix - Rect.x fr) (Rect.h fr)]
     else [])
    ++ (if i_right <? Rect.x fr + Rect.w fr
        then [Rect.mk i_right (Rect.y fr)
                ((Rect.x fr + Rect.w fr) - i_right) (Rect.h fr)]
        else [])
    ++ (if i_top <? Rect.y fr + Rect.h fr
        then [Rect.mk (Rect.x fr) i_top (Rect.w fr)
                ((Rect.y fr + Rect.h fr) - i_top)]
        else [])
    ++ (if iy >? Rect.y fr
        then [Rect.mk (Rect.x fr) (Rect.y fr) (Rect.w fr) (iy - Rect.y fr)]
        else []) in
    filter (fun r => (Rect.w r >? 0) && (Rect.h r >? 0)) rects.

(** The containment test of [prune_free_rectangles]: [r1] lies inside [r2],
    edges included. *)
Definition contained_in (r1 r2 : Rect.t) : bool :=
  (Rect.x r1 >=? Rect.x r2) && (Rect.y r1 >=? Rect.y r2)
  && (Rect.x r1 + Rect.w r1 <=? Rect.x r2 + Rect.w r2)
  && (Rect.y r1 + Rect.h r1 <=? Rect.y r2 + Rect.h r2).

(** Inner loop of [prune_free_rectangles]: scan [free_rects] from index [j],
    stop at the first [r2] at another index that contains [r1]. *)
Fixpoint prune_inner (i : nat) (r1 : Rect.t) (j : nat) (rest : list Rect.t)
  : bool :=
  match rest with
  | [] => false
  | r2 :: rest' =>
    if negb (Nat.eqb i j) && contained_in r1 r2 then true
    else prune_inner i r1 (S j) rest'
  end.

(** Outer loop: [rest] is the part of [free_rects] still to visit, starting at
    index [i]. *)
Fixpoint prune_outer (free_rects : list Rect.t) (i : nat) (rest : list Rect.t)
  : list Rect.t :=
  match rest with
  | [] => []
  | r1 :: rest' =>
    if prune_inner i r1 0 free_rects
    then prune_outer free_rects (S i) rest'
    else r1 :: prune_outer free_rects (S i) rest'
  end.

Definition prune_free_rectangles (free_rects : list Rect.t) : list Rect.t :=
  prune_outer free_rects 0 free_rects.

(** Loop state of [find_position_for_rect]. The four variables
    [best_rect], [best_x], [best_y], [best_score] are [None] together before
    the first fit and assigned together afterwards, so the state is one
    optional quadruple [(best_rect, best_x, best_y, best_score)]; [None] is
    the returned tuple of four [None]s. *)
Definition BestFit : Type := option (Rect.t * Z * Z * Z).

Definition find_position_step (rw rh : Z) (st : BestFit) (fr : Rect.t)
  : BestFit :=
  if (Rect.w fr >=? rw) && (Rect.h fr >=? rh) then
    let leftover := Rect.w fr * Rect.h fr - rw * rh in
    if match st with
       | None => true
       | Some (_, _, _, best_score) => leftover <? best_score
       end
    then Some (fr, Rect.x fr, Rect.y fr, leftover)
    else st
  else st.

Definition find_position_for_rect (free_rects : list Rect.t) (rw rh : Z)
  : BestFit :=
  fold_left (find_position_step rw rh) free_rects None.

(** The free-rectangle update shared by [pack_open_face_in_container]
    (lines 143-146) and [place_items_optimally] (lines 191-194): split every
    free rectangle against the placed one, then prune. *)
Definition update_free_rects (free_rects : list Rect.t) (placed_rect : Rect.t)
  : list Rect.t :=
  let new_free :=
    flat_map (fun r => split_free_rectangle r placed_rect) free_rects in
  prune_free_rectangles new_free.

(** One placement on a face, the fragment both packing loops run for a
    footprint [rw] x [rh]: best-fit search, anchor at the chosen rectangle's
    corner, update of the free rectangles. [None] when nothing fits. *)
Definition place_footprint (free_rects : list Rect.t) (rw rh : Z)
  : option (Z * Z * list Rect.t) :=
  match find_position_for_rect free_rects rw rh with
  | None => None
  | Some (fr, px, py, score) =>
    let placed_rect := Rect.mk px py rw rh in
    Some (px, py, update_free_rects free_rects placed_rect)
  end.

(** The placement document both loops build. *)
Definition placement_doc (cid iid : string) (px py rw rh rd : Z)
  : Placement.t :=
  Placement.mk cid iid
    (Position.mk (Coord.mk px (Some 0) py)
                 (Coord.mk (px + rw) (Some rd) (py + rh)))
    None None.

Module PackState.
Record t := mk
  { free_rects : list Rect.t;
    placements : list Placement.t;
    unplaced : list Item.t }.
End PackState.

Definition pack_step (container : Container.t) (st : PackState.t)
  (item : Item.t) : PackState.t :=
  let skip :=
    PackState.mk (PackState.free_rects st) (PackState.placements st)
                 (PackState.unplaced st ++ [item]) in
  match get_best_orientation item (Container.depth container) with
  | None => skip
  | Some (rw, rh, rd) =>
    match place_footprint (PackState.free_rects st) rw rh with
    | None => skip
    | Some (px, py, free_rects') =>
      let placement :=
        placement_doc (Container.containerId container) (Item.itemId item)
                      px py rw rh rd in
      PackState.mk free_rects' (PackState.placements st ++ [placement])
                   (PackState.unplaced st)
    end
  end.

(** The state of [pack_open_face_in_container] when its loop ends. *)
Definition pack_open_face_state (container : Container.t)
  (items : list Item.t) : PackState.t :=
  let W := Container.width container in
  let H := Container.height container in
  fold_left (pack_step container) items
            (PackState.mk [Rect.mk 0 0 W H] [] []).

Definition pack_open_face_in_container (container : Container.t)
  (items : list Item.t) : list Placement.t * list Item.t :=
  let st := pack_open_face_state container items in
  (PackState.placements st, PackState.unplaced st).

(* ------------------------------------------------------------------ *)
(** ** Logging *)

Module LogEntry.
Record t := mk
  { timestamp : Z;
    userId : string;
    actionType : string;
    itemId : string;
    fromContainer : string;
    toContainer : string;
    reason : string }.
End LogEntry.

(** What [record_log] reads and writes: the clock behind [datetime.utcnow()]
    (its successive readings), the in-memory [LOGS] list and the ["logs"]
    array of [logs.json]. *)
Module World.
Record t := mk
  { clock : nat -> Z;
    reads : nat;
    LOGS : list LogEntry.t;
    logs_json : list LogEntry.t }.
End World.

Definition record_log (user_id action_type item_id from_container
  to_container reason : string) (wd : World.t) : World.t :=
  let log_entry :=
    LogEntry.mk (World.clock wd (World.reads wd)) user_id action_type item_id
                from_container to_container reason in
  World.mk (World.clock wd) (S (World.reads wd))
           (World.LOGS wd ++ [log_entry])
           (World.logs_json wd ++ [log_entry]).

(* ------------------------------------------------------------------ *)
(** ** Insertion-ordered dictionaries and stable sorting *)

Section Dict.
Variable V : Type.

Definition dict : Type := list (string * V).

Fixpoint dict_get (k : string) (d : dict) : option V :=
  match d with
  | [] => None
  | (k', v) :: rest => if String.eqb k' k then Some v else dict_get k rest
  end.

(** [d[k] = v]: replace in place, or append a new key. *)
Fixpoint dict_set (k : string) (v : V) (d : dict) : dict :=
  match d with
  | [] => [(k, v)]
  | (k', v') :: rest =>
    if String.eqb k' k then (k', v) :: rest
    else (k', v') :: dict_set k v rest
  end.

End Dict.

(** [d.setdefault(k, []).append(x)]. *)
Fixpoint setdefault_append {A} (k : string) (x : A) (d : dict (list A))
  : dict (list A) :=
  match d with
  | [] => [(k, [x])]
  | (k', l) :: rest =>
    if String.eqb k' k then (k', l ++ [x]) :: rest
    else (k', l) :: setdefault_append k x rest
  end.

Section Sort.
Variable A : Type.
(** [before a b]: the sort order puts [a] strictly ahead of [b]. *)
Variable before : A -> A -> bool.

Fixpoint insert_stable (x : A) (sorted : list A) : list A :=
  match sorted with
  | [] => [x]
  | y :: rest =>
    if before y x then y :: insert_stable x rest else x :: y :: rest
  end.

(** [list.sort]: a stable sort; elements that compare equal keep their
    input order, also under [reverse=True]. *)
Definition py_sort (l : list A) : list A :=
  fold_right insert_stable [] l.

End Sort.

(* ------------------------------------------------------------------ *)
(** ** Zone allocator *)

Module Data.
Record t := mk
  { items : option (list Item.t);
    containers : option (list Container.t) }.
End Data.

Definition get_list {A} (o : option (list A)) : list A :=
  match o with Some l => l | None => [] end.

Module FaceData.
Record t := mk
  { container : Container.t;
    free_rects : list Rect.t;
    placements : list Placement.t }.
End FaceData.

(** The key of line 158: [x.get("priority", 0)]. *)
Definition priority_key (it : Item.t) : Z :=
  get_default (Item.priority it) 0.

Definition sort_items (items_list : list Item.t) : list Item.t :=
  py_sort (fun a b => priority_key a >? priority_key b) items_list.

Definition sort_containers (c_list : list Container.t) : list Container.t :=
  py_sort (fun a b =>
             String.ltb (Container.containerId a) (Container.containerId b))
          c_list.

Definition zone_to_items (active_items : list Item.t) : dict (list Item.t) :=
  fold_left (fun d it => setdefault_append (Item.preferredZone it) it d)
            active_items [].

Definition container_face_data (c_list : list Container.t)
  : dict FaceData.t :=
  fold_left
    (fun d c =>
       dict_set (Container.containerId c)
         (FaceData.mk c
            [Rect.mk 0 0 (Container.width c) (Container.height c)] [])
         d)
    c_list [].

(** The container loop of lines 172-196 for one item. The result is
    [(placed, container_face_data, world)]; on a fit the entry is updated in
    place and the scan stops. *)
Fixpoint scan_containers (item : Item.t) (entries : dict FaceData.t)
  (wd : World.t) : bool * dict FaceData.t * World.t :=
  match entries with
  | [] => (false, [], wd)
  | (cid, d_item) :: rest =>
    let cont := FaceData.container d_item in
    let continue :=
      let '(placed, rest', wd') := scan_containers item rest wd in
      (placed, (cid, d_item) :: rest', wd') in
    match get_best_orientation item (Container.depth cont) with
    | None => continue
    | Some (rw, rh, rd) =>
      match place_footprint (FaceData.free_rects d_item) rw rh with
      | None => continue
      | Some (px, py, free_rects') =>
        let pdoc := placement_doc cid (Item.itemId item) px py rw rh rd in
        let wd' :=
          record_log "system" "NEW_PLACEMENT" (Item.itemId item) "NONE" cid
                     "Placed on open face." wd in
        let d_item' :=
          FaceData.mk cont free_rects'
                      (FaceData.placements d_item ++ [pdoc]) in
        (true, (cid, d_item') :: rest, wd')
      end
    end
  end.

(** Loop state of lines 169-198: [(container_face_data, remaining, world)]. *)
Definition item_step (st : dict FaceData.t * list Item.t * World.t)
  (item : Item.t) : dict FaceData.t * list Item.t * World.t :=
  let '(cfd, remaining, wd) := st in
  let '(placed, cfd', wd') := scan_containers item cfd wd in
  if placed then (cfd', remaining, wd')
  else (cfd', remaining ++ [item], wd').

Module AllocState.
Record t := mk
  { all_open_face_placements : list Placement.t;
    unplaced_global : list Item.t;
    world : World.t }.
End AllocState.

(** Body of the zone loop, lines 157-201. *)
Definition zone_step (data : Data.t) (st : AllocState.t)
  (entry : string * list Item.t) : AllocState.t :=
  let '(zone, items_list) := entry in
  let items_list := sort_items items_list in
  let c_list :=
    filter (fun c => String.eqb (Container.zone c) zone)
           (get_list (Data.containers data)) in
  let c_list := sort_containers c_list in
  let '(cfd, remaining, wd) :=
    fold_left item_step items_list
              (container_face_data c_list, [], AllocState.world st) in
  AllocState.mk
    (AllocState.all_open_face_placements st
       ++ flat_map (fun e => FaceData.placements (snd e)) cfd)
    (AllocState.unplaced_global st ++ remaining)
    wd.

(** The locals of [place_items_optimally] when it returns. *)
Definition place_items_optimally_state (data : Data.t) (wd : World.t)
  : AllocState.t :=
  let active_items := get_list (Data.items data) in
  fold_left (zone_step data) (zone_to_items active_items)
            (AllocState.mk [] [] wd).

Inductive Action := place | move | remove | retrieve.

Module Step.
Record t := mk
  { step : Z;
    action : Action;
    itemId : string;
    fromContainer : string;
    fromPosition : Position.t;
    toContainer : string;
    toPosition : Position.t }.
End Step.

(** [place_items_optimally] returns the placements and an empty
    rearrangement list; the second component is the world it leaves. *)
Definition place_items_optimally (data : Data.t) (wd : World.t)
  : (list Placement.t * list Step.t) * World.t :=
  let st := place_items_optimally_state data wd in
  let rearrangements : list Step.t := [] in
  ((AllocState.all_open_face_placements st, rearrangements),
   AllocState.world st).

(* ------------------------------------------------------------------ *)
(** ** Rearrangement differ *)

Definition option_Z_eqb (a b : option Z) : bool :=
  match a, b with
  | Some u, Some v => u =? v
  | None, None => true
  | _, _ => false
  end.

Definition coord_eqb (a b : Coord.t) : bool :=
  (Coord.width a =? Coord.width b)
  && option_Z_eqb (Coord.depth a) (Coord.depth b)
  && (Coord.height a =? Coord.height b).

(** [==] on two position dicts: key-wise equality of the coordinates. *)
Definition position_eqb (a b : Position.t) : bool :=
  coord_eqb (Position.startCoordinates a) (Position.startCoordinates b)
  && coord_eqb (Position.endCoordinates a) (Position.endCoordinates b).

Definition zero_position : Position.t :=
  Position.mk (Coord.mk 0 (Some 0) 0) (Coord.mk 0 (Some 0) 0).

(** [{p["itemId"]: p for p in placements}]. *)
Definition placements_by_id (placements : list Placement.t)
  : dict Placement.t :=
  fold_left (fun d p => dict_set (Placement.itemId p) p d) placements [].

(** Loop state of both passes: [(rearrangements, step)]. *)
Definition new_pass_step (old_dict : dict Placement.t)
  (st : list Step.t * Z) (entry : string * Placement.t) : list Step.t * Z :=
  let '(rearrangements, step) := st in
  let '(itemId, newp) := entry in
  match dict_get itemId old_dict with
  | Some oldp =>
    if negb (String.eqb (Placement.containerId oldp)
                        (Placement.containerId newp))
       || negb (position_eqb (Placement.position oldp)
                             (Placement.position newp))
    then
      (rearrangements ++
         [Step.mk step move itemId
            (Placement.containerId oldp) (Placement.position oldp)
            (Placement.containerId newp) (Placement.position newp)],
       step + 1)
    else st
  | None =>
    (rearrangements ++
       [Step.mk step place itemId
          "NONE" zero_position
          (Placement.containerId newp) (Placement.position newp)],
     step + 1)
  end.

Definition old_pass_step (new_dict : dict Placement.t)
  (st : list Step.t * Z) (entry : string * Placement.t) : list Step.t * Z :=
  let '(rearrangements, step) := st in
  let '(itemId, oldp) := entry in
  match dict_get itemId new_dict with
  | None =>
    (rearrangements ++
       [Step.mk step remove itemId
          (Placement.containerId oldp) (Placement.position oldp)
          "NONE" zero_position],
     step + 1)
  | Some _ => st
  end.

Definition generate_rearrangements (old_placements new_placements
  : list Placement.t) : list Step.t :=
  let old_dict := placements_by_id old_placements in
  let new_dict := placements_by_id new_placements in
  let st := fold_left (new_pass_step old_dict) new_dict ([], 1) in
  let st := fold_left (old_pass_step new_dict) old_dict st in
  fst st.

(* ------------------------------------------------------------------ *)
(** ** Retrieval planner (the plan built by [search_item]) *)

Module RetrievalStep.
Record t := mk
  { step : Z;
    action : Action;
    placeBack : bool;
    itemId : string;
    itemName : string }.
End RetrievalStep.

(** [p.get("name") or p.get("itemName") or "Unknown"]: a missing or empty
    string is falsy. *)
Definition display_name (p : Placement.t) : string :=
  match Placement.name p with
  | Some (String c s) => String c s
  | _ =>
    match Placement.itemName p with
    | Some (String c s) => String c s
    | _ => "Unknown"%string
    end
  end.

Definition start_depth (p : Placement.t) : Z :=
  get_default (Coord.depth (Position.startCoordinates (Placement.position p)))
              0.

(** Body of the scan of lines 348-358. *)
Definition blocking_step (target : Placement.t)
  (blocking_items : list Placement.t) (p : Placement.t)
  : list Placement.t :=
  let t_pos := Placement.position target in
  let t_x := Coord.width (Position.startCoordinates t_pos) in
  let t_y := Coord.height (Position.startCoordinates t_pos) in
  let t_w := Coord.width (Position.endCoordinates t_pos) - t_x in
  let t_h := Coord.height (Position.endCoordinates t_pos) - t_y in
  if String.eqb (Placement.containerId p) (Placement.containerId target)
     && negb (String.eqb (Placement.itemId p) (Placement.itemId target))
  then
    if start_depth p =? 0 then
      let p_start := Position.startCoordinates (Placement.position p) in
      let p_x := Coord.width p_start in
      let p_y := Coord.height p_start in
      let p_w :=
        Coord.width (Position.endCoordinates (Placement.position p)) - p_x in
      let p_h :=
        Coord.height (Position.endCoordinates (Placement.position p)) - p_y in
      if (p_x <? t_x + t_w) && (p_x + p_w >? t_x)
         && (p_y <? t_y + t_h) && (p_y + p_h >? t_y)
      then blocking_items ++ [p]
      else blocking_items
    else blocking_items
  else blocking_items.

(** Body of the loop of lines 360-369; state [(retrieval_steps, step)]. *)
Definition remove_step (st : list RetrievalStep.t * Z) (block : Placement.t)
  : list RetrievalStep.t * Z :=
  let '(retrieval_steps, step) := st in
  (retrieval_steps ++
     [RetrievalStep.mk step remove true (Placement.itemId block)
                       (display_name block)],
   step + 1).

(** Lines 324 and 332-376 of [search_item]: the retrieval plan for a target
    found in [placements]. *)
Definition retrieval_steps (target : Placement.t)
  (placements : list Placement.t) : list RetrievalStep.t :=
  let found_name := display_name target in
  if start_depth target =? 0 then
    [RetrievalStep.mk 0 retrieve false (Placement.itemId target) found_name]
  else
    let blocking_items := fold_left (blocking_step target) placements [] in
    let '(retrieval_steps, step) :=
      fold_left remove_step blocking_items ([], 1) in
    retrieval_steps ++
      [RetrievalStep.mk step retrieve false (Placement.itemId target)
                        found_name].

(* ------------------------------------------------------------------ *)
(** ** Stored files *)

(** A row of [items.json]; every key is read with [.get]. *)
Module StoredItem.
Record t := mk
  { itemId : option string;
    name : option string;
    usageLimit : option Z;
    expiryDate : option string;
    width : option Z;
    height : option Z;
    depth : option Z;
    containerId : option string;
    position : option Position.t }.
End StoredItem.

(** What a JSON file holds: nothing readable ([Missing]: no file, or no
    JSON), a top-level list, or an object whose list sits under one key that
    may be absent. *)
Inductive FileContent (A : Type) : Type :=
| Missing
| JList (rows : list A)
| JObject (field : option (list A)).
Arguments Missing {A}.
Arguments JList {A} rows.
Arguments JObject {A} field.

(** [placement.json], [items.json] and [containers.json], and whether each
    can be opened for writing. *)
Module Files.
Record t := mk
  { placement_json : FileContent Placement.t;
    items_json : FileContent StoredItem.t;
    containers_json : FileContent Container.t;
    placement_writable : bool;
    items_writable : bool;
    containers_writable : bool }.
End Files.

Definition set_placement_json (fs : Files.t) (c : FileContent Placement.t)
  : Files.t :=
  Files.mk c (Files.items_json fs) (Files.containers_json fs)
           (Files.placement_writable fs) (Files.items_writable fs)
           (Files.containers_writable fs).

Definition set_items_json (fs : Files.t) (c : FileContent StoredItem.t)
  : Files.t :=
  Files.mk (Files.placement_json fs) c (Files.containers_json fs)
           (Files.placement_writable fs) (Files.items_writable fs)
           (Files.containers_writable fs).

Definition set_containers_json (fs : Files.t) (c : FileContent Container.t)
  : Files.t :=
  Files.mk (Files.placement_json fs) (Files.items_json fs) c
           (Files.placement_writable fs) (Files.items_writable fs)
           (Files.containers_writable fs).

(** [load_json(filename, default)]: the file's content, or the default when
    the file is missing or unreadable. *)
Definition load_json {A} (file : FileContent A) (default : FileContent A)
  : FileContent A :=
  match file with
  | Missing => default
  | _ => file
  end.

(** What a handler answers: a JSON body with a status code, or an exception
    that leaves the handler. *)
Inductive Reply (B : Type) : Type :=
| Json (status : Z) (body : B)
| Unhandled.
Arguments Json {B} status body.
Arguments Unhandled {B}.

(* ------------------------------------------------------------------ *)
(** ** Retrieve item ([/api/retrieve]) *)

Module RetrieveRequest.
Record t := mk
  { itemId : option string;
    userId : option string;
    timestamp : option string }.
End RetrieveRequest.

Module RetrieveBody.
Record t := mk
  { success : bool;
    message : option string;
    warning : option string }.
End RetrieveBody.

Definition option_string_eqb (a : option string) (b : string) : bool :=
  match a with
  | Some s => String.eqb s b
  | None => false
  end.

Definition set_usageLimit (item : StoredItem.t) (u : Z) : StoredItem.t :=
  StoredItem.mk (StoredItem.itemId item) (StoredItem.name item) (Some u)
                (StoredItem.expiryDate item) (StoredItem.width item)
                (StoredItem.height item) (StoredItem.depth item)
                (StoredItem.containerId item) (StoredItem.position item).

(** The loop of lines 289-292: the first row of the item that has uses left
    loses one, and the loop stops. *)
Fixpoint use_once (item_id : string) (items : list StoredItem.t)
  : list StoredItem.t :=
  match items with
  | [] => []
  | item :: rest =>
    if option_string_eqb (StoredItem.itemId item) item_id
       && (get_default (StoredItem.usageLimit item) 0 >? 0)
    then set_usageLimit item (get_default (StoredItem.usageLimit item) 0 - 1)
           :: rest
    else item :: use_once item_id rest
  end.

(** [retrieve_item]. The request is [None] for a missing or empty body. *)
Definition retrieve_item (req : option RetrieveRequest.t) (fs : Files.t)
  (wd : World.t) : Reply RetrieveBody.t * Files.t * World.t :=
  let missing :=
    (Json 400 (RetrieveBody.mk false (Some "Missing required field(s)"%string) None),
     fs, wd) in
  match req with
  | None => missing
  | Some data =>
    match RetrieveRequest.itemId data, RetrieveRequest.userId data,
          RetrieveRequest.timestamp data with
    | Some item_id, Some user_id, Some timestamp =>
      match Files.placement_json fs with
      | JObject field =>
        let placements := get_list field in
        let new_placements :=
          filter (fun p => negb (String.eqb (Placement.itemId p) item_id))
                 placements in
        if Nat.eqb (length new_placements) (length placements) then
          (Json 404 (RetrieveBody.mk false (Some "Item not found"%string) None),
           fs, wd)
        else if negb (Files.placement_writable fs) then
          (Json 500
             (RetrieveBody.mk false (Some "Error updating placement file"%string)
                              None),
           fs, wd)
        else
          let fs := set_placement_json fs (JObject (Some new_placements)) in
          match Files.items_json fs with
          | Missing =>
            (Json 200
               (RetrieveBody.mk true None
                  (Some "Item retrieved but failed to update usageLimit due to items file error"%string)),
             fs, wd)
          | JList _ => (Unhandled, fs, wd)
          | JObject ifield =>
            if negb (Files.items_writable fs) then
              (Json 200
                 (RetrieveBody.mk true None
                    (Some "Item retrieved but failed to update items file"%string)),
               fs, wd)
            else
              let fs :=
                set_items_json fs
                  (JObject (option_map (use_once item_id) ifield)) in
              let wd :=
                record_log user_id "ITEM_RETRIEVAL" item_id "Placed"
                           "Retrieved"
                           (String.append "Item retrieved at " timestamp)
                           wd in
              (Json 200 (RetrieveBody.mk true None None), fs, wd)
          end
      | _ =>
        (Json 500
           (RetrieveBody.mk false (Some "Placement file not found"%string) None),
         fs, wd)
      end
    | _, _, _ => missing
    end
  end.

(* ------------------------------------------------------------------ *)
(** ** Complete undocking ([/api/waste/complete-undocking]) *)

Module UndockRequest.
Record t := mk
  { undockingContainerId : option string;
    timestamp : option string }.
End UndockRequest.

Module UndockBody.
Record t := mk
  { success : bool;
    message : option string;
    itemsRemoved : option Z }.
End UndockBody.

(** A request value that is present and not empty. *)
Definition truthy (o : option string) : option string :=
  match o with
  | Some (String c s) => Some (String c s)
  | _ => None
  end.

Definition rows {A} (c : FileContent A) : list A :=
  match c with
  | Missing => []
  | JList l => l
  | JObject field => get_list field
  end.

(** Write-back of lines 574-578 and 585-589: a list file stays a list, an
    object gets its key assigned. *)
Definition with_rows {A} (c : FileContent A) (l : list A) : FileContent A :=
  match c with
  | JList _ => JList l
  | _ => JObject (Some l)
  end.

Section Undocking.

(** Whether [datetime.fromisoformat(timestamp.replace("Z", "+00:00"))]
    accepts the timestamp. *)
Variable valid_timestamp : string -> bool.

Definition waste_complete_undocking (req : option UndockRequest.t)
  (fs : Files.t) (wd : World.t) : Reply UndockBody.t * Files.t * World.t :=
  match req with
  | None =>
    (Json 400 (UndockBody.mk false (Some "Invalid JSON"%string) None), fs, wd)
  | Some data =>
    match truthy (UndockRequest.undockingContainerId data),
          truthy (UndockRequest.timestamp data) with
    | Some undocking_container_id, Some timestamp =>
      if negb (valid_timestamp timestamp) then
        (Json 400 (UndockBody.mk false (Some "Invalid timestamp"%string) None),
         fs, wd)
      else
        match load_json (Files.placement_json fs) (JObject (Some [])) with
        | JObject field =>
          let placements := get_list field in
          let waste_item_ids :=
            map Placement.itemId
                (filter (fun p => String.eqb (Placement.containerId p)
                                             undocking_container_id)
                        placements) in
          let new_placements :=
            filter (fun p => negb (String.eqb (Placement.containerId p)
                                              undocking_container_id))
                   placements in
          if negb (Files.placement_writable fs) then (Unhandled, fs, wd)
          else
            let fs := set_placement_json fs (JObject (Some new_placements)) in
            let items_data :=
              load_json (Files.items_json fs) (JObject (Some [])) in
            let items := rows items_data in
            let original_count := length items in
            let new_items :=
              filter (fun item =>
                        negb (existsb
                                (option_string_eqb (StoredItem.itemId item))
                                waste_item_ids))
                     items in
            let items_removed :=
              Z.of_nat original_count - Z.of_nat (length new_items) in
            if negb (Files.items_writable fs) then (Unhandled, fs, wd)
            else
              let fs := set_items_json fs (with_rows items_data new_items) in
              let containers_data :=
                load_json (Files.containers_json fs) (JObject (Some [])) in
              let containers := rows containers_data in
              let new_containers :=
                filter (fun c => negb (String.eqb (Container.containerId c)
                                                  undocking_container_id))
                       containers in
              if negb (Files.containers_writable fs) then (Unhandled, fs, wd)
              else
                let fs :=
                  set_containers_json fs
                    (with_rows containers_data new_containers) in
                let wd :=
                  record_log "system" "COMPLETE_UNDOCKING" ""
                             undocking_container_id "Removed"
                             (String.append "Undocking completed at "
                                            timestamp)
                             wd in
                (Json 200 (UndockBody.mk true None (Some items_removed)),
                 fs, wd)
        | _ => (Unhandled, fs, wd)
        end
    | _, _ =>
      (Json 400 (UndockBody.mk false (Some "Missing parameter(s)"%string) None),
       fs, wd)
    end
  end.

End Undocking.

(* ------------------------------------------------------------------ *)
(** ** Logs ([/api/logs]) *)

Module LogQuery.
Record t := mk
  { startDate : option string;
    endDate : option string;
    itemId : option string;
    userId : option string;
    actionType : option string }.
End LogQuery.

(** A list comprehension whose condition may raise: [None] as soon as one
    evaluation raises. *)
Fixpoint filter_or_raise {A} (test : A -> option bool) (l : list A)
  : option (list A) :=
  match l with
  | [] => Some []
  | a :: rest =>
    match test a with
    | None => None
    | Some b =>
      match filter_or_raise test rest with
      | None => None
      | Some rest' => Some (if b then a :: rest' else rest')
      end
    end
  end.

Section Logs.

(** The [datetime] library: parsed dates, [datetime.fromisoformat] on a query
    argument ([None] when it raises), and the two comparisons of a log
    entry's timestamp with a parsed date ([None] when parsing the entry's
    timestamp or comparing raises). *)
Variable DateTime : Type.
Variable fromisoformat : string -> option DateTime.
Variable timestamp_ge : Z -> DateTime -> option bool.
Variable timestamp_le : Z -> DateTime -> option bool.

(** Lines 714-719 and 720-725: any exception leaves the list as it was. *)
Definition filter_by_date (arg : option string)
  (test : Z -> DateTime -> option bool) (filtered_logs : list LogEntry.t)
  : list LogEntry.t :=
  match truthy arg with
  | None => filtered_logs
  | Some date_str =>
    match fromisoformat date_str with
    | None => filtered_logs
    | Some date =>
      match filter_or_raise (fun log => test (LogEntry.timestamp log) date)
                            filtered_logs with
      | None => filtered_logs
      | Some l => l
      end
    end
  end.

(** Lines 726-731. *)
Definition filter_by_field (arg : option string)
  (field : LogEntry.t -> string) (filtered_logs : list LogEntry.t)
  : list LogEntry.t :=
  match truthy arg with
  | None => filtered_logs
  | Some v => filter (fun log => String.eqb (field log) v) filtered_logs
  end.

Definition get_logs (q : LogQuery.t) (wd : World.t) : list LogEntry.t :=
  let filtered_logs := World.logs_json wd in
  let filtered_logs :=
    filter_by_date (LogQuery.startDate q) timestamp_ge filtered_logs in
  let filtered_logs :=
    filter_by_date (LogQuery.endDate q) timestamp_le filtered_logs in
  let filtered_logs :=
    filter_by_field (LogQuery.itemId q) LogEntry.itemId filtered_logs in
  let filtered_logs :=
    filter_by_field (LogQuery.userId q) LogEntry.userId filtered_logs in
  let filtered_logs :=
    filter_by_field (LogQuery.actionType q) LogEntry.actionType
                    filtered_logs in
  filtered_logs.

End Logs.

(* ------------------------------------------------------------------ *)
(** ** Waste management ([/api/waste/identify], [/api/waste/return-plan]) *)

Definition get_string (o : option string) (default : string) : string :=
  match o with Some s => s | None => default end.

(** [datetime.utcnow()]: one reading of the clock. *)
Definition utcnow (wd : World.t) : Z * World.t :=
  (World.clock wd (World.reads wd),
   World.mk (World.clock wd) (S (World.reads wd)) (World.LOGS wd)
            (World.logs_json wd)).

(** A row of the [wasteItems] answer. *)
Module WasteItem.
Record t := mk
  { itemId : string;
    name : string;
    reason : string;
    containerId : string;
    position : Position.t }.
End WasteItem.

(** An item the return plan marked: the row with [calculatedVolume],
    [calculatedWeight] and [wasteReason] set. *)
Module Marked.
Record t := mk
  { item : StoredItem.t;
    calculatedVolume : Z;
    calculatedWeight : Z;
    wasteReason : string }.
End Marked.

Module ReturnStep.
Record t := mk
  { step : Z;
    itemId : string;
    itemName : string;
    fromContainer : string;
    toContainer : string }.
End ReturnStep.

Module ReturnItem.
Record t := mk { itemId : string; name : string; reason : string }.
End ReturnItem.

Module Manifest.
Record t := mk
  { undockingContainerId : string;
    undockingDate : string;
    returnItems : list ReturnItem.t;
    totalVolume : Z;
    totalWeight : Z }.
End Manifest.

Inductive JValue := JNum (n : Z) | JText (s : string).

Module ReturnPlanRequest.
Record t := mk
  { undockingContainerId : option string;
    undockingDate : option string;
    maxWeight : option JValue }.
End ReturnPlanRequest.

Inductive ReturnPlanBody :=
| PlanError (message : string)
| Plan (returnPlan : list ReturnStep.t)
       (retrievalSteps : list RetrievalStep.t)
       (returnManifest : Manifest.t).

Inductive WasteBody :=
| WasteItems (wasteItems : list WasteItem.t).

Section Waste.

(** The [datetime] library on an item's non-empty [expiryDate] and the
    current date: whether the parsed expiry date is before it; [None] when
    both parsing attempts or the comparison raise. *)
Variable expired_before : string -> Z -> option bool.

(** [float(max_weight)] on a text value; [None] for a [ValueError]. *)
Variable float_of_text : string -> option Z.

(** Lines 391-401 (and 440-450): the reason an item is waste, [""] when it is
    not; [None] when the date handling raises. *)
Definition waste_reason (item : StoredItem.t) (current_date : Z)
  : option string :=
  let after_expiry :=
    match truthy (StoredItem.expiryDate item) with
    | None => Some ""%string
    | Some expiry_str =>
      match expired_before expiry_str current_date with
      | None => None
      | Some true => Some "Expired"%string
      | Some false => Some ""%string
      end
    end in
  match after_expiry with
  | None => None
  | Some reason =>
    if String.eqb reason "" && (get_default (StoredItem.usageLimit item) 1 =? 0)
    then Some "Out of Uses"%string
    else Some reason
  end.

Definition waste_item_of (item : StoredItem.t) (reason : string)
  : WasteItem.t :=
  WasteItem.mk (get_string (StoredItem.itemId item) "")
               (get_string (StoredItem.name item) "Unknown")
               reason
               (get_string (StoredItem.containerId item) "Not Placed")
               (match StoredItem.position item with
                | Some pos => pos
                | None => zero_position
                end).

(** The loop of lines 390-413. *)
Fixpoint identify_loop (current_date : Z) (items : list StoredItem.t)
  : option (list WasteItem.t) :=
  match items with
  | [] => Some []
  | item :: rest =>
    match waste_reason item current_date with
    | None => None
    | Some reason =>
      match identify_loop current_date rest with
      | None => None
      | Some waste_items =>
        if String.eqb reason "" then Some waste_items
        else Some (waste_item_of item reason :: waste_items)
      end
    end
  end.

Definition identify_waste (fs : Files.t) (wd : World.t)
  : Reply WasteBody * World.t :=
  let items_data := load_json (Files.items_json fs) (JObject (Some [])) in
  let items := rows items_data in
  let '(current_date, wd) := utcnow wd in
  match identify_loop current_date items with
  | None => (Unhandled, wd)
  | Some waste_items =>
    let wd :=
      record_log "system" "IDENTIFY_WASTE" "" "N/A" "N/A"
                 "Waste identification completed" wd in
    (Json 200 (WasteItems waste_items), wd)
  end.

(** The loop of lines 439-457. *)
Fixpoint mark_loop (current_date : Z) (items : list StoredItem.t)
  : option (list Marked.t) :=
  match items with
  | [] => Some []
  | item :: rest =>
    match waste_reason item current_date with
    | None => None
    | Some reason =>
      match mark_loop current_date rest with
      | None => None
      | Some waste_items =>
        if String.eqb reason "" then Some waste_items
        else
          let volume :=
            get_default (StoredItem.width item) 0
            * get_default (StoredItem.height item) 0
            * get_default (StoredItem.depth item) 0 in
          let weight := volume in
          Some (Marked.mk item volume weight reason :: waste_items)
      end
    end
  end.

(** Body of the loop of lines 461-466; state
    [(selected_items, total_weight, total_volume)]. *)
Definition select_step (max_weight : Z) (st : list Marked.t * Z * Z)
  (item : Marked.t) : list Marked.t * Z * Z :=
  let '(selected_items, total_weight, total_volume) := st in
  let weight := Marked.calculatedWeight item in
  if total_weight + weight <=? max_weight then
    (selected_items ++ [item], total_weight + weight,
     total_volume + Marked.calculatedVolume item)
  else st.

Definition select_items (max_weight : Z) (waste_items : list Marked.t)
  : list Marked.t * Z * Z :=
  fold_left (select_step max_weight) waste_items ([], 0, 0).

Definition marked_id (item : Marked.t) : string :=
  get_string (StoredItem.itemId (Marked.item item)) "".

Definition marked_name (item : Marked.t) : string :=
  get_string (StoredItem.name (Marked.item item)) "Unknown".

(** Body of the loop of lines 470-485; state
    [(return_plan_steps, retrieval_steps, step_counter)]. *)
Definition plan_step (undocking_container_id : string)
  (st : list ReturnStep.t * list RetrievalStep.t * Z) (item : Marked.t)
  : list ReturnStep.t * list RetrievalStep.t * Z :=
  let '(return_plan_steps, retrieval_steps, step_counter) := st in
  (return_plan_steps ++
     [ReturnStep.mk step_counter (marked_id item) (marked_name item)
        (get_string (StoredItem.containerId (Marked.item item)) "Not Placed")
        undocking_container_id],
   retrieval_steps ++
     [RetrievalStep.mk step_counter retrieve false (marked_id item)
                       (marked_name item)],
   step_counter + 1).

(** Lines 528-540: the placements of the selected items move to the
    undocking container, at the zero box. *)
Definition move_selected (undocking_container_id : string)
  (selected_items : list Marked.t) (placements : list Placement.t)
  : list Placement.t :=
  map (fun p =>
         if existsb
              (fun item =>
                 option_string_eqb (StoredItem.itemId (Marked.item item))
                                   (Placement.itemId p))
              selected_items
         then Placement.mk undocking_container_id (Placement.itemId p)
                           zero_position None None
         else p)
      placements.

Definition waste_return_plan (req : option ReturnPlanRequest.t)
  (fs : Files.t) (wd : World.t)
  : Reply ReturnPlanBody * Files.t * World.t :=
  match req with
  | None => (Json 400 (PlanError "Missing JSON body"), fs, wd)
  | Some data =>
    match truthy (ReturnPlanRequest.undockingContainerId data),
          truthy (ReturnPlanRequest.undockingDate data),
          ReturnPlanRequest.maxWeight data with
    | Some undocking_container_id, Some undocking_date, Some max_weight =>
      match (match max_weight with
             | JNum n => Some n
             | JText s => float_of_text s
             end) with
      | None => (Json 400 (PlanError "Invalid maxWeight"), fs, wd)
      | Some max_weight =>
        let items_data :=
          load_json (Files.items_json fs) (JObject (Some [])) in
        let items := rows items_data in
        let '(current_date, wd) := utcnow wd in
        match mark_loop current_date items with
        | None => (Unhandled, fs, wd)
        | Some waste_items =>
          let '(selected_items, total_weight, total_volume) :=
            select_items max_weight waste_items in
          let '(return_plan_steps, retrieval_steps, _) :=
            fold_left (plan_step undocking_container_id) selected_items
                      ([], [], 1) in
          let return_manifest :=
            Manifest.mk undocking_container_id undocking_date
              (map (fun item =>
                      ReturnItem.mk (marked_id item) (marked_name item)
                                    (Marked.wasteReason item))
                   selected_items)
              total_volume total_weight in
          let response :=
            Plan return_plan_steps retrieval_steps return_manifest in
          let containers_data :=
            load_json (Files.containers_json fs) (JObject (Some [])) in
          let containers := rows containers_data in
          let exists_ :=
            existsb (fun c => String.eqb (Container.containerId c)
                                         undocking_container_id)
                    containers in
          let saved :=
            if exists_ then Some fs
            else if negb (Files.containers_writable fs) then None
            else
              let new_container :=
                Container.mk undocking_container_id "Waste" 0 0 0 in
              Some (set_containers_json fs
                      (with_rows containers_data
                                 (containers ++ [new_container]))) in
          match saved with
          | None => (Unhandled, fs, wd)
          | Some fs =>
            match load_json (Files.placement_json fs) (JObject (Some [])) with
            | JObject field =>
              let placements := get_list field in
              let updated_placements :=
                move_selected undocking_container_id selected_items
                              placements in
              if negb (Files.placement_writable fs) then (Unhandled, fs, wd)
              else
                let fs :=
                  set_placement_json fs (JObject (Some updated_placements)) in
                let wd :=
                  record_log "system" "WASTE_RETURN_PLAN" "" "Various"
                             undocking_container_id
                             "Waste return plan generated" wd in
                (Json 200 response, fs, wd)
            | _ => (Unhandled, fs, wd)
            end
          end
        end
      end
    | _, _, _ => (Json 400 (PlanError "Missing parameter(s)"), fs, wd)
    end
  end.

End Waste.

(* ------------------------------------------------------------------ *)
(** ** Vocabulary of the specification *)

(** The three candidates of the orientation selector, as
    [(footprintWidth, footprintHeight, depthUsed)], in construction order. *)
Definition candidates (item : Item.t) : list (Z * Z * Z) :=
  let w := Item.width item in
  let h := Item.height item in
  let d := Item.depth item in
  [ (w, h, d); (w, d, h); (h, d, w) ].

Definition footprint_area (c : Z * Z * Z) : Z :=
  let '(fw, fh, _) := c in fw * fh.

Definition depth_used (c : Z * Z * Z) : Z :=
  let '(_, _, fd) := c in fd.

(** [a] sits at index [i] of [l], is admissible, costs no more than any
    admissible element and strictly less than every admissible element at an
    earlier index: the first of the cheapest admissible elements. *)
Definition first_best {A} (ok : A -> Prop) (cost : A -> Z) (l : list A)
  (i : nat) (a : A) : Prop :=
  nth_error l i = Some a /\ ok a /\
  forall j b, nth_error l j = Some b -> ok b ->
    cost a <= cost b /\ ((j < i)%nat -> cost a < cost b).

(** A free rectangle can contain a footprint [rw] x [rh]. *)
Definition fits (rw rh : Z) (fr : Rect.t) : Prop :=
  Rect.w fr >= rw /\ Rect.h fr >= rh.

Definition leftover_area (rw rh : Z) (fr : Rect.t) : Z :=
  Rect.w fr * Rect.h fr - rw * rh.

(** What the scan knows after the rectangles of [l]. *)
Definition best_fit_inv (rw rh : Z) (l : list Rect.t) (st : BestFit) : Prop :=
  match st with
  | None => forall fr, In fr l -> ~ fits rw rh fr
  | Some (fr, px, py, score) =>
    px = Rect.x fr /\ py = Rect.y fr /\ score = leftover_area rw rh fr /\
    exists i, first_best (fits rw rh) (leftover_area rw rh) l i fr
  end.

(** The footprint of a placement in the (width, height) plane. *)
Definition footprint (p : Placement.t) : Rect.t :=
  let s := Position.startCoordinates (Placement.position p) in
  let e := Position.endCoordinates (Placement.position p) in
  Rect.mk (Coord.width s) (Coord.height s)
          (Coord.width e - Coord.width s) (Coord.height e - Coord.height s).

(** Strict overlap of two axis-aligned rectangles; touching edges do not
    overlap. *)
Definition overlaps (a b : Rect.t) : Prop :=
  Rect.x a < Rect.x b + Rect.w b /\ Rect.x a + Rect.w a > Rect.x b /\
  Rect.y a < Rect.y b + Rect.h b /\ Rect.y a + Rect.h a > Rect.y b.

Definition overlapsb (a b : Rect.t) : bool :=
  (Rect.x a <? Rect.x b + Rect.w b) && (Rect.x a + Rect.w a >? Rect.x b)
  && (Rect.y a <? Rect.y b + Rect.h b) && (Rect.y a + Rect.h a >? Rect.y b).

(** [p] blocks [target]: another item of the same container, on the open
    face, whose footprint strictly overlaps the target's. *)
Definition blocks (target p : Placement.t) : Prop :=
  Placement.containerId p = Placement.containerId target /\
  Placement.itemId p <> Placement.itemId target /\
  start_depth p = 0 /\
  overlaps (footprint p) (footprint target).

Definition blocksb (target p : Placement.t) : bool :=
  String.eqb (Placement.containerId p) (Placement.containerId target)
  && negb (String.eqb (Placement.itemId p) (Placement.itemId target))
  && (start_depth p =? 0)
  && overlapsb (footprint p) (footprint target).

(** One [remove] step per blocking item, numbered upwards from [n]. *)
Fixpoint remove_steps_from (n : Z) (blockers : list Placement.t)
  : list RetrievalStep.t :=
  match blockers with
  | [] => []
  | b :: rest =>
    RetrievalStep.mk n remove true (Placement.itemId b) (display_name b)
      :: remove_steps_from (n + 1) rest
  end.


(** Rearrangement steps still to be numbered. *)
Definition place_of (newp : Placement.t) (n : Z) : Step.t :=
  Step.mk n place (Placement.itemId newp) "NONE" zero_position
          (Placement.containerId newp) (Placement.position newp).

Definition move_of (oldp newp : Placement.t) (n : Z) : Step.t :=
  Step.mk n move (Placement.itemId newp)
          (Placement.containerId oldp) (Placement.position oldp)
          (Placement.containerId newp) (Placement.position newp).

Definition remove_of (oldp : Placement.t) (n : Z) : Step.t :=
  Step.mk n remove (Placement.itemId oldp)
          (Placement.containerId oldp) (Placement.position oldp)
          "NONE" zero_position.

Fixpoint number_steps (n : Z) (l : list (Z -> Step.t)) : list Step.t :=
  match l with
  | [] => []
  | f :: rest => f n :: number_steps (n + 1) rest
  end.

(** The placement of item [iid] in a snapshot, if any. *)
Definition lookup (iid : string) (snapshot : list Placement.t)
  : option Placement.t :=
  find (fun p => String.eqb (Placement.itemId p) iid) snapshot.

Definition coord_eq_dec (a b : Coord.t) : {a = b} + {a <> b}.
Proof.
  decide equality; try apply Z.eq_dec.
  decide equality. apply Z.eq_dec.
Defined.

Definition position_eq_dec (a b : Position.t) : {a = b} + {a <> b}.
Proof. decide equality; apply coord_eq_dec. Defined.

(** Same container and the same box, coordinate for coordinate. *)
Definition same_place (oldp newp : Placement.t) : Prop :=
  Placement.containerId oldp = Placement.containerId newp /\
  Placement.position oldp = Placement.position newp.

Definition same_place_dec (oldp newp : Placement.t)
  : {same_place oldp newp} + {~ same_place oldp newp}.
Proof.
  unfold same_place.
  destruct (string_dec (Placement.containerId oldp)
                       (Placement.containerId newp));
    destruct (position_eq_dec (Placement.position oldp)
                              (Placement.position newp));
    [left; split; assumption | right; tauto | right; tauto | right; tauto].
Defined.

(** Pass 1 of the differ in the words of the specification. *)
Definition first_pass (old_snapshot new_snapshot : list Placement.t)
  : list (Z -> Step.t) :=
  flat_map
    (fun newp =>
       match lookup (Placement.itemId newp) old_snapshot with
       | None => [place_of newp]
       | Some oldp =>
         if same_place_dec oldp newp then [] else [move_of oldp newp]
       end)
    new_snapshot.

(** Pass 2 of the differ in the words of the specification. *)
Definition second_pass (old_snapshot new_snapshot : list Placement.t)
  : list (Z -> Step.t) :=
  map remove_of
    (filter
       (fun oldp =>
          match lookup (Placement.itemId oldp) new_snapshot with
          | None => true
          | Some _ => false
          end)
       old_snapshot).

(** The dict entry of a placement keyed by its item identifier. *)
Definition entry_of (p : Placement.t) : string * Placement.t :=
  (Placement.itemId p, p).


Definition positive (r : Rect.t) : Prop := 0 < Rect.w r /\ 0 < Rect.h r.

(** [a] lies inside [b], edges included: [contained_in] as a proposition. *)
Definition inside (a b : Rect.t) : Prop :=
  Rect.x a >= Rect.x b /\ Rect.y a >= Rect.y b /\
  Rect.x a + Rect.w a <= Rect.x b + Rect.w b /\
  Rect.y a + Rect.h a <= Rect.y b + Rect.h b.

(** The unit cell whose lower corner is [(cx, cy)] lies in [r]. *)
Definition covers (r : Rect.t) (cx cy : Z) : Prop :=
  Rect.x r <= cx < Rect.x r + Rect.w r /\
  Rect.y r <= cy < Rect.y r + Rect.h r.

(** A relation holds between the elements at any two different positions. *)
Definition pairwise {A} (R : A -> A -> Prop) (l : list A) : Prop :=
  forall i j a b, i <> j ->
    nth_error l i = Some a -> nth_error l j = Some b -> R a b.




Definition area (r : Rect.t) : Z := Rect.w r * Rect.h r.

Definition total_area (l : list Rect.t) : Z :=
  fold_right (fun r acc => area r + acc) 0 l.


(** The example of the specification: container C and items A and B. *)
Definition example_A : Item.t := Item.mk "A" 30 40 20 "Z" (Some 5).
Definition example_B : Item.t := Item.mk "B" 50 50 10 "Z" (Some 3).
Definition example_C : Container.t := Container.mk "C" "Z" 100 100 50.
Definition example_data : Data.t :=
  Data.mk (Some [example_A; example_B]) (Some [example_C]).

(** Free rectangles and placed footprints of a face when
    [pack_open_face_in_container] ends. *)
Definition face_free (container : Container.t) (items : list Item.t)
  : list Rect.t :=
  PackState.free_rects (pack_open_face_state container items).

Definition face_placed (container : Container.t) (items : list Item.t)
  : list Rect.t :=
  map footprint (PackState.placements (pack_open_face_state container items)).









(** Two snapshots of container C for the differ. *)
Definition example_old : list Placement.t :=
  [ placement_doc "C" "A" 0 0 30 20 40;
    placement_doc "C" "B" 30 0 50 10 50;
    placement_doc "C" "E" 80 0 20 20 20 ].

Definition example_new : list Placement.t :=
  [ placement_doc "C" "A" 0 0 30 20 40;
    placement_doc "C" "B" 0 20 50 10 50;
    placement_doc "C" "D" 50 20 10 10 10 ].

(** A container face turns an item down: no orientation fits its depth, or
    no free rectangle takes the footprint. *)
Definition rejects (item : Item.t) (d_item : FaceData.t) : Prop :=
  match get_best_orientation item
          (Container.depth (FaceData.container d_item)) with
  | None => True
  | Some (rw, rh, _) =>
    place_footprint (FaceData.free_rects d_item) rw rh = None
  end.

(** Item and container of a placement, and of a log entry. *)
Definition placement_key (p : Placement.t) : string * string :=
  (Placement.itemId p, Placement.containerId p).

Definition log_key (e : LogEntry.t) : string * string :=
  (LogEntry.itemId e, LogEntry.toContainer e).

Definition face_placements (cfd : dict FaceData.t) : list Placement.t :=
  flat_map (fun e => FaceData.placements (snd e)) cfd.

Definition key_dec (a b : string * string) : {a = b} + {a <> b}.
Proof. decide equality; apply string_dec. Defined.
Arguments key_dec : simpl never.

(** The log entry line 189 writes. *)
Definition is_new_placement_log (e : LogEntry.t) : Prop :=
  LogEntry.userId e = "system"%string /\
  LogEntry.actionType e = "NEW_PLACEMENT"%string /\
  LogEntry.fromContainer e = "NONE"%string /\
  LogEntry.reason e = "Placed on open face."%string.

(** A placement pairs an item of the batch with a container of the item's
    preferred zone. *)
Definition in_preferred_zone (items : list Item.t)
  (containers : list Container.t) (p : Placement.t) : Prop :=
  exists it c,
    In it items /\ In c containers /\
    Placement.itemId p = Item.itemId it /\
    Placement.containerId p = Container.containerId c /\
    Container.zone c = Item.preferredZone it.

(** An entry of [container_face_data] of zone [z]: its container is of that
    zone and its placements are of items preferring it. *)
Definition entry_zone_ok (items : list Item.t) (containers : list Container.t)
  (z : string) (e : string * FaceData.t) : Prop :=
  let c := FaceData.container (snd e) in
  In c containers /\ Container.zone c = z /\
  Container.containerId c = fst e /\
  Forall (fun p => Placement.containerId p = fst e /\
                   exists it, In it items /\ Item.preferredZone it = z
                              /\ Placement.itemId p = Item.itemId it)
         (FaceData.placements (snd e)).

(** The records the differ works on: the values of the dict
    [{p["itemId"]: p for p in placements}], in the dict's order. *)
Definition effective_snapshot (placements : list Placement.t)
  : list Placement.t :=
  map snd (placements_by_id placements).

(** A step still to be numbered takes the number it is given and names the
    same item whatever the number. *)
Definition step_body_ok (f : Z -> Step.t) : Prop :=
  (forall n, Step.step (f n) = n)
  /\ (forall n, Step.itemId (f n) = Step.itemId (f 0)).

(** A row of [items.json] the retrieval loop may use: it is of the item and
    has uses left. *)
Definition usable (item_id : string) (item : StoredItem.t) : Prop :=
  StoredItem.itemId item = Some item_id /\
  0 < get_default (StoredItem.usageLimit item) 0.

Definition usage_not_negative (item : StoredItem.t) : Prop :=
  0 <= get_default (StoredItem.usageLimit item) 0.

(** A complete retrieval request. *)
Definition retrieve_request (item_id user_id timestamp : string)
  : option RetrieveRequest.t :=
  Some (RetrieveRequest.mk (Some item_id) (Some user_id) (Some timestamp)).

(** Files for the examples: A and B placed in C, one row of A with two uses
    left. *)
Definition example_files : Files.t :=
  Files.mk
    (JObject (Some [ placement_doc "C" "A" 0 0 30 20 40;
                     placement_doc "C" "B" 30 0 50 10 50 ]))
    (JObject (Some [ StoredItem.mk (Some "A"%string) (Some "Tool"%string)
                                   (Some 2) None (Some 30) (Some 40)
                                   (Some 20) None None;
                     StoredItem.mk (Some "B"%string) None (Some 0) None
                                   (Some 50) (Some 50) (Some 10) None None ]))
    (JObject (Some [ example_C ]))
    true true true.

Definition example_world : World.t := World.mk (fun _ => 0) 0 [] [].

(** A complete undocking request. *)
Definition undock_request (undocking_container_id timestamp : string)
  : option UndockRequest.t :=
  Some (UndockRequest.mk (Some undocking_container_id) (Some timestamp)).

(** The item is placed in the container, according to the placements. *)
Definition placed_in (placements : list Placement.t) (cid : string)
  (item : StoredItem.t) : bool :=
  existsb (option_string_eqb (StoredItem.itemId item))
          (map Placement.itemId
               (filter (fun p => String.eqb (Placement.containerId p) cid)
                       placements)).

(** The files after a completed undocking of container [cid]. *)
Definition undocked (cid : string) (fs : Files.t) : Files.t :=
  let placements := rows (Files.placement_json fs) in
  set_containers_json
    (set_items_json
       (set_placement_json fs
          (JObject
             (Some (filter (fun p => negb (String.eqb
                                             (Placement.containerId p) cid))
                           placements))))
       (with_rows (load_json (Files.items_json fs) (JObject (Some [])))
          (filter (fun item => negb (placed_in placements cid item))
                  (rows (Files.items_json fs)))))
    (with_rows (load_json (Files.containers_json fs) (JObject (Some [])))
       (filter (fun c => negb (String.eqb (Container.containerId c) cid))
               (rows (Files.containers_json fs)))).

(** A log entry passes a field filter of a query: the argument is absent or
    empty, or equals the entry's field. *)
Definition field_matches (arg : option string) (v : string) : bool :=
  match truthy arg with
  | None => true
  | Some x => String.eqb v x
  end.

Definition matches_query (q : LogQuery.t) (e : LogEntry.t) : bool :=
  field_matches (LogQuery.itemId q) (LogEntry.itemId e)
  && (field_matches (LogQuery.userId q) (LogEntry.userId e)
      && field_matches (LogQuery.actionType q) (LogEntry.actionType e)).

(** [l1] is [l2] with some elements left out. *)
Inductive subsequence {A : Type} : list A -> list A -> Prop :=
| subseq_nil : subsequence [] []
| subseq_skip : forall a l1 l2, subsequence l1 l2 -> subsequence l1 (a :: l2)
| subseq_keep : forall a l1 l2,
    subsequence l1 l2 -> subsequence (a :: l1) (a :: l2).

Definition total_weight_of (l : list Marked.t) : Z :=
  fold_right (fun item acc => Marked.calculatedWeight item + acc) 0 l.

Definition total_volume_of (l : list Marked.t) : Z :=
  fold_right (fun item acc => Marked.calculatedVolume item + acc) 0 l.

(** Three marked items of weights 6, 7 and 3 for the selection examples. *)
Definition example_marked (iid : string) (weight : Z) : Marked.t :=
  Marked.mk (StoredItem.mk (Some iid) None (Some 0) None None None None
                           None None)
            weight weight "Out of Uses".

Definition example_waste : list Marked.t :=
  [ example_marked "A" 6; example_marked "B" 7; example_marked "D" 3 ].

(** A complete return-plan request with a numeric weight limit. *)
Definition return_plan_request (undocking_container_id undocking_date : string)
  (max_weight : Z) : option ReturnPlanRequest.t :=
  Some (ReturnPlanRequest.mk (Some undocking_container_id)
                             (Some undocking_date) (Some (JNum max_weight))).

(* ================================================================== *)
(** * Properties *)

(* ------------------------------------------------------------------ *)
(** ** Orientation selector *)

Ltac zbool :=
  repeat match goal with
  | H : (_ <=? _) = true |- _ => apply Z.leb_le in H
  | H : (_ <=? _) = false |- _ => apply Z.leb_gt in H
  | H : (_ <? _) = true |- _ => apply Z.ltb_lt in H
  | H : (_ <? _) = false |- _ => apply Z.ltb_ge in H
  | H : (_ >=? _) = true |- _ => rewrite Z.geb_le in H
  | H : (_ >=? _) = false |- _ => rewrite Z.geb_leb, Z.leb_gt in H
  | H : (_ >? _) = true |- _ => rewrite Z.gtb_lt in H
  | H : (_ >? _) = false |- _ => rewrite Z.gtb_ltb, Z.ltb_ge in H
  | H : (_ =? _) = true |- _ => apply Z.eqb_eq in H
  | H : (_ =? _) = false |- _ => apply Z.eqb_neq in H
  | H : _ && _ = true |- _ => apply andb_true_iff in H; destruct H
  | H : _ || _ = false |- _ => apply orb_false_iff in H; destruct H
  end.

Lemma nth_error_three {A} (a b c : A) (j : nat) (x : A) :
  nth_error [a; b; c] j = Some x ->
  (j = 0%nat /\ x = a) \/ (j = 1%nat /\ x = b) \/ (j = 2%nat /\ x = c).
Proof.
  destruct j as [|[|[|j]]]; simpl; intros E; inversion E; auto.
  destruct j; discriminate.
Qed.

(** C3 (selectOrientation). For every item and container depth,
    [get_best_orientation] returns [None] exactly when the depths of all
    three candidates (w x h with depth d, w x d with depth h, h x d with
    depth w) exceed the container depth; otherwise it returns exactly the
    candidate that is feasible, has minimum footprint area among the feasible
    candidates, and comes first among those of minimum area. *)
Theorem get_best_orientation_first_min_feasible :
  forall (item : Item.t) (D : Z),
    (get_best_orientation item D = None <->
       Item.depth item > D /\ Item.height item > D /\ Item.width item > D)
    /\
    (forall r, get_best_orientation item D = Some r <->
       exists i, first_best (fun c => depth_used c <= D) footprint_area
                            (candidates item) i r).
Proof.
  intros [iid w h d z p] D.
  unfold get_best_orientation, orientations, candidates, first_best,
    py_min_by; simpl.
  split.
  - destruct (d <=? D) eqn:E1, (h <=? D) eqn:E2, (w <=? D) eqn:E3; simpl;
      zbool; split; intros H; try discriminate; try lia; reflexivity.
  - intros r.
    destruct (d <=? D) eqn:E1, (h <=? D) eqn:E2, (w <=? D) eqn:E3; simpl;
      destruct (w * d <? w * h) eqn:L1; simpl;
      destruct (h * d <? w * h) eqn:L2; simpl;
      destruct (h * d <? w * d) eqn:L3; simpl;
      zbool;
      (split;
       [ intros H; inversion H; subst; clear H;
         first
           [ exists 0%nat; split; [reflexivity|]; split; [simpl; lia|];
             intros j b Hj Hb; apply nth_error_three in Hj;
             destruct Hj as [[-> ->]|[[-> ->]|[-> ->]]]; simpl in *; lia
           | exists 1%nat; split; [reflexivity|]; split; [simpl; lia|];
             intros j b Hj Hb; apply nth_error_three in Hj;
             destruct Hj as [[-> ->]|[[-> ->]|[-> ->]]]; simpl in *; lia
           | exists 2%nat; split; [reflexivity|]; split; [simpl; lia|];
             intros j b Hj Hb; apply nth_error_three in Hj;
             destruct Hj as [[-> ->]|[[-> ->]|[-> ->]]]; simpl in *; lia ]
       | intros [i [Hi [Hok Hmin]]];
         pose proof (Hmin 0%nat _ eq_refl) as M0;
         pose proof (Hmin 1%nat _ eq_refl) as M1;
         pose proof (Hmin 2%nat _ eq_refl) as M2;
         apply nth_error_three in Hi;
         destruct Hi as [[-> ->]|[[-> ->]|[-> ->]]]; simpl in *;
         try lia; try reflexivity;
         exfalso; lia ]).
Qed.

(** Item A of the example in a container of depth 50: all three candidates
    are feasible and w x d = 30 x 20 has the least area. *)
Example get_best_orientation_example_A :
  get_best_orientation example_A 50 = Some (30, 20, 40).
Proof. reflexivity. Qed.

(** With depth 25 only the first candidate (depth 20) is feasible; with
    depth 10 none is. *)
Example get_best_orientation_example_shallow :
  get_best_orientation example_A 25 = Some (30, 40, 20)
  /\ get_best_orientation example_A 10 = None.
Proof. split; reflexivity. Qed.

(* ------------------------------------------------------------------ *)
(** ** Best-fit search *)

Lemma fits_dec (rw rh : Z) (fr : Rect.t) :
  (Rect.w fr >=? rw) && (Rect.h fr >=? rh) = true <-> fits rw rh fr.
Proof.
  unfold fits. rewrite andb_true_iff, !Z.geb_le. lia.
Qed.

Lemma nth_error_snoc {A} (l : list A) (x : A) (j : nat) (b : A) :
  nth_error (l ++ [x]) j = Some b ->
  ((j < length l)%nat /\ nth_error l j = Some b) \/ (j = length l /\ b = x).
Proof.
  intros H. destruct (Nat.lt_ge_cases j (length l)) as [Hlt|Hge].
  - left. split; [assumption|]. now rewrite nth_error_app1 in H.
  - right. rewrite nth_error_app2 in H by assumption.
    destruct (j - length l)%nat as [|k] eqn:E; simpl in H.
    + inversion H. split; [lia|reflexivity].
    + destruct k; discriminate.
Qed.

Lemma find_position_step_inv (rw rh : Z) (l : list Rect.t) (st : BestFit)
  (x : Rect.t) :
  best_fit_inv rw rh l st ->
  best_fit_inv rw rh (l ++ [x]) (find_position_step rw rh st x).
Proof.
  intros Inv. unfold find_position_step.
  destruct ((Rect.w x >=? rw) && (Rect.h x >=? rh)) eqn:F.
  - apply fits_dec in F.
    destruct st as [[[[fr px] py] score]|]; simpl in *.
    + destruct Inv as (-> & -> & -> & i & Hi & Hok & Hmin).
      assert (Hlen : (i < length l)%nat)
        by (apply nth_error_Some; congruence).
      fold (leftover_area rw rh x).
      destruct (leftover_area rw rh x <? leftover_area rw rh fr) eqn:L;
        zbool.
      * repeat split. exists (length l). split; [|split; [assumption|]].
        { rewrite nth_error_app2 by lia. now rewrite Nat.sub_diag. }
        intros j b Hj Hb. apply nth_error_snoc in Hj.
        destruct Hj as [[Hlt Hj]|[-> ->]]; [|lia].
        destruct (Hmin j b Hj Hb). lia.
      * repeat split. exists i. split; [|split; [assumption|]].
        { now rewrite nth_error_app1 by assumption. }
        intros j b Hj Hb. apply nth_error_snoc in Hj.
        destruct Hj as [[Hlt Hj]|[-> ->]]; [now apply Hmin|lia].
    + repeat split. exists (length l). split; [|split; [assumption|]].
      { rewrite nth_error_app2 by lia. now rewrite Nat.sub_diag. }
      intros j b Hj Hb. apply nth_error_snoc in Hj.
      destruct Hj as [[Hlt Hj]|[-> ->]]; [|lia].
      exfalso. apply (Inv b); [eapply nth_error_In; eassumption|assumption].
  - assert (NF : ~ fits rw rh x).
    { intros C. apply fits_dec in C. congruence. }
    destruct st as [[[[fr px] py] score]|]; simpl in *.
    + destruct Inv as (-> & -> & -> & i & Hi & Hok & Hmin).
      assert (Hlen : (i < length l)%nat)
        by (apply nth_error_Some; congruence).
      repeat split. exists i. split; [|split; [assumption|]].
      { now rewrite nth_error_app1 by assumption. }
      intros j b Hj Hb. apply nth_error_snoc in Hj.
      destruct Hj as [[Hlt Hj]|[-> ->]]; [now apply Hmin|contradiction].
    + intros fr Hin. apply in_app_or in Hin.
      destruct Hin as [Hin|[<-|[]]]; [now apply Inv|assumption].
Qed.

Lemma find_position_for_rect_inv (rw rh : Z) (l : list Rect.t) :
  best_fit_inv rw rh l (find_position_for_rect l rw rh).
Proof.
  unfold find_position_for_rect.
  induction l as [|x l IH] using rev_ind.
  - simpl. intros fr [].
  - rewrite fold_left_app. simpl. now apply find_position_step_inv.
Qed.

(** C4 (best-fit search). [find_position_for_rect] returns [None] exactly
    when no free rectangle can contain the footprint; otherwise it returns a
    rectangle that can contain it, whose leftover area
    [w*h - footprintWidth*footprintHeight] is minimal among the rectangles
    that can, which is the first such rectangle in scan order, together with
    that rectangle's [(x, y)] corner as the anchor and the leftover as the
    score. *)
Theorem find_position_for_rect_best_fit :
  forall (free_rects : list Rect.t) (rw rh : Z),
    (find_position_for_rect free_rects rw rh = None <->
       forall fr, In fr free_rects -> ~ fits rw rh fr)
    /\
    (forall fr px py score,
       find_position_for_rect free_rects rw rh = Some (fr, px, py, score) <->
       px = Rect.x fr /\ py = Rect.y fr /\
       score = leftover_area rw rh fr /\
       exists i, first_best (fits rw rh) (leftover_area rw rh)
                            free_rects i fr).
Proof.
  intros l rw rh.
  pose proof (find_position_for_rect_inv rw rh l) as Inv.
  destruct (find_position_for_rect l rw rh) as [[[[fr0 px0] py0] s0]|];
    simpl in Inv.
  - destruct Inv as (-> & -> & -> & i & Hi & Hok & Hmin). split.
    + split; [discriminate|]. intros H. exfalso.
      apply (H fr0); [eapply nth_error_In; eassumption|assumption].
    + intros fr px py score. split.
      * intros E. inversion E; subst. repeat split. exists i.
        split; [assumption|]. split; assumption.
      * intros (-> & -> & -> & k & Hk & Hokk & Hmink).
        destruct (Hmin k fr Hk Hokk) as [A1 A2].
        destruct (Hmink i fr0 Hi Hok) as [B1 B2].
        assert (k = i) by (destruct (Nat.lt_trichotomy k i) as [?|[?|?]]; lia).
        subst k. rewrite Hi in Hk. inversion Hk. reflexivity.
  - split.
    + split; [intros _; exact Inv|reflexivity].
    + intros fr px py score. split; [discriminate|].
      intros (_ & _ & _ & k & Hk & Hokk & _). exfalso.
      apply (Inv fr); [eapply nth_error_In; eassumption|assumption].
Qed.

(** Two rectangles with the same leftover: the first one scanned wins. *)
Example find_position_for_rect_tie :
  find_position_for_rect
    [Rect.mk 0 0 5 5; Rect.mk 10 0 20 10; Rect.mk 40 0 10 20] 10 10
  = Some (Rect.mk 10 0 20 10, 10, 0, 100).
Proof. reflexivity. Qed.

(* ------------------------------------------------------------------ *)
(** ** Pruning *)

Lemma prune_inner_false (i : nat) (r1 : Rect.t) :
  forall rest j,
    prune_inner i r1 j rest = false ->
    forall k r2, nth_error rest k = Some r2 -> i <> (j + k)%nat ->
      contained_in r1 r2 = false.
Proof.
  induction rest as [|r rest IH]; intros j H k r2 Hk Hne.
  - destruct k; discriminate.
  - simpl in H.
    destruct (negb (Nat.eqb i j) && contained_in r1 r) eqn:E; [discriminate|].
    destruct k as [|k]; simpl in Hk.
    + inversion Hk; subst. apply andb_false_iff in E.
      destruct E as [E|E]; [|assumption].
      apply negb_false_iff, Nat.eqb_eq in E. lia.
    + apply (IH (S j) H k r2 Hk). lia.
Qed.

(** Two survivors of the pruning loop come from two input positions, in the
    same order, and the inner scan found no container for either. *)
Lemma prune_outer_pair (free_rects : list Rect.t) :
  forall rest i a b r1 r2,
    (a < b)%nat ->
    nth_error (prune_outer free_rects i rest) a = Some r1 ->
    nth_error (prune_outer free_rects i rest) b = Some r2 ->
    exists ka kb,
      (ka < kb)%nat /\
      nth_error rest ka = Some r1 /\ nth_error rest kb = Some r2 /\
      prune_inner (i + ka) r1 0 free_rects = false /\
      prune_inner (i + kb) r2 0 free_rects = false.
Proof.
  induction rest as [|r rest IH]; intros i a b r1 r2 Hab Ha Hb.
  - destruct a; discriminate.
  - simpl in Ha, Hb.
    destruct (prune_inner i r 0 free_rects) eqn:E.
    + destruct (IH (S i) a b r1 r2 Hab Ha Hb)
        as (ka & kb & Hk & H1 & H2 & H3 & H4).
      exists (S ka), (S kb). rewrite !Nat.add_succ_r. simpl.
      repeat split; try assumption. lia.
    + destruct a as [|a]; destruct b as [|b]; try lia; simpl in Ha, Hb.
      * inversion Ha; subst.
        assert (Hb' : exists kb, nth_error rest kb = Some r2 /\
                  prune_inner (S i + kb) r2 0 free_rects = false).
        { clear - Hb. revert i b Hb.
          induction rest as [|r rest IH]; intros i b Hb.
          - destruct b; discriminate.
          - simpl in Hb. destruct (prune_inner (S i) r 0 free_rects) eqn:E.
            + destruct (IH (S i) b Hb) as (kb & H1 & H2).
              exists (S kb). rewrite Nat.add_succ_r. now split.
            + destruct b as [|b]; simpl in Hb.
              * inversion Hb; subst. exists 0%nat.
                rewrite Nat.add_0_r. now split.
              * destruct (IH (S i) b Hb) as (kb & H1 & H2).
                exists (S kb). rewrite Nat.add_succ_r. now split. }
        destruct Hb' as (kb & H1 & H2).
        exists 0%nat, (S kb). rewrite Nat.add_0_r, Nat.add_succ_r. simpl.
        repeat split; try assumption. lia.
      * destruct (IH (S i) a b r1 r2 ltac:(lia) Ha Hb)
          as (ka & kb & Hk & H1 & H2 & H3 & H4).
        exists (S ka), (S kb). rewrite !Nat.add_succ_r. simpl.
        repeat split; try assumption. lia.
Qed.

(* ------------------------------------------------------------------ *)
(** ** Retrieval planner *)

Lemma overlapsb_spec (a b : Rect.t) : overlapsb a b = true <-> overlaps a b.
Proof.
  unfold overlapsb, overlaps.
  rewrite !andb_true_iff, !Z.ltb_lt, !Z.gtb_lt. lia.
Qed.

Lemma blocksb_spec (target p : Placement.t) :
  blocksb target p = true <-> blocks target p.
Proof.
  unfold blocksb, blocks.
  rewrite !andb_true_iff, negb_true_iff, String.eqb_eq, String.eqb_neq,
    Z.eqb_eq, overlapsb_spec.
  tauto.
Qed.

Lemma blocking_step_blocksb (target p : Placement.t)
  (acc : list Placement.t) :
  blocking_step target acc p = if blocksb target p then acc ++ [p] else acc.
Proof.
  unfold blocking_step, blocksb, overlapsb, footprint; simpl.
  destruct (String.eqb (Placement.containerId p)
                       (Placement.containerId target)); simpl;
    [|reflexivity].
  destruct (String.eqb (Placement.itemId p) (Placement.itemId target)); simpl;
    [reflexivity|].
  destruct (start_depth p =? 0); reflexivity.
Qed.

Lemma blocking_scan_filter (target : Placement.t) :
  forall placements acc,
    fold_left (blocking_step target) placements acc
    = acc ++ filter (blocksb target) placements.
Proof.
  induction placements as [|p l IH]; intros acc; simpl.
  - now rewrite app_nil_r.
  - rewrite IH, blocking_step_blocksb.
    destruct (blocksb target p); [|reflexivity].
    now rewrite <- app_assoc.
Qed.

Lemma remove_loop (blockers : list Placement.t) :
  forall acc n,
    fold_left remove_step blockers (acc, n)
    = (acc ++ remove_steps_from n blockers,
       n + Z.of_nat (length blockers)).
Proof.
  induction blockers as [|b l IH]; intros acc n.
  - simpl. now rewrite app_nil_r, Z.add_0_r.
  - cbn [fold_left remove_step remove_steps_from length]. rewrite IH.
    rewrite <- app_assoc. simpl. f_equal. lia.
Qed.


(** A target behind the open face of container C, with A and B in front of
    it and E beside it. *)
Example retrieval_steps_example :
  retrieval_steps
    (Placement.mk "C" "T"
       (Position.mk (Coord.mk 20 (Some 40) 0) (Coord.mk 60 (Some 50) 15))
       (Some "Tool"%string) None)
    example_old
  = [ RetrievalStep.mk 1 remove true "A" "Unknown";
      RetrievalStep.mk 2 remove true "B" "Unknown";
      RetrievalStep.mk 3 retrieve false "T" "Tool" ].
Proof. reflexivity. Qed.

(* ------------------------------------------------------------------ *)
(** ** Rearrangement differ *)

Lemma dict_get_app_fresh {V} (k k' : string) (v : V) (d : dict V) :
  dict_get k (d ++ [(k', v)])
  = match dict_get k d with
    | Some u => Some u
    | None => if String.eqb k' k then Some v else None
    end.
Proof.
  induction d as [|[k0 v0] d IH]; simpl.
  - reflexivity.
  - destruct (String.eqb k0 k); [reflexivity|assumption].
Qed.

Lemma dict_set_fresh {V} (k : string) (v : V) (d : dict V) :
  dict_get k d = None -> dict_set k v d = d ++ [(k, v)].
Proof.
  induction d as [|[k0 v0] d IH]; simpl; intros H.
  - reflexivity.
  - destruct (String.eqb k0 k); [discriminate|]. now rewrite IH.
Qed.

Lemma dict_get_entries (k : string) (l : list Placement.t) :
  dict_get k (map entry_of l) = lookup k l.
Proof.
  unfold lookup. induction l as [|p l IH]; simpl.
  - reflexivity.
  - destruct (String.eqb (Placement.itemId p) k); [reflexivity|assumption].
Qed.

Lemma lookup_none_not_in (k : string) (l : list Placement.t) :
  ~ In k (map Placement.itemId l) -> lookup k l = None.
Proof.
  unfold lookup. induction l as [|p l IH]; simpl; intros H.
  - reflexivity.
  - destruct (String.eqb_spec (Placement.itemId p) k) as [E|E].
    + exfalso. apply H. now left.
    + apply IH. intros C. apply H. now right.
Qed.

(** With unique identifiers the dict comprehension lists the snapshot in its
    own order. *)
Lemma placements_by_id_unique (l : list Placement.t) :
  NoDup (map Placement.itemId l) ->
  placements_by_id l = map entry_of l.
Proof.
  unfold placements_by_id.
  enough (G : forall l0,
             NoDup (map Placement.itemId (l0 ++ l)) ->
             fold_left (fun d p => dict_set (Placement.itemId p) p d) l
                       (map entry_of l0)
             = map entry_of (l0 ++ l)).
  { intros H. apply (G []). exact H. }
  induction l as [|p l IH]; intros l0 H; simpl.
  - now rewrite app_nil_r.
  - rewrite dict_set_fresh.
    + change (map entry_of l0 ++ [(Placement.itemId p, p)])
        with (map entry_of l0 ++ map entry_of [p]).
      rewrite <- map_app.
      replace (l0 ++ p :: l) with ((l0 ++ [p]) ++ l)
        by (rewrite <- app_assoc; reflexivity).
      apply IH. rewrite <- app_assoc. exact H.
    + rewrite dict_get_entries. apply lookup_none_not_in.
      rewrite map_app in H. simpl in H.
      apply NoDup_remove_2 in H. intros C. apply H.
      apply in_or_app. now left.
Qed.

Lemma coord_eqb_eq (a b : Coord.t) : coord_eqb a b = true <-> a = b.
Proof.
  destruct a as [aw ad ah], b as [bw bd bh]. unfold coord_eqb; simpl.
  rewrite !andb_true_iff, !Z.eqb_eq. split.
  - intros [[-> Hd] ->]. f_equal.
    destruct ad, bd; simpl in Hd; try discriminate; [|reflexivity].
    apply Z.eqb_eq in Hd. now subst.
  - intros E. inversion E; subst. repeat split.
    destruct bd; simpl; [apply Z.eqb_refl|reflexivity].
Qed.

Lemma position_eqb_eq (a b : Position.t) : position_eqb a b = true <-> a = b.
Proof.
  destruct a as [a1 a2], b as [b1 b2]. unfold position_eqb; simpl.
  rewrite andb_true_iff, !coord_eqb_eq. split.
  - intros [-> ->]. reflexivity.
  - intros E. inversion E. now split.
Qed.

Lemma differs_iff (oldp newp : Placement.t) :
  negb (String.eqb (Placement.containerId oldp) (Placement.containerId newp))
  || negb (position_eqb (Placement.position oldp) (Placement.position newp))
  = if same_place_dec oldp newp then false else true.
Proof.
  destruct (same_place_dec oldp newp) as [[E1 E2]|N].
  - rewrite E1, E2, String.eqb_refl.
    now rewrite (proj2 (position_eqb_eq _ _) eq_refl).
  - unfold same_place in N.
    destruct (String.eqb_spec (Placement.containerId oldp)
                              (Placement.containerId newp)) as [E|E];
      [|reflexivity].
    simpl. destruct (position_eqb (Placement.position oldp)
                                  (Placement.position newp)) eqn:P;
      [|reflexivity].
    apply position_eqb_eq in P. tauto.
Qed.

Lemma number_steps_app (l1 l2 : list (Z -> Step.t)) :
  forall n,
    number_steps n (l1 ++ l2)
    = number_steps n l1 ++ number_steps (n + Z.of_nat (length l1)) l2.
Proof.
  induction l1 as [|f l1 IH]; intros n.
  - simpl. now rewrite Z.add_0_r.
  - cbn [app number_steps length]. rewrite IH. simpl. do 3 f_equal. lia.
Qed.

Lemma new_pass_loop (old_snapshot : list Placement.t) :
  forall new_snapshot acc n,
    fold_left (new_pass_step (map entry_of old_snapshot))
              (map entry_of new_snapshot) (acc, n)
    = (acc ++ number_steps n (first_pass old_snapshot new_snapshot),
       n + Z.of_nat (length (first_pass old_snapshot new_snapshot))).
Proof.
  induction new_snapshot as [|p l IH]; intros acc n.
  - simpl. now rewrite app_nil_r, Z.add_0_r.
  - cbn [map fold_left]. unfold first_pass. cbn [flat_map].
    fold (first_pass old_snapshot l).
    unfold new_pass_step at 2. cbn [entry_of].
    rewrite dict_get_entries.
    destruct (lookup (Placement.itemId p) old_snapshot) as [oldp|].
    + rewrite differs_iff. destruct (same_place_dec oldp p).
      * simpl. apply IH.
      * rewrite IH. cbn [app number_steps length].
        rewrite <- app_assoc. simpl. unfold move_of at 1. f_equal. lia.
    + rewrite IH. cbn [app number_steps length].
      rewrite <- app_assoc. simpl. unfold place_of at 1. f_equal. lia.
Qed.

Lemma old_pass_loop (new_snapshot : list Placement.t) :
  forall old_snapshot acc n,
    fold_left (old_pass_step (map entry_of new_snapshot))
              (map entry_of old_snapshot) (acc, n)
    = (acc ++ number_steps n (second_pass old_snapshot new_snapshot),
       n + Z.of_nat (length (second_pass old_snapshot new_snapshot))).
Proof.
  induction old_snapshot as [|p l IH]; intros acc n.
  - simpl. now rewrite app_nil_r, Z.add_0_r.
  - cbn [map fold_left]. unfold second_pass. cbn [filter].
    unfold old_pass_step at 2. cbn [entry_of].
    rewrite dict_get_entries.
    destruct (lookup (Placement.itemId p) new_snapshot) as [newp|].
    + apply IH.
    + rewrite IH. fold (second_pass l new_snapshot).
      cbn [map number_steps length].
      rewrite <- app_assoc. simpl. unfold remove_of at 1. f_equal.
      unfold second_pass. lia.
Qed.

(** C6 (rearrangement differ). For snapshots with unique item identifiers,
    [generate_rearrangements] emits the steps of pass 1 (over the new
    snapshot in its order: [place] for an item absent from the old snapshot,
    [move] from the old to the new container and box for an item whose
    container or box differs, nothing for an unchanged item) followed by the
    steps of pass 2 (over the old snapshot in its order: [remove] for each
    item absent from the new one), numbered 1, 2, 3, ... across both passes;
    a box is unchanged exactly when all its coordinates are equal. *)
Theorem generate_rearrangements_two_passes :
  forall (old_placements new_placements : list Placement.t),
    NoDup (map Placement.itemId old_placements) ->
    NoDup (map Placement.itemId new_placements) ->
    generate_rearrangements old_placements new_placements
    = number_steps 1 (first_pass old_placements new_placements
                        ++ second_pass old_placements new_placements).
Proof.
  intros old new Hold Hnew. unfold generate_rearrangements.
  rewrite (placements_by_id_unique old Hold),
    (placements_by_id_unique new Hnew).
  rewrite new_pass_loop, old_pass_loop. simpl.
  now rewrite number_steps_app.
Qed.

Lemma generate_rearrangements_two_passes_witness :
  generate_rearrangements example_old example_new
  = number_steps 1 (first_pass example_old example_new
                      ++ second_pass example_old example_new).
Proof.
  apply generate_rearrangements_two_passes.
  - simpl. repeat constructor; simpl; intuition discriminate.
  - simpl. repeat constructor; simpl; intuition discriminate.
Defined.

(** The differ on the example snapshots: A is unchanged, B moves, D is new
    and E is gone. *)
Example generate_rearrangements_example :
  generate_rearrangements example_old example_new
  = [ move_of (placement_doc "C" "B" 30 0 50 10 50)
              (placement_doc "C" "B" 0 20 50 10 50) 1;
      place_of (placement_doc "C" "D" 50 20 10 10 10) 2;
      remove_of (placement_doc "C" "E" 80 0 20 20 20) 3 ].
Proof. reflexivity. Qed.

(* ------------------------------------------------------------------ *)
(** ** Geometry of splitting *)

Lemma contained_in_spec (a b : Rect.t) : contained_in a b = true <-> inside a b.
Proof.
  unfold contained_in, inside.
  rewrite !andb_true_iff, !Z.geb_le, !Z.leb_le. lia.
Qed.


Lemma in_if_singleton {A} (c : bool) (a x : A) :
  In x (if c then [a] else []) <-> c = true /\ x = a.
Proof.
  destruct c; simpl; split.
  - intros [E|[]]. now split.
  - intros [_ E]. now left.
  - intros [].
  - intros [E _]. discriminate.
Qed.

(** What a member of [split_free_rectangle fr pr] looks like: [fr] itself
    when the two do not intersect, otherwise one of the four strips of [fr]
    beside the intersection, of positive size. *)
Lemma split_in (fr pr s : Rect.t) :
  In s (split_free_rectangle fr pr) ->
  (s = fr /\
   (Z.min (Rect.x fr + Rect.w fr) (Rect.x pr + Rect.w pr)
      <= Z.max (Rect.x fr) (Rect.x pr)
    \/ Z.min (Rect.y fr + Rect.h fr) (Rect.y pr + Rect.h pr)
         <= Z.max (Rect.y fr) (Rect.y pr)))
  \/
  (Z.max (Rect.x fr) (Rect.x pr)
     < Z.min (Rect.x fr + Rect.w fr) (Rect.x pr + Rect.w pr) /\
   Z.max (Rect.y fr) (Rect.y pr)
     < Z.min (Rect.y fr + Rect.h fr) (Rect.y pr + Rect.h pr) /\
   0 < Rect.w s /\ 0 < Rect.h s /\
   ((Rect.x pr > Rect.x fr /\
     Rect.x s = Rect.x fr /\ Rect.y s = Rect.y fr /\
     Rect.w s = Rect.x pr - Rect.x fr /\ Rect.h s = Rect.h fr)
    \/
    (Rect.x pr + Rect.w pr < Rect.x fr + Rect.w fr /\
     Rect.x s = Rect.x pr + Rect.w pr /\ Rect.y s = Rect.y fr /\
     Rect.w s = Rect.x fr + Rect.w fr - (Rect.x pr + Rect.w pr) /\
     Rect.h s = Rect.h fr)
    \/
    (Rect.y pr + Rect.h pr < Rect.y fr + Rect.h fr /\
     Rect.x s = Rect.x fr /\ Rect.y s = Rect.y pr + Rect.h pr /\
     Rect.w s = Rect.w fr /\
     Rect.h s = Rect.y fr + Rect.h fr - (Rect.y pr + Rect.h pr))
    \/
    (Rect.y pr > Rect.y fr /\
     Rect.x s = Rect.x fr /\ Rect.y s = Rect.y fr /\
     Rect.w s = Rect.w fr /\ Rect.h s = Rect.y pr - Rect.y fr))).
Proof.
  unfold split_free_rectangle.
  destruct ((Z.min (Rect.x fr + Rect.w fr) (Rect.x pr + Rect.w pr)
               <=? Z.max (Rect.x fr) (Rect.x pr))
            || (Z.min (Rect.y fr + Rect.h fr) (Rect.y pr + Rect.h pr)
                  <=? Z.max (Rect.y fr) (Rect.y pr))) eqn:E.
  - intros [<-|[]]. left. split; [reflexivity|].
    apply orb_true_iff in E. rewrite !Z.leb_le in E. exact E.
  - intros Hin. right. zbool.
    apply filter_In in Hin. destruct Hin as [Hin Hpos]. zbool.
    repeat (split; [lia|]).
    rewrite !in_app_iff, !in_if_singleton in Hin.
    destruct Hin as [[C ->]|[[C ->]|[[C ->]|[C ->]]]]; zbool; simpl in *;
      [ left | right; left | right; right; left | right; right; right ];
      lia.
Qed.

Lemma split_inside (fr pr s : Rect.t) :
  In s (split_free_rectangle fr pr) -> inside s fr.
Proof.
  intros Hin. apply split_in in Hin. unfold inside.
  destruct Hin as [[-> _]|(Hx & Hy & Hw & Hh & Hs)]; lia.
Qed.





(** A cell of [fr] outside the placed rectangle stays in a piece of the
    split. *)
Lemma split_covers (fr pr : Rect.t) (cx cy : Z) :
  covers fr cx cy -> ~ covers pr cx cy ->
  exists s, In s (split_free_rectangle fr pr) /\ covers s cx cy.
Proof.
  unfold covers, split_free_rectangle. intros Hf Hp.
  destruct ((Z.min (Rect.x fr + Rect.w fr) (Rect.x pr + Rect.w pr)
               <=? Z.max (Rect.x fr) (Rect.x pr))
            || (Z.min (Rect.y fr + Rect.h fr) (Rect.y pr + Rect.h pr)
                  <=? Z.max (Rect.y fr) (Rect.y pr))) eqn:E.
  - exists fr. split; [now left|assumption].
  - zbool.
    assert (C : cx < Rect.x pr \/ Rect.x pr + Rect.w pr <= cx
                \/ Rect.y pr + Rect.h pr <= cy \/ cy < Rect.y pr) by lia.
    destruct C as [C|[C|[C|C]]].
    + eexists. split.
      * apply filter_In. split.
        -- rewrite !in_app_iff, !in_if_singleton. left.
           split; [|reflexivity]. apply Z.gtb_lt. lia.
        -- simpl. apply andb_true_iff. rewrite !Z.gtb_lt. lia.
      * simpl. lia.
    + eexists. split.
      * apply filter_In. split.
        -- rewrite !in_app_iff, !in_if_singleton. right; left.
           split; [|reflexivity]. apply Z.ltb_lt. lia.
        -- simpl. apply andb_true_iff. rewrite !Z.gtb_lt. lia.
      * simpl. lia.
    + eexists. split.
      * apply filter_In. split.
        -- rewrite !in_app_iff, !in_if_singleton. right; right; left.
           split; [|reflexivity]. apply Z.ltb_lt. lia.
        -- simpl. apply andb_true_iff. rewrite !Z.gtb_lt. lia.
      * simpl. lia.
    + eexists. split.
      * apply filter_In. split.
        -- rewrite !in_app_iff, !in_if_singleton. right; right; right.
           split; [|reflexivity]. apply Z.gtb_lt. lia.
        -- simpl. apply andb_true_iff. rewrite !Z.gtb_lt. lia.
      * simpl. lia.
Qed.






(* ------------------------------------------------------------------ *)
(** ** Geometry of pruning *)

Lemma prune_outer_subset (free_rects : list Rect.t) :
  forall rest i r, In r (prune_outer free_rects i rest) -> In r rest.
Proof.
  induction rest as [|r1 rest IH]; intros i r Hin; simpl in *.
  - assumption.
  - destruct (prune_inner i r1 0 free_rects).
    + right. eapply IH; eassumption.
    + destruct Hin as [<-|Hin]; [now left|right; eapply IH; eassumption].
Qed.

Lemma prune_subset (free_rects : list Rect.t) (r : Rect.t) :
  In r (prune_free_rectangles free_rects) -> In r free_rects.
Proof. apply prune_outer_subset. Qed.

(** A rectangle the inner scan does not reject survives. *)
Lemma prune_outer_keeps (free_rects : list Rect.t) :
  forall rest i k r,
    nth_error rest k = Some r ->
    prune_inner (i + k) r 0 free_rects = false ->
    In r (prune_outer free_rects i rest).
Proof.
  induction rest as [|r1 rest IH]; intros i k r Hk Hs.
  - destruct k; discriminate.
  - simpl. destruct k as [|k]; simpl in Hk.
    + inversion Hk; subst. rewrite Nat.add_0_r in Hs. rewrite Hs. now left.
    + assert (In r (prune_outer free_rects (S i) rest)).
      { apply (IH (S i) k r Hk). now rewrite Nat.add_succ_r in Hs. }
      destruct (prune_inner i r1 0 free_rects); [assumption|now right].
Qed.

(** A rejected rectangle lies inside the rectangle at another position. *)
Lemma prune_inner_true (i : nat) (r1 : Rect.t) :
  forall rest j,
    prune_inner i r1 j rest = true ->
    exists k r2, nth_error rest k = Some r2 /\ i <> (j + k)%nat /\
                 contained_in r1 r2 = true.
Proof.
  induction rest as [|r rest IH]; intros j H; simpl in H.
  - discriminate.
  - destruct (negb (Nat.eqb i j) && contained_in r1 r) eqn:E.
    + apply andb_true_iff in E. destruct E as [E1 E2].
      apply negb_true_iff, Nat.eqb_neq in E1.
      exists 0%nat, r. rewrite Nat.add_0_r. now repeat split.
    + destruct (IH (S j) H) as (k & r2 & Hk & Hne & Hc).
      exists (S k), r2. rewrite Nat.add_succ_r. now repeat split.
Qed.

Lemma prune_antichain (free_rects : list Rect.t) :
  pairwise (fun a b => contained_in a b = false)
           (prune_free_rectangles free_rects).
Proof.
  intros a b r1 r2 Hab Ha Hb. unfold prune_free_rectangles in *.
  destruct (Nat.lt_trichotomy a b) as [Hlt|[Heq|Hgt]]; [|contradiction|].
  - destruct (prune_outer_pair free_rects free_rects 0 Hlt Ha Hb)
      as (ka & kb & Hk & H1 & H2 & H3 & _).
    eapply prune_inner_false; [exact H3 | exact H2 | simpl; lia].
  - destruct (prune_outer_pair free_rects free_rects 0 Hgt Hb Ha)
      as (kb & ka & Hk & H1 & H2 & _ & H4).
    eapply prune_inner_false; [exact H4 | exact H1 | simpl; lia].
Qed.

(** C7 (prune). For every input list, two rectangles at different positions
    of the output of [prune_free_rectangles] are never contained one in the
    other (all four edges inside or equal). *)
Theorem prune_free_rectangles_no_containment :
  forall (free_rects : list Rect.t) (a b : nat) (r1 r2 : Rect.t),
    a <> b ->
    nth_error (prune_free_rectangles free_rects) a = Some r1 ->
    nth_error (prune_free_rectangles free_rects) b = Some r2 ->
    contained_in r1 r2 = false.
Proof.
  intros l a b r1 r2 Hab Ha Hb.
  exact (@prune_antichain l a b r1 r2 Hab Ha Hb).
Qed.

Lemma prune_free_rectangles_no_containment_witness :
  contained_in (Rect.mk 0 0 10 10) (Rect.mk 5 5 10 10) = false.
Proof.
  apply (@prune_free_rectangles_no_containment
           [Rect.mk 0 0 10 10; Rect.mk 1 1 2 2; Rect.mk 5 5 10 10]
           0%nat 1%nat);
    [ lia | reflexivity | reflexivity ].
Defined.

(** Each of two equal rectangles is inside the other one, so the loop drops
    both. *)
Example prune_free_rectangles_equal_pair :
  prune_free_rectangles [Rect.mk 0 0 1 1; Rect.mk 0 0 1 1] = [].
Proof. reflexivity. Qed.

Lemma inside_trans (a b c : Rect.t) : inside a b -> inside b c -> inside a c.
Proof. unfold inside. lia. Qed.

Lemma inside_refl (a : Rect.t) : inside a a.
Proof. unfold inside. lia. Qed.

Lemma inside_antisym (a b : Rect.t) : inside a b -> inside b a -> a = b.
Proof.
  destruct a, b. unfold inside. simpl. intros H1 H2. f_equal; lia.
Qed.


(* ------------------------------------------------------------------ *)
(** ** One placement on a face *)



Lemma covers_inside (a b : Rect.t) (cx cy : Z) :
  inside a b -> covers a cx cy -> covers b cx cy.
Proof. unfold inside, covers. lia. Qed.








(* ------------------------------------------------------------------ *)
(** ** Face packer *)









Example pack_open_face_free_after_A :
  face_free example_C [example_A]
  = [Rect.mk 30 0 70 100; Rect.mk 0 20 100 80]
  /\ overlaps (Rect.mk 30 0 70 100) (Rect.mk 0 20 100 80)
  /\ total_area (face_free example_C [example_A]
                   ++ face_placed example_C [example_A]) = 15600.
Proof.
  split; [reflexivity|]. split; [unfold overlaps; simpl; lia|reflexivity].
Qed.

(* ------------------------------------------------------------------ *)
(** ** Zone allocator: placements stay apart and in bounds *)




Lemma scan_containers_cons (item : Item.t) (cid : string) (d_item : FaceData.t)
  (rest : dict FaceData.t) (wd : World.t) :
  scan_containers item ((cid, d_item) :: rest) wd =
    let cont := FaceData.container d_item in
    let continue :=
      let '(placed, rest', wd') := scan_containers item rest wd in
      (placed, (cid, d_item) :: rest', wd') in
    match get_best_orientation item (Container.depth cont) with
    | None => continue
    | Some (rw, rh, rd) =>
      match place_footprint (FaceData.free_rects d_item) rw rh with
      | None => continue
      | Some (px, py, free_rects') =>
        (true,
         (cid,
          FaceData.mk cont free_rects'
            (FaceData.placements d_item
               ++ [placement_doc cid (Item.itemId item) px py rw rh rd]))
           :: rest,
         record_log "system" "NEW_PLACEMENT" (Item.itemId item) "NONE" cid
                    "Placed on open face." wd)
      end
    end.
Proof. reflexivity. Qed.



Lemma in_insert_stable {A} (before : A -> A -> bool) (x y : A) (l : list A) :
  In y (insert_stable before x l) <-> y = x \/ In y l.
Proof.
  induction l as [|a l IH]; simpl.
  - intuition congruence.
  - destruct (before a x); simpl; rewrite ?IH; intuition congruence.
Qed.

Lemma in_py_sort {A} (before : A -> A -> bool) (y : A) (l : list A) :
  In y (py_sort before l) <-> In y l.
Proof.
  unfold py_sort. induction l as [|a l IH]; simpl.
  - tauto.
  - rewrite in_insert_stable, IH. intuition congruence.
Qed.

Lemma dict_set_keys {V} (k : string) (v : V) (d : dict V) :
  map fst (dict_set k v d)
  = if existsb (String.eqb k) (map fst d) then map fst d
    else map fst d ++ [k].
Proof.
  induction d as [|[k0 v0] d IH]; simpl.
  - reflexivity.
  - rewrite (String.eqb_sym k k0).
    destruct (String.eqb k0 k); simpl; [reflexivity|].
    rewrite IH. now destruct (existsb (String.eqb k) (map fst d)).
Qed.

Lemma existsb_eqb_in (k : string) (l : list string) :
  existsb (String.eqb k) l = true <-> In k l.
Proof.
  rewrite existsb_exists. split.
  - intros (x & Hx & E). apply String.eqb_eq in E. now subst.
  - intros H. exists k. split; [assumption|apply String.eqb_refl].
Qed.

Lemma NoDup_snoc {A} (l : list A) (a : A) :
  NoDup l -> ~ In a l -> NoDup (l ++ [a]).
Proof.
  intros Hl Ha. apply NoDup_app; [assumption|repeat constructor; intros []|].
  intros x Hx [<-|[]]. contradiction.
Qed.

Lemma dict_set_keys_nodup {V} (k : string) (v : V) (d : dict V) :
  NoDup (map fst d) -> NoDup (map fst (dict_set k v d)).
Proof.
  intros H. rewrite dict_set_keys.
  destruct (existsb (String.eqb k) (map fst d)) eqn:E; [assumption|].
  apply NoDup_snoc; [assumption|].
  intros C. apply existsb_eqb_in in C. congruence.
Qed.

Lemma dict_set_forall {V} (Q : string * V -> Prop) (k : string) (v : V)
  (d : dict V) :
  Forall Q d -> Q (k, v) -> Forall Q (dict_set k v d).
Proof.
  induction d as [|[k0 v0] d IH]; simpl; intros Hd Hq.
  - now constructor.
  - inversion Hd; subst.
    destruct (String.eqb_spec k0 k) as [->|N]; constructor; auto.
Qed.








Section Allocation.
Variable data : Data.t.
Let cs := get_list (Data.containers data).
Hypothesis unique_ids : NoDup (map Container.containerId cs).



End Allocation.



(* ------------------------------------------------------------------ *)
(** ** The example of the specification *)

(** C1, as the code has it. On the example (container C 100 x 100 x 50 in
    zone Z; items A (30, 40, 20) priority 5 and B (50, 50, 10) priority 3,
    both preferring zone Z) the allocator places A first with the feasible
    orientation of least footprint area, 30 x 20 = 600 with depth 40,
    anchored at (0, 0), and then B with footprint 50 x 10 and depth 50
    anchored at (30, 0); the two footprints do not overlap. *)
Theorem place_items_optimally_example :
  forall wd : World.t,
    get_best_orientation example_A (Container.depth example_C)
      = Some (30, 20, 40)
    /\
    fst (place_items_optimally example_data wd)
      = ([ placement_doc "C" "A" 0 0 30 20 40;
           placement_doc "C" "B" 30 0 50 10 50 ], [])
    /\
    footprint (placement_doc "C" "A" 0 0 30 20 40) = Rect.mk 0 0 30 20
    /\
    footprint (placement_doc "C" "B" 30 0 50 10 50) = Rect.mk 30 0 50 10
    /\
    ~ overlaps (footprint (placement_doc "C" "A" 0 0 30 20 40))
               (footprint (placement_doc "C" "B" 30 0 50 10 50)).
Proof.
  intros wd. repeat split; try reflexivity.
  unfold overlaps. simpl. lia.
Qed.

(** C1, as stated, fails: no placement the allocator returns for item A has
    the footprint area 30 * 40 = 1200 and the depth 20 of the first
    candidate. *)
Lemma place_items_optimally_example_not_1200 :
  ~ exists p,
      In p (fst (fst (place_items_optimally example_data
                        (World.mk (fun _ => 0) 0 [] []))))
      /\ Placement.itemId p = "A"%string
      /\ area (footprint p) = 30 * 40
      /\ Coord.depth (Position.endCoordinates (Placement.position p))
         = Some 20.
Proof.
  intros (p & Hin & Hid & Harea & Hd).
  simpl in Hin. destruct Hin as [<-|[<-|[]]]; discriminate.
Qed.

(* ------------------------------------------------------------------ *)
(** ** Determinism *)

Lemma scan_containers_world (item : Item.t) :
  forall entries wd1 wd2,
    fst (scan_containers item entries wd1)
    = fst (scan_containers item entries wd2).
Proof.
  induction entries as [|[cid d] rest IH]; intros wd1 wd2.
  - reflexivity.
  - rewrite !scan_containers_cons. cbv zeta.
    specialize (IH wd1 wd2).
    destruct (scan_containers item rest wd1) as [[p1 r1] w1].
    destruct (scan_containers item rest wd2) as [[p2 r2] w2].
    simpl in IH. inversion IH; subst.
    destruct (get_best_orientation item
                (Container.depth (FaceData.container d)))
      as [[[rw rh] rd]|]; [|reflexivity].
    destruct (place_footprint (FaceData.free_rects d) rw rh)
      as [[[px py] free']|]; reflexivity.
Qed.

Lemma item_loop_world :
  forall items cfd remaining wd1 wd2,
    fst (fold_left item_step items (cfd, remaining, wd1))
    = fst (fold_left item_step items (cfd, remaining, wd2)).
Proof.
  induction items as [|it items IH]; intros cfd remaining wd1 wd2.
  - reflexivity.
  - simpl. pose proof (scan_containers_world it cfd wd1 wd2) as S.
    destruct (scan_containers it cfd wd1) as [[p1 c1] w1].
    destruct (scan_containers it cfd wd2) as [[p2 c2] w2].
    simpl in S. inversion S; subst.
    destruct p2; apply IH.
Qed.

Lemma zone_step_world (data : Data.t) (st1 st2 : AllocState.t)
  (entry : string * list Item.t) :
  AllocState.all_open_face_placements st1
    = AllocState.all_open_face_placements st2 ->
  AllocState.unplaced_global st1 = AllocState.unplaced_global st2 ->
  AllocState.all_open_face_placements (zone_step data st1 entry)
    = AllocState.all_open_face_placements (zone_step data st2 entry)
  /\ AllocState.unplaced_global (zone_step data st1 entry)
     = AllocState.unplaced_global (zone_step data st2 entry).
Proof.
  intros Hp Hu. destruct entry as [z l]. unfold zone_step.
  match goal with
  | |- context [fold_left item_step ?its (?c, ?r, AllocState.world st1)] =>
      pose proof (item_loop_world its c r (AllocState.world st1)
                                  (AllocState.world st2)) as L;
      destruct (fold_left item_step its (c, r, AllocState.world st1))
        as [[cfd1 rem1] w1];
      destruct (fold_left item_step its (c, r, AllocState.world st2))
        as [[cfd2 rem2] w2]
  end.
  simpl in L. inversion L; subst. simpl. rewrite Hp, Hu. now split.
Qed.

Lemma zone_loop_world (data : Data.t) :
  forall entries st1 st2,
    AllocState.all_open_face_placements st1
      = AllocState.all_open_face_placements st2 ->
    AllocState.unplaced_global st1 = AllocState.unplaced_global st2 ->
    AllocState.all_open_face_placements
      (fold_left (zone_step data) entries st1)
      = AllocState.all_open_face_placements
          (fold_left (zone_step data) entries st2)
    /\ AllocState.unplaced_global (fold_left (zone_step data) entries st1)
       = AllocState.unplaced_global (fold_left (zone_step data) entries st2).
Proof.
  induction entries as [|e entries IH]; intros st1 st2 Hp Hu; simpl.
  - now split.
  - destruct (zone_step_world data st1 st2 e Hp Hu) as [Hp' Hu'].
    now apply IH.
Qed.

(** C8. Two runs of [place_items_optimally] on the same items and containers
    produce the same placement list, the same unplaced-item list and the same
    returned pair, whatever the clock and the logs of the two runs. *)
Theorem place_items_optimally_deterministic :
  forall (data : Data.t) (wd1 wd2 : World.t),
    AllocState.all_open_face_placements (place_items_optimally_state data wd1)
      = AllocState.all_open_face_placements
          (place_items_optimally_state data wd2)
    /\ AllocState.unplaced_global (place_items_optimally_state data wd1)
       = AllocState.unplaced_global (place_items_optimally_state data wd2)
    /\ fst (place_items_optimally data wd1)
       = fst (place_items_optimally data wd2).
Proof.
  intros data wd1 wd2.
  destruct (zone_loop_world data
              (zone_to_items (get_list (Data.items data)))
              (AllocState.mk [] [] wd1) (AllocState.mk [] [] wd2)
              eq_refl eq_refl) as [Hp Hu].
  unfold place_items_optimally, place_items_optimally_state. simpl.
  repeat split; try assumption. now rewrite Hp.
Qed.

(* ------------------------------------------------------------------ *)
(** ** Items without a priority *)

Lemma insert_items_perm (x : Item.t) (l : list Item.t) :
  Permutation (x :: l)
    (insert_stable (fun a b => priority_key a >? priority_key b) x l).
Proof.
  induction l as [|y l IH]; simpl.
  - apply Permutation_refl.
  - destruct (priority_key y >? priority_key x).
    + eapply Permutation_trans; [apply perm_swap|].
      now apply perm_skip.
    + apply Permutation_refl.
Qed.

Lemma sort_items_perm (l : list Item.t) : Permutation l (sort_items l).
Proof.
  unfold sort_items, py_sort. induction l as [|x l IH]; simpl.
  - constructor.
  - eapply Permutation_trans; [apply perm_skip; exact IH|].
    apply insert_items_perm.
Qed.













(* ================================================================== *)
(** * Further properties of the placement helpers *)

(* ------------------------------------------------------------------ *)
(** ** Splitting *)

(** X1. The pieces [split_free_rectangle fr pr] returns cover exactly the
    cells of [fr] that are not cells of [pr]: nothing of [fr] outside [pr] is
    lost and nothing of [pr] is kept. *)
Theorem split_free_rectangle_exact_cover :
  forall (fr pr : Rect.t) (cx cy : Z),
    (exists s, In s (split_free_rectangle fr pr) /\ covers s cx cy)
    <-> covers fr cx cy /\ ~ covers pr cx cy.
Proof.
  intros fr pr cx cy. split.
  - intros (s & Hs & Hc). split.
    + eapply covers_inside; [eapply split_inside; exact Hs|exact Hc].
    + apply split_in in Hs. unfold covers in *.
      destruct Hs as [[-> Hno]|(Hx & Hy & Hw & Hh & Hk)]; lia.
  - intros [Hf Hp]. now apply split_covers.
Qed.

Lemma length_if_singleton {A} (c : bool) (a : A) :
  (length (if c then [a] else []) <= 1)%nat.
Proof. destruct c; simpl; lia. Qed.

Lemma length_filter_le {A} (f : A -> bool) (l : list A) :
  (length (filter f l) <= length l)%nat.
Proof.
  induction l as [|a l IH]; simpl; [lia|]. destruct (f a); simpl; lia.
Qed.

(** X2. [split_free_rectangle fr pr] returns at most four rectangles, each
    lying inside [fr]. *)
Theorem split_free_rectangle_at_most_four_inside :
  forall fr pr : Rect.t,
    (length (split_free_rectangle fr pr) <= 4)%nat
    /\ Forall (fun s => inside s fr) (split_free_rectangle fr pr).
Proof.
  intros fr pr. split.
  - unfold split_free_rectangle.
    destruct ((Z.min (Rect.x fr + Rect.w fr) (Rect.x pr + Rect.w pr)
                 <=? Z.max (Rect.x fr) (Rect.x pr))
              || (Z.min (Rect.y fr + Rect.h fr) (Rect.y pr + Rect.h pr)
                    <=? Z.max (Rect.y fr) (Rect.y pr))).
    + simpl. lia.
    + eapply Nat.le_trans; [apply length_filter_le|].
      rewrite !length_app.
      repeat match goal with
             | |- context [length (if ?c then [?a] else [])] =>
                 let H := fresh in
                 pose proof (length_if_singleton c a) as H;
                 generalize dependent (length (if c then [a] else []));
                 intros
             end.
      lia.
  - apply Forall_forall. intros s Hs. eapply split_inside; exact Hs.
Qed.

(** X3. For rectangles of positive size, the split leaves [fr] untouched
    exactly when [fr] and [pr] do not overlap, and leaves nothing exactly
    when [fr] lies inside [pr]. *)
Theorem split_free_rectangle_unchanged_or_consumed :
  forall fr pr : Rect.t,
    positive fr -> positive pr ->
    (split_free_rectangle fr pr = [fr] <-> ~ overlaps fr pr)
    /\ (split_free_rectangle fr pr = [] <-> inside fr pr).
Proof.
  intros fr pr Hf Hp. unfold positive in *.
  assert (Hcell : covers fr (Rect.x fr) (Rect.y fr))
    by (unfold covers; lia).
  split; split.
  - intros E C.
    assert (Hin : In fr (split_free_rectangle fr pr))
      by (rewrite E; now left).
    apply split_in in Hin. unfold overlaps in C.
    destruct Hin as [[_ Hno]|(Hx & Hy & Hw & Hh & Hk)]; lia.
  - intros N. unfold split_free_rectangle, overlaps in *.
    destruct ((Z.min (Rect.x fr + Rect.w fr) (Rect.x pr + Rect.w pr)
                 <=? Z.max (Rect.x fr) (Rect.x pr))
              || (Z.min (Rect.y fr + Rect.h fr) (Rect.y pr + Rect.h pr)
                    <=? Z.max (Rect.y fr) (Rect.y pr))) eqn:E;
      [reflexivity|]. zbool. lia.
  - intros E. unfold inside.
    assert (Hall : forall cx cy, covers fr cx cy -> covers pr cx cy).
    { intros cx cy Hc.
      assert (D : covers pr cx cy \/ ~ covers pr cx cy)
        by (unfold covers; lia).
      destruct D as [D|D]; [assumption|].
      destruct (@split_covers fr pr cx cy Hc D) as (s & Hs & _).
      rewrite E in Hs. destruct Hs. }
    pose proof (Hall (Rect.x fr) (Rect.y fr)) as C1.
    pose proof (Hall (Rect.x fr + Rect.w fr - 1)
                     (Rect.y fr + Rect.h fr - 1)) as C2.
    unfold covers in *. lia.
  - intros I. destruct (split_free_rectangle fr pr) as [|s l] eqn:E;
      [reflexivity|].
    assert (Hin : In s (split_free_rectangle fr pr))
      by (rewrite E; now left).
    apply split_in in Hin. unfold inside in I.
    destruct Hin as [[_ Hno]|(Hx & Hy & Hw & Hh & Hk)]; lia.
Qed.

Lemma split_free_rectangle_unchanged_or_consumed_witness :
  (split_free_rectangle (Rect.mk 0 0 10 10) (Rect.mk 10 0 5 5)
     = [Rect.mk 0 0 10 10]
   <-> ~ overlaps (Rect.mk 0 0 10 10) (Rect.mk 10 0 5 5))
  /\ (split_free_rectangle (Rect.mk 0 0 10 10) (Rect.mk 10 0 5 5) = []
      <-> inside (Rect.mk 0 0 10 10) (Rect.mk 10 0 5 5)).
Proof.
  apply (@split_free_rectangle_unchanged_or_consumed
           (Rect.mk 0 0 10 10) (Rect.mk 10 0 5 5));
    unfold positive; simpl; lia.
Defined.

(* ------------------------------------------------------------------ *)
(** ** Pruning *)

Lemma prune_inner_all_false (i : nat) (r1 : Rect.t) :
  forall rest j,
    (forall k r2, nth_error rest k = Some r2 -> i <> (j + k)%nat ->
       contained_in r1 r2 = false) ->
    prune_inner i r1 j rest = false.
Proof.
  induction rest as [|r rest IH]; intros j H; simpl.
  - reflexivity.
  - destruct (Nat.eqb_spec i j) as [E|N]; simpl.
    + apply IH. intros k r2 Hk Hne. apply (H (S k) r2 Hk). lia.
    + rewrite (H 0%nat r eq_refl) by lia.
      apply IH. intros k r2 Hk Hne. apply (H (S k) r2 Hk). lia.
Qed.

Lemma prune_outer_antichain (free_rects : list Rect.t) :
  pairwise (fun a b => contained_in a b = false) free_rects ->
  forall rest i,
    (forall k r, nth_error rest k = Some r ->
       nth_error free_rects (i + k) = Some r) ->
    prune_outer free_rects i rest = rest.
Proof.
  intros Hp. induction rest as [|r rest IH]; intros i Hsuf; simpl.
  - reflexivity.
  - rewrite prune_inner_all_false.
    + f_equal. apply IH. intros k r' Hk.
      replace (S i + k)%nat with (i + S k)%nat by lia.
      now apply (Hsuf (S k)).
    + intros k r2 Hk Hne. simpl in Hne.
      apply (Hp i k r r2 Hne); [|assumption].
      rewrite <- (Nat.add_0_r i). now apply (Hsuf 0%nat).
Qed.

Lemma prune_antichain_unchanged (free_rects : list Rect.t) :
  pairwise (fun a b => contained_in a b = false) free_rects ->
  prune_free_rectangles free_rects = free_rects.
Proof.
  intros Hp. unfold prune_free_rectangles.
  apply prune_outer_antichain; [assumption|]. intros k r Hk. exact Hk.
Qed.

(** X4. [prune_free_rectangles] only removes rectangles, and pruning an
    already pruned list changes nothing. *)
Theorem prune_free_rectangles_idempotent :
  forall free_rects : list Rect.t,
    incl (prune_free_rectangles free_rects) free_rects
    /\ prune_free_rectangles (prune_free_rectangles free_rects)
       = prune_free_rectangles free_rects.
Proof.
  intros l. split.
  - exact (fun r Hr => @prune_subset l r Hr).
  - apply prune_antichain_unchanged, prune_antichain.
Qed.

Lemma size_bound (l : list Rect.t) :
  exists B, forall r, In r l -> Rect.w r + Rect.h r <= B.
Proof.
  induction l as [|a l [B HB]].
  - exists 0. intros r [].
  - exists (Z.max B (Rect.w a + Rect.h a)). intros r [<-|Hr]; [lia|].
    specialize (HB r Hr). lia.
Qed.

Lemma prune_keeps_larger (free_rects : list Rect.t) :
  NoDup free_rects ->
  forall r, In r free_rects ->
    exists m, In m (prune_free_rectangles free_rects) /\ inside r m.
Proof.
  intros Hnd. destruct (size_bound free_rects) as [B HB].
  enough (G : forall n r, In r free_rects ->
                Z.to_nat (B - (Rect.w r + Rect.h r)) = n ->
                exists m, In m (prune_free_rectangles free_rects)
                          /\ inside r m).
  { intros r Hr. now apply (G _ r Hr eq_refl). }
  induction n as [n IH] using lt_wf_ind. intros r Hr Hn.
  destruct (In_nth_error _ _ Hr) as [i Hi].
  destruct (prune_inner i r 0 free_rects) eqn:E.
  - destruct (prune_inner_true _ _ _ _ E) as (k & r2 & Hk & Hne & Hc).
    simpl in Hne. apply contained_in_spec in Hc.
    assert (Hr2 : In r2 free_rects) by (eapply nth_error_In; eassumption).
    assert (Hneq : r <> r2).
    { intros ->. apply Hne.
      apply (proj1 (NoDup_nth_error free_rects) Hnd i k).
      - apply nth_error_Some. congruence.
      - congruence. }
    assert (Hlt : (Z.to_nat (B - (Rect.w r2 + Rect.h r2)) < n)%nat).
    { pose proof (HB r Hr) as Br. pose proof (HB r2 Hr2) as Br2.
      assert (Rect.w r + Rect.h r < Rect.w r2 + Rect.h r2).
      { destruct (Z.lt_ge_cases (Rect.w r + Rect.h r)
                                (Rect.w r2 + Rect.h r2)) as [L|G];
          [assumption|].
        exfalso. apply Hneq. apply inside_antisym; [assumption|].
        unfold inside in *. lia. }
      lia. }
    destruct (IH _ Hlt r2 Hr2 eq_refl) as (m & Hm & Him).
    exists m. split; [assumption|]. eapply inside_trans; eassumption.
  - exists r. split; [|apply inside_refl].
    unfold prune_free_rectangles.
    apply (prune_outer_keeps free_rects free_rects 0 i); assumption.
Qed.

(** X5. On a list without duplicates, pruning loses no space: every input
    rectangle lies inside some rectangle of the output. (Two equal rectangles
    are each inside the other, and the loop drops both.) *)
Theorem prune_free_rectangles_keeps_space :
  forall (free_rects : list Rect.t) (r : Rect.t),
    NoDup free_rects -> In r free_rects ->
    exists m, In m (prune_free_rectangles free_rects) /\ inside r m.
Proof.
  intros l r Hnd Hr. exact (@prune_keeps_larger l Hnd r Hr).
Qed.

Lemma prune_free_rectangles_keeps_space_witness :
  exists m,
    In m (prune_free_rectangles
            [Rect.mk 0 0 10 10; Rect.mk 1 1 2 2; Rect.mk 5 5 10 10])
    /\ inside (Rect.mk 1 1 2 2) m.
Proof.
  apply (@prune_free_rectangles_keeps_space
           [Rect.mk 0 0 10 10; Rect.mk 1 1 2 2; Rect.mk 5 5 10 10]
           (Rect.mk 1 1 2 2)).
  - repeat constructor; simpl; intuition discriminate.
  - simpl. auto.
Defined.

(* ------------------------------------------------------------------ *)
(** ** Orientation *)

(** X6. The orientation [get_best_orientation] returns is a rearrangement of
    the item's own three dimensions, so the volume is unchanged, and its
    depth fits the container. *)
Theorem get_best_orientation_keeps_dimensions :
  forall (item : Item.t) (D rw rh rd : Z),
    get_best_orientation item D = Some (rw, rh, rd) ->
    Permutation [rw; rh; rd]
                [Item.width item; Item.height item; Item.depth item]
    /\ rw * rh * rd = Item.width item * Item.height item * Item.depth item
    /\ rd <= D.
Proof.
  intros [iid w h d z p] D rw rh rd. simpl.
  unfold get_best_orientation, orientations, py_min_by; simpl.
  destruct (d <=? D) eqn:E1, (h <=? D) eqn:E2, (w <=? D) eqn:E3; simpl;
    destruct (w * d <? w * h); simpl;
    destruct (h * d <? w * h); simpl;
    destruct (h * d <? w * d); simpl;
    intros E; inversion E; subst; zbool;
    (split; [|split; [ring|lia]]);
    first [ apply Permutation_refl
          | apply perm_skip, perm_swap
          | eapply Permutation_trans;
            [apply perm_skip, perm_swap|apply perm_swap] ].
Qed.

Lemma get_best_orientation_keeps_dimensions_witness :
  Permutation [30; 20; 40]
              [Item.width example_A; Item.height example_A;
               Item.depth example_A]
  /\ 30 * 20 * 40
     = Item.width example_A * Item.height example_A * Item.depth example_A
  /\ 40 <= 50.
Proof.
  apply (@get_best_orientation_keeps_dimensions example_A 50 30 20 40).
  reflexivity.
Defined.

(** X7. A deeper container never makes the orientation worse: if an
    orientation exists for depth [D], one exists for every [D' >= D], with a
    footprint area no larger. *)
Theorem get_best_orientation_monotone_in_depth :
  forall (item : Item.t) (D D' : Z) (r : Z * Z * Z),
    D <= D' ->
    get_best_orientation item D = Some r ->
    exists r', get_best_orientation item D' = Some r'
               /\ footprint_area r' <= footprint_area r.
Proof.
  intros [iid w h d z p] D D' r HD.
  unfold get_best_orientation, orientations, py_min_by; simpl.
  destruct (d <=? D) eqn:E1, (h <=? D) eqn:E2, (w <=? D) eqn:E3;
    destruct (d <=? D') eqn:F1, (h <=? D') eqn:F2, (w <=? D') eqn:F3;
    zbool; try lia; simpl;
    destruct (w * d <? w * h) eqn:L1; simpl;
    destruct (h * d <? w * h) eqn:L2; simpl;
    destruct (h * d <? w * d) eqn:L3; simpl;
    zbool; intros E; inversion E; subst;
    eexists; (split; [reflexivity|]); simpl; lia.
Qed.

Lemma get_best_orientation_monotone_in_depth_witness :
  exists r', get_best_orientation example_A 50 = Some r'
             /\ footprint_area r' <= footprint_area (30, 40, 20).
Proof.
  apply (@get_best_orientation_monotone_in_depth example_A 25 50 (30, 40, 20)).
  - lia.
  - reflexivity.
Defined.

(* ------------------------------------------------------------------ *)
(** ** The container scan is first-fit *)

Lemma scan_containers_effect (item : Item.t) :
  forall (entries : dict FaceData.t) (wd : World.t),
    (Forall (fun e => rejects item (snd e)) entries /\
     scan_containers item entries wd = (false, entries, wd))
    \/
    (exists pre cid d suf rw rh rd px py free',
       entries = pre ++ (cid, d) :: suf /\
       Forall (fun e => rejects item (snd e)) pre /\
       get_best_orientation item (Container.depth (FaceData.container d))
         = Some (rw, rh, rd) /\
       place_footprint (FaceData.free_rects d) rw rh = Some (px, py, free') /\
       scan_containers item entries wd
       = (true,
          pre ++ (cid,
                  FaceData.mk (FaceData.container d) free'
                    (FaceData.placements d
                       ++ [placement_doc cid (Item.itemId item)
                                         px py rw rh rd])) :: suf,
          record_log "system" "NEW_PLACEMENT" (Item.itemId item) "NONE" cid
                     "Placed on open face." wd)).
Proof.
  induction entries as [|[cid d] rest IH]; intros wd.
  - left. split; [constructor|reflexivity].
  - rewrite scan_containers_cons. cbv zeta.
    destruct (get_best_orientation item
                (Container.depth (FaceData.container d)))
      as [[[rw rh] rd]|] eqn:O.
    + destruct (place_footprint (FaceData.free_rects d) rw rh)
        as [[[px py] free']|] eqn:P.
      * right. exists [], cid, d, rest, rw, rh, rd, px, py, free'.
        repeat split; try assumption. constructor.
      * destruct (IH wd) as [[Hrej E]|
          (pre & c & d0 & suf & rw0 & rh0 & rd0 & px0 & py0 & f0
           & -> & Hrej & O0 & P0 & E)]; rewrite E.
        -- left. split; [|reflexivity]. constructor; [|assumption].
           unfold rejects. simpl. now rewrite O.
        -- right. exists ((cid, d) :: pre), c, d0, suf, rw0, rh0, rd0,
             px0, py0, f0.
           repeat split; try assumption.
           constructor; [|assumption]. unfold rejects. simpl. now rewrite O.
    + destruct (IH wd) as [[Hrej E]|
        (pre & c & d0 & suf & rw0 & rh0 & rd0 & px0 & py0 & f0
         & -> & Hrej & O0 & P0 & E)]; rewrite E.
      * left. split; [|reflexivity]. constructor; [|assumption].
        unfold rejects. simpl. now rewrite O.
      * right. exists ((cid, d) :: pre), c, d0, suf, rw0, rh0, rd0,
          px0, py0, f0.
        repeat split; try assumption.
        constructor; [|assumption]. unfold rejects. simpl. now rewrite O.
Qed.

(** X8. The container loop of [place_items_optimally] is first-fit. Either
    every container turns the item down, and then the faces and the log are
    left exactly as they were; or the first container in scan order that
    accepts the item gets the placement appended and its free rectangles
    updated, every other entry is untouched, and one log entry is written. *)
Theorem scan_containers_first_fit :
  forall (item : Item.t) (entries : dict FaceData.t) (wd : World.t),
    (Forall (fun e => rejects item (snd e)) entries /\
     scan_containers item entries wd = (false, entries, wd))
    \/
    (exists pre cid d suf rw rh rd px py free',
       entries = pre ++ (cid, d) :: suf /\
       Forall (fun e => rejects item (snd e)) pre /\
       get_best_orientation item (Container.depth (FaceData.container d))
         = Some (rw, rh, rd) /\
       place_footprint (FaceData.free_rects d) rw rh = Some (px, py, free') /\
       scan_containers item entries wd
       = (true,
          pre ++ (cid,
                  FaceData.mk (FaceData.container d) free'
                    (FaceData.placements d
                       ++ [placement_doc cid (Item.itemId item)
                                         px py rw rh rd])) :: suf,
          record_log "system" "NEW_PLACEMENT" (Item.itemId item) "NONE" cid
                     "Placed on open face." wd)).
Proof. exact scan_containers_effect. Qed.

(* ------------------------------------------------------------------ *)
(** ** No item is lost or duplicated *)

Lemma pack_loop_ids (container : Container.t) (x : string) :
  forall items st,
    let st' := fold_left (pack_step container) items st in
    (count_occ string_dec (map Placement.itemId (PackState.placements st')) x
     + count_occ string_dec (map Item.itemId (PackState.unplaced st')) x
     = count_occ string_dec (map Placement.itemId (PackState.placements st)) x
       + count_occ string_dec (map Item.itemId (PackState.unplaced st)) x
       + count_occ string_dec (map Item.itemId items) x)%nat
    /\ (Forall (fun p => Placement.containerId p
                         = Container.containerId container)
               (PackState.placements st) ->
        Forall (fun p => Placement.containerId p
                         = Container.containerId container)
               (PackState.placements st')).
Proof.
  induction items as [|it items IH]; intros st; simpl.
  - split; [lia|auto].
  - destruct (IH (pack_step container st it)) as [IH1 IH2].
    split.
    + rewrite IH1. clear IH1 IH2. unfold pack_step.
      destruct (get_best_orientation it (Container.depth container))
        as [[[rw rh] rd]|]; simpl.
      * destruct (place_footprint (PackState.free_rects st) rw rh)
          as [[[px py] free']|]; simpl;
          rewrite !map_app, !count_occ_app; simpl;
          destruct (string_dec (Item.itemId it) x); lia.
      * rewrite !map_app, !count_occ_app; simpl;
          destruct (string_dec (Item.itemId it) x); lia.
    + intros H. apply IH2. clear IH1 IH2. unfold pack_step.
      destruct (get_best_orientation it (Container.depth container))
        as [[[rw rh] rd]|]; simpl; [|assumption].
      destruct (place_footprint (PackState.free_rects st) rw rh)
        as [[[px py] free']|]; simpl; [|assumption].
      apply Forall_app. split; [assumption|]. now repeat constructor.
Qed.

(** X9. [pack_open_face_in_container] accounts for every item exactly once:
    the identifiers of the placements together with those of the unplaced
    items are the identifiers of the input, each as often as it came in; and
    every placement carries the container's identifier. *)
Theorem pack_open_face_in_container_accounts_for_items :
  forall (container : Container.t) (items : list Item.t),
    Permutation
      (map Item.itemId items)
      (map Placement.itemId (fst (pack_open_face_in_container container items))
         ++ map Item.itemId
                (snd (pack_open_face_in_container container items)))
    /\ Forall (fun p => Placement.containerId p
                        = Container.containerId container)
              (fst (pack_open_face_in_container container items)).
Proof.
  intros container items.
  unfold pack_open_face_in_container, pack_open_face_state. simpl. split.
  - apply (Permutation_count_occ string_dec). intros x.
    destruct (pack_loop_ids container x items
                (PackState.mk
                   [Rect.mk 0 0 (Container.width container)
                            (Container.height container)] [] []))
      as [H _].
    simpl in H. rewrite count_occ_app. lia.
  - destruct (pack_loop_ids container ""%string items
                (PackState.mk
                   [Rect.mk 0 0 (Container.width container)
                            (Container.height container)] [] []))
      as [_ H].
    apply H. constructor.
Qed.

Lemma map_flat_map {A B C} (f : B -> C) (g : A -> list B) (l : list A) :
  map f (flat_map g l) = flat_map (fun a => map f (g a)) l.
Proof.
  induction l as [|a l IH]; simpl; [reflexivity|].
  now rewrite map_app, IH.
Qed.

(** Items grouped by zone: the same items, each under its own zone. *)
Lemma zone_to_items_count (x : string) (active_items : list Item.t) :
  count_occ string_dec
    (map Item.itemId (flat_map snd (zone_to_items active_items))) x
  = count_occ string_dec (map Item.itemId active_items) x.
Proof.
  unfold zone_to_items.
  enough (G : forall l d,
             count_occ string_dec
               (map Item.itemId
                  (flat_map snd
                     (fold_left
                        (fun d it =>
                           setdefault_append (Item.preferredZone it) it d)
                        l d))) x
             = (count_occ string_dec (map Item.itemId (flat_map snd d)) x
                + count_occ string_dec (map Item.itemId l) x)%nat).
  { rewrite G. reflexivity. }
  induction l as [|it l IH]; intros d; simpl.
  - lia.
  - rewrite IH. clear IH.
    assert (E : count_occ string_dec
                  (map Item.itemId
                     (flat_map snd
                        (setdefault_append (Item.preferredZone it) it d))) x
                = (count_occ string_dec [Item.itemId it] x
                   + count_occ string_dec
                       (map Item.itemId (flat_map snd d)) x)%nat).
    { induction d as [|[k0 v0] d IHd]; simpl.
      - destruct (string_dec (Item.itemId it) x); reflexivity.
      - destruct (String.eqb k0 (Item.preferredZone it)); simpl.
        + rewrite !map_app, !count_occ_app. simpl.
          destruct (string_dec (Item.itemId it) x); lia.
        + rewrite !map_app, !count_occ_app, IHd. simpl.
          destruct (string_dec (Item.itemId it) x); lia. }
    rewrite E. simpl. destruct (string_dec (Item.itemId it) x); lia.
Qed.

Lemma face_placements_app (a b : dict FaceData.t) :
  face_placements (a ++ b) = face_placements a ++ face_placements b.
Proof. unfold face_placements. apply flat_map_app. Qed.

Lemma item_loop_ids (x : string) :
  forall items cfd remaining wd cfd' remaining' wd',
    fold_left item_step items (cfd, remaining, wd) = (cfd', remaining', wd') ->
    (count_occ string_dec (map Placement.itemId (face_placements cfd')) x
     + count_occ string_dec (map Item.itemId remaining') x
     = count_occ string_dec (map Placement.itemId (face_placements cfd)) x
       + count_occ string_dec (map Item.itemId remaining) x
       + count_occ string_dec (map Item.itemId items) x)%nat.
Proof.
  induction items as [|it items IH];
    intros cfd remaining wd cfd' remaining' wd' E.
  - simpl in E. inversion E; subst. simpl. lia.
  - simpl in E.
    destruct (scan_containers_effect it cfd wd) as [[_ S]|
      (pre & c & d & suf & rw & rh & rd & px & py & f
       & -> & _ & _ & _ & S)]; rewrite S in E.
    + rewrite (IH _ _ _ _ _ _ E). rewrite map_app, count_occ_app. simpl.
      destruct (string_dec (Item.itemId it) x); lia.
    + rewrite (IH _ _ _ _ _ _ E).
      rewrite !face_placements_app.
      change (face_placements ((c, d) :: suf))
        with (FaceData.placements d ++ face_placements suf).
      match goal with
      | |- context [face_placements ((c, ?d') :: suf)] =>
          change (face_placements ((c, d') :: suf))
            with (FaceData.placements d' ++ face_placements suf)
      end.
      simpl. rewrite !map_app, !count_occ_app. simpl.
      destruct (string_dec (Item.itemId it) x); lia.
Qed.

Lemma container_face_data_empty (c_list : list Container.t) :
  face_placements (container_face_data c_list) = [].
Proof.
  unfold container_face_data.
  enough (G : forall l (d : dict FaceData.t),
             Forall (fun e => FaceData.placements (snd e) = []) d ->
             Forall (fun e => FaceData.placements (snd e) = [])
               (fold_left
                  (fun d c =>
                     dict_set (Container.containerId c)
                       (FaceData.mk c
                          [Rect.mk 0 0 (Container.width c)
                                   (Container.height c)] []) d) l d)).
  { specialize (G c_list [] (Forall_nil _)).
    unfold face_placements. induction G as [|e l He Hl IH]; simpl.
    - reflexivity.
    - now rewrite He, IH. }
  induction l as [|c l IH]; intros d Hd; simpl.
  - assumption.
  - apply IH. apply dict_set_forall; [assumption|reflexivity].
Qed.

Lemma zone_loop_ids (data : Data.t) (x : string) :
  forall entries st,
    let st' := fold_left (zone_step data) entries st in
    (count_occ string_dec
       (map Placement.itemId (AllocState.all_open_face_placements st')) x
     + count_occ string_dec (map Item.itemId (AllocState.unplaced_global st')) x
     = count_occ string_dec
         (map Placement.itemId (AllocState.all_open_face_placements st)) x
       + count_occ string_dec
           (map Item.itemId (AllocState.unplaced_global st)) x
       + count_occ string_dec (map Item.itemId (flat_map snd entries)) x)%nat.
Proof.
  induction entries as [|[z l] entries IH]; intros st; simpl.
  - lia.
  - rewrite IH. clear IH. unfold zone_step.
    match goal with
    | |- context [fold_left item_step ?its (?c, [], ?w)] =>
        destruct (fold_left item_step its (c, [], w))
          as [[cfd rem] w'] eqn:E
    end.
    pose proof (item_loop_ids x _ _ _ _ E) as L.
    rewrite container_face_data_empty in L. simpl in L.
    pose proof (Permutation_count_occ string_dec
                  (map Item.itemId l) (map Item.itemId (sort_items l))) as PC.
    rewrite <- (proj1 PC (Permutation_map _ (sort_items_perm l)) x) in L.
    simpl. fold (face_placements cfd).
    rewrite !map_app, !count_occ_app. lia.
Qed.

(** X10. [place_items_optimally] accounts for every item exactly once: the
    item identifiers of the placements it returns together with those of the
    items it leaves unplaced are the identifiers of the batch, each as often
    as it came in. *)
Theorem place_items_optimally_accounts_for_items :
  forall (data : Data.t) (wd : World.t),
    Permutation
      (map Item.itemId (get_list (Data.items data)))
      (map Placement.itemId
           (AllocState.all_open_face_placements
              (place_items_optimally_state data wd))
         ++ map Item.itemId
                (AllocState.unplaced_global
                   (place_items_optimally_state data wd))).
Proof.
  intros data wd. apply (Permutation_count_occ string_dec). intros x.
  unfold place_items_optimally_state.
  pose proof (zone_loop_ids data x
                (zone_to_items (get_list (Data.items data)))
                (AllocState.mk [] [] wd)) as H.
  simpl in H. rewrite zone_to_items_count in H.
  rewrite count_occ_app. lia.
Qed.

(* ------------------------------------------------------------------ *)
(** ** Items go to containers of their preferred zone *)

Lemma setdefault_append_zone (P : string -> Item.t -> Prop) (x : Item.t)
  (d : dict (list Item.t)) :
  P (Item.preferredZone x) x ->
  Forall (fun e => Forall (P (fst e)) (snd e)) d ->
  Forall (fun e => Forall (P (fst e)) (snd e))
         (setdefault_append (Item.preferredZone x) x d).
Proof.
  intros Hx. induction 1 as [|[k v] d Hk Hd IH]; simpl.
  - repeat constructor. exact Hx.
  - destruct (String.eqb_spec k (Item.preferredZone x)) as [->|N].
    + constructor; [|assumption]. simpl in *.
      apply Forall_app. split; [assumption|]. now repeat constructor.
    + constructor; assumption.
Qed.

Lemma zone_to_items_zone (active_items : list Item.t) :
  Forall (fun e =>
            Forall (fun it => In it active_items
                              /\ Item.preferredZone it = fst e) (snd e))
         (zone_to_items active_items).
Proof.
  unfold zone_to_items.
  enough (G : forall l d,
             incl l active_items ->
             Forall (fun e =>
                       Forall (fun it => In it active_items
                                         /\ Item.preferredZone it = fst e)
                              (snd e)) d ->
             Forall (fun e =>
                       Forall (fun it => In it active_items
                                         /\ Item.preferredZone it = fst e)
                              (snd e))
                    (fold_left
                       (fun d it =>
                          setdefault_append (Item.preferredZone it) it d)
                       l d)).
  { apply G; [apply incl_refl|constructor]. }
  induction l as [|x l IH]; intros d Hl Hd; simpl.
  - assumption.
  - apply IH; [intros y Hy; apply Hl; now right|].
    apply (setdefault_append_zone
             (fun z it => In it active_items /\ Item.preferredZone it = z)).
    + split; [apply Hl; now left|reflexivity].
    + exact Hd.
Qed.

Lemma item_loop_zone (all : list Item.t) (cs : list Container.t)
  (z : string) :
  forall items cfd remaining wd cfd' remaining' wd',
    (forall it, In it items -> In it all /\ Item.preferredZone it = z) ->
    Forall (entry_zone_ok all cs z) cfd ->
    fold_left item_step items (cfd, remaining, wd) = (cfd', remaining', wd') ->
    Forall (entry_zone_ok all cs z) cfd'.
Proof.
  induction items as [|it items IH];
    intros cfd remaining wd cfd' remaining' wd' Hit Hok E.
  - simpl in E. inversion E; subst. assumption.
  - simpl in E.
    assert (Hit' : forall i, In i items ->
                             In i all /\ Item.preferredZone i = z)
      by (intros i Hi; apply Hit; now right).
    destruct (scan_containers_effect it cfd wd) as [[_ S]|
      (pre & c & d & suf & rw & rh & rd & px & py & f
       & -> & _ & _ & _ & S)]; rewrite S in E.
    + eapply IH; eassumption.
    + eapply IH; [exact Hit'| |exact E].
      apply Forall_app in Hok. destruct Hok as [Hpre Hrest].
      inversion Hrest as [|e l He Hsuf]; subst.
      apply Forall_app. split; [assumption|].
      constructor; [|assumption].
      destruct He as (Hin & Hz & Hid & Hpl). simpl in *.
      unfold entry_zone_ok. simpl.
      split; [assumption|]. split; [assumption|]. split; [assumption|].
      apply Forall_app. split; [assumption|].
      constructor; [|constructor]. split; [reflexivity|].
      exists it. destruct (Hit it (or_introl eq_refl)) as [A B].
      now repeat split.
Qed.

Lemma container_face_data_zone (all : list Item.t) (cs : list Container.t)
  (z : string) (c_list : list Container.t) :
  (forall c, In c c_list -> In c cs /\ Container.zone c = z) ->
  Forall (entry_zone_ok all cs z) (container_face_data c_list).
Proof.
  unfold container_face_data.
  enough (G : forall l d,
             (forall c, In c l -> In c cs /\ Container.zone c = z) ->
             Forall (entry_zone_ok all cs z) d ->
             Forall (entry_zone_ok all cs z)
               (fold_left
                  (fun d c =>
                     dict_set (Container.containerId c)
                       (FaceData.mk c
                          [Rect.mk 0 0 (Container.width c)
                                   (Container.height c)] []) d) l d)).
  { intros H. apply G; [assumption|constructor]. }
  induction l as [|c l IH]; intros d Hl Hd; simpl.
  - assumption.
  - apply IH; [intros c' Hc'; apply Hl; now right|].
    apply dict_set_forall; [assumption|].
    destruct (Hl c (or_introl eq_refl)) as [Hin Hz].
    unfold entry_zone_ok. simpl. repeat split; try assumption. constructor.
Qed.

Lemma zone_loop_zone (data : Data.t) :
  forall entries st,
    Forall (fun e =>
              Forall (fun it => In it (get_list (Data.items data))
                                /\ Item.preferredZone it = fst e) (snd e))
           entries ->
    Forall (in_preferred_zone (get_list (Data.items data))
                              (get_list (Data.containers data)))
           (AllocState.all_open_face_placements st) ->
    Forall (in_preferred_zone (get_list (Data.items data))
                              (get_list (Data.containers data)))
           (AllocState.all_open_face_placements
              (fold_left (zone_step data) entries st)).
Proof.
  induction entries as [|[z l] entries IH]; intros st Hent Hst; simpl.
  - assumption.
  - inversion Hent as [|e es He Hes]; subst. simpl in He.
    apply IH; [assumption|]. unfold zone_step.
    set (c_list := sort_containers
                     (filter (fun c => String.eqb (Container.zone c) z)
                             (get_list (Data.containers data)))).
    destruct (fold_left item_step (sort_items l)
                (container_face_data c_list, [], AllocState.world st))
      as [[cfd remaining] wd] eqn:E.
    simpl. apply Forall_app. split; [assumption|].
    assert (Hok : Forall (entry_zone_ok (get_list (Data.items data))
                            (get_list (Data.containers data)) z) cfd).
    { eapply item_loop_zone; [| |exact E].
      - intros it Hit. unfold sort_items in Hit. apply in_py_sort in Hit.
        rewrite Forall_forall in He. now apply He.
      - apply container_face_data_zone. intros c Hc.
        unfold c_list, sort_containers in Hc.
        apply in_py_sort, filter_In in Hc. destruct Hc as [Hc Ez].
        apply String.eqb_eq in Ez. now split. }
    clear E. induction Hok as [|[cid d] cfd0 Hd Hrest IHc]; simpl.
    + constructor.
    + apply Forall_app. split; [|assumption].
      destruct Hd as (Hin & Hz & Hid & Hpl). simpl in *.
      eapply Forall_impl; [|exact Hpl].
      intros p (Hc & it & Hit & Hzit & Hpid).
      exists it, (FaceData.container d).
      repeat split; try assumption; congruence.
Qed.

(** X11. Every placement [place_items_optimally] returns is of an item of the
    batch and names a container of the inventory whose zone is that item's
    preferred zone: an item is never put in another zone, and an item whose
    zone has no container is never placed. *)
Theorem place_items_optimally_respects_zones :
  forall (data : Data.t) (wd : World.t),
    Forall (in_preferred_zone (get_list (Data.items data))
                              (get_list (Data.containers data)))
           (fst (fst (place_items_optimally data wd))).
Proof.
  intros data wd.
  unfold place_items_optimally, place_items_optimally_state. simpl.
  apply zone_loop_zone; [apply zone_to_items_zone|constructor].
Qed.

(* ------------------------------------------------------------------ *)
(** ** One log entry per placement *)

Lemma item_loop_logs :
  forall items cfd remaining wd cfd' remaining' wd',
    fold_left item_step items (cfd, remaining, wd) = (cfd', remaining', wd') ->
    exists news,
      World.LOGS wd' = World.LOGS wd ++ news /\
      World.logs_json wd' = World.logs_json wd ++ news /\
      World.reads wd' = (World.reads wd + length news)%nat /\
      World.clock wd' = World.clock wd /\
      Forall is_new_placement_log news /\
      forall k,
        (count_occ key_dec (map log_key news) k
         + count_occ key_dec (map placement_key (face_placements cfd)) k
         = count_occ key_dec (map placement_key (face_placements cfd')) k)%nat.
Proof.
  induction items as [|it items IH];
    intros cfd remaining wd cfd' remaining' wd' E.
  - simpl in E. inversion E; subst. exists [].
    rewrite !app_nil_r, Nat.add_0_r. repeat split; try constructor.
  - simpl in E.
    destruct (scan_containers_effect it cfd wd) as [[_ S]|
      (pre & c & d & suf & rw & rh & rd & px & py & f
       & -> & _ & _ & _ & S)]; rewrite S in E.
    + eapply IH; exact E.
    + destruct (IH _ _ _ _ _ _ E) as (news & H1 & H2 & H3 & H4 & H5 & H6).
      simpl in H1, H2, H3, H4.
      eexists (_ :: news). rewrite H1, H2, H3, H4, <- !app_assoc. simpl.
      split; [reflexivity|]. split; [reflexivity|]. split; [lia|].
      split; [reflexivity|].
      split; [constructor; [now repeat split|assumption]|].
      intros k. rewrite <- (H6 k). clear H6.
      rewrite !face_placements_app.
      change (face_placements ((c, d) :: suf))
        with (FaceData.placements d ++ face_placements suf).
      match goal with
      | |- context [face_placements ((c, ?d') :: suf)] =>
          change (face_placements ((c, d') :: suf))
            with (FaceData.placements d' ++ face_placements suf)
      end.
      simpl. rewrite !map_app, !count_occ_app. simpl.
      change (log_key
                (LogEntry.mk (World.clock wd (World.reads wd)) "system"
                   "NEW_PLACEMENT" (Item.itemId it) "NONE" c
                   "Placed on open face."))
        with (Item.itemId it, c).
      change (placement_key (placement_doc c (Item.itemId it) px py rw rh rd))
        with (Item.itemId it, c).
      destruct (key_dec (Item.itemId it, c) k); lia.
Qed.

Lemma zone_loop_logs (data : Data.t) :
  forall entries st,
    let st' := fold_left (zone_step data) entries st in
    exists news,
      World.LOGS (AllocState.world st')
        = World.LOGS (AllocState.world st) ++ news /\
      World.logs_json (AllocState.world st')
        = World.logs_json (AllocState.world st) ++ news /\
      World.reads (AllocState.world st')
        = (World.reads (AllocState.world st) + length news)%nat /\
      Forall is_new_placement_log news /\
      forall k,
        (count_occ key_dec (map log_key news) k
         + count_occ key_dec
             (map placement_key (AllocState.all_open_face_placements st)) k
         = count_occ key_dec
             (map placement_key (AllocState.all_open_face_placements st')) k)%nat.
Proof.
  induction entries as [|[z l] entries IH]; intros st; simpl.
  - exists []. rewrite !app_nil_r, Nat.add_0_r.
    repeat split; try constructor.
  - destruct (IH (zone_step data st (z, l)))
      as (news2 & A1 & A2 & A3 & A4 & A5).
    unfold zone_step in A1, A2, A3, A5 |- *.
    match goal with
    | |- context [fold_left item_step ?its (?c, [], ?w)] =>
        destruct (fold_left item_step its (c, [], w))
          as [[cfd rem] w'] eqn:E
    end.
    destruct (item_loop_logs _ _ _ _ E)
      as (news1 & B1 & B2 & B3 & _ & B5 & B6).
    rewrite container_face_data_empty in B6. simpl in *.
    exists (news1 ++ news2).
    rewrite A1, A2, A3, B1, B2, B3, <- !app_assoc, length_app.
    split; [reflexivity|]. split; [reflexivity|]. split; [lia|].
    split; [apply Forall_app; now split|].
    intros k. rewrite <- (A5 k). fold (face_placements cfd).
    rewrite !map_app, !count_occ_app, <- (B6 k). lia.
Qed.

(** X12. [place_items_optimally] writes exactly one log entry per placement
    it returns: the entries appended to [LOGS] and to [logs.json] are the
    same, all are NEW_PLACEMENT entries of user "system", earlier entries are
    kept, and their (item, destination container) pairs are those of the
    returned placements. *)
Theorem place_items_optimally_logs_placements :
  forall (data : Data.t) (wd : World.t),
    exists news,
      World.LOGS (snd (place_items_optimally data wd))
        = World.LOGS wd ++ news /\
      World.logs_json (snd (place_items_optimally data wd))
        = World.logs_json wd ++ news /\
      Forall is_new_placement_log news /\
      Permutation (map log_key news)
                  (map placement_key
                       (fst (fst (place_items_optimally data wd)))).
Proof.
  intros data wd.
  unfold place_items_optimally, place_items_optimally_state. simpl.
  destruct (zone_loop_logs data
              (zone_to_items (get_list (Data.items data)))
              (AllocState.mk [] [] wd))
    as (news & A1 & A2 & _ & A4 & A5).
  simpl in *. exists news. repeat split; try assumption.
  apply (Permutation_count_occ key_dec). intros k.
  rewrite <- (A5 k). lia.
Qed.

(* ------------------------------------------------------------------ *)
(** ** The differ on arbitrary snapshots *)

Lemma dict_get_set {V} (k k' : string) (v : V) (d : dict V) :
  dict_get k (dict_set k' v d)
  = if String.eqb k' k then Some v else dict_get k d.
Proof.
  induction d as [|[k0 v0] d IH]; simpl.
  - reflexivity.
  - destruct (String.eqb_spec k0 k') as [->|N]; simpl.
    + destruct (String.eqb k' k); reflexivity.
    + destruct (String.eqb_spec k0 k) as [->|N'].
      * destruct (String.eqb_spec k' k) as [->|_]; [congruence|reflexivity].
      * exact IH.
Qed.

Lemma lookup_app (k : string) (l1 l2 : list Placement.t) :
  lookup k (l1 ++ l2)
  = match lookup k l1 with Some p => Some p | None => lookup k l2 end.
Proof.
  unfold lookup. induction l1 as [|p l IH]; simpl.
  - reflexivity.
  - destruct (String.eqb (Placement.itemId p) k); [reflexivity|assumption].
Qed.

Lemma placements_by_id_inv (l : list Placement.t) :
  NoDup (map fst (placements_by_id l))
  /\ Forall (fun e => fst e = Placement.itemId (snd e)) (placements_by_id l)
  /\ forall k, dict_get k (placements_by_id l) = lookup k (rev l).
Proof.
  unfold placements_by_id.
  enough (G : forall l d,
             NoDup (map fst d) ->
             Forall (fun e => fst e = Placement.itemId (snd e)) d ->
             let d' :=
               fold_left (fun d p => dict_set (Placement.itemId p) p d) l d in
             NoDup (map fst d')
             /\ Forall (fun e => fst e = Placement.itemId (snd e)) d'
             /\ forall k, dict_get k d'
                          = match lookup k (rev l) with
                            | Some p => Some p
                            | None => dict_get k d
                            end).
  { destruct (G l [] (NoDup_nil _) (Forall_nil _)) as (A & B & C).
    split; [exact A|]. split; [exact B|]. intros k. rewrite C.
    now destruct (lookup k (rev l)). }
  clear l. induction l as [|p l IH]; intros d Hnd Hd; simpl.
  - repeat split; assumption.
  - destruct (IH (dict_set (Placement.itemId p) p d)) as (A & B & C).
    + now apply dict_set_keys_nodup.
    + apply dict_set_forall; [assumption|reflexivity].
    + split; [exact A|]. split; [exact B|]. intros k. rewrite C.
      rewrite lookup_app. destruct (lookup k (rev l)); [reflexivity|].
      unfold lookup. simpl. rewrite dict_get_set.
      now destruct (String.eqb (Placement.itemId p) k).
Qed.

Lemma placements_by_id_effective (l : list Placement.t) :
  placements_by_id l = map entry_of (effective_snapshot l).
Proof.
  unfold effective_snapshot.
  destruct (placements_by_id_inv l) as (_ & H & _).
  induction H as [|[k v] d Hk Hd IH]; simpl.
  - reflexivity.
  - simpl in Hk. subst k. unfold entry_of at 1. now rewrite <- IH.
Qed.

Lemma effective_snapshot_ids (l : list Placement.t) :
  map Placement.itemId (effective_snapshot l)
  = map fst (placements_by_id l).
Proof.
  unfold effective_snapshot. rewrite map_map.
  destruct (placements_by_id_inv l) as (_ & H & _).
  induction H as [|[k v] d Hk Hd IH]; simpl; [reflexivity|].
  simpl in Hk. now rewrite IH, Hk.
Qed.

Lemma effective_snapshot_unique (l : list Placement.t) :
  NoDup (map Placement.itemId l) -> effective_snapshot l = l.
Proof.
  intros H. unfold effective_snapshot.
  rewrite (placements_by_id_unique l H), map_map. simpl. apply map_id.
Qed.

Lemma generate_rearrangements_effective (old new : list Placement.t) :
  generate_rearrangements old new
  = number_steps 1 (first_pass (effective_snapshot old)
                               (effective_snapshot new)
                      ++ second_pass (effective_snapshot old)
                                     (effective_snapshot new)).
Proof.
  unfold generate_rearrangements.
  rewrite (placements_by_id_effective old), (placements_by_id_effective new).
  rewrite new_pass_loop, old_pass_loop. simpl.
  now rewrite number_steps_app.
Qed.

(** X13. On snapshots that repeat an item identifier, the differ works on one
    record per item: the last record of the item in the list, as the dict
    comprehension keeps it. The records have distinct identifiers, they are
    the snapshot itself when it has no repeats, and the steps are the two
    passes over these records, numbered from 1. *)
Theorem generate_rearrangements_last_record_wins :
  forall old_placements new_placements : list Placement.t,
    (forall l, NoDup (map Placement.itemId (effective_snapshot l))
               /\ (forall k, lookup k (effective_snapshot l)
                             = lookup k (rev l))
               /\ (NoDup (map Placement.itemId l) ->
                   effective_snapshot l = l))
    /\
    generate_rearrangements old_placements new_placements
    = number_steps 1
        (first_pass (effective_snapshot old_placements)
                    (effective_snapshot new_placements)
           ++ second_pass (effective_snapshot old_placements)
                          (effective_snapshot new_placements)).
Proof.
  intros old new. split; [|apply generate_rearrangements_effective].
  intros l. destruct (placements_by_id_inv l) as (A & _ & C).
  split; [now rewrite effective_snapshot_ids|].
  split; [|apply effective_snapshot_unique].
  intros k. rewrite <- C, (placements_by_id_effective l).
  symmetry. apply dict_get_entries.
Qed.

Lemma lookup_self (l : list Placement.t) (p : Placement.t) :
  NoDup (map Placement.itemId l) -> In p l ->
  lookup (Placement.itemId p) l = Some p.
Proof.
  unfold lookup. induction l as [|q l IH]; simpl; intros Hnd Hin.
  - contradiction.
  - inversion Hnd as [|x xs Hq Hl]; subst.
    destruct (String.eqb_spec (Placement.itemId q) (Placement.itemId p))
      as [E|N].
    + destruct Hin as [->|Hin]; [reflexivity|].
      exfalso. apply Hq. rewrite E. now apply in_map.
    + destruct Hin as [->|Hin]; [congruence|]. now apply IH.
Qed.

Lemma first_pass_same (l sub : list Placement.t) :
  NoDup (map Placement.itemId l) -> incl sub l -> first_pass l sub = [].
Proof.
  intros Hnd. unfold first_pass.
  induction sub as [|p sub IH]; intros Hin; simpl.
  - reflexivity.
  - rewrite (lookup_self l p Hnd (Hin p (or_introl eq_refl))).
    destruct (same_place_dec p p) as [_|N].
    + simpl. apply IH. intros q Hq. apply Hin. now right.
    + exfalso. apply N. now split.
Qed.

Lemma second_pass_same (l sub : list Placement.t) :
  NoDup (map Placement.itemId l) -> incl sub l -> second_pass sub l = [].
Proof.
  intros Hnd. unfold second_pass.
  induction sub as [|p sub IH]; intros Hin; simpl.
  - reflexivity.
  - rewrite (lookup_self l p Hnd (Hin p (or_introl eq_refl))).
    apply IH. intros q Hq. apply Hin. now right.
Qed.

(** X14. Diffing a snapshot against itself yields no step, whatever the
    snapshot (repeated identifiers included). *)
Theorem generate_rearrangements_same_snapshot :
  forall placements : list Placement.t,
    generate_rearrangements placements placements = [].
Proof.
  intros l. rewrite generate_rearrangements_effective.
  destruct (placements_by_id_inv l) as (A & _ & _).
  rewrite <- effective_snapshot_ids in A.
  rewrite first_pass_same, second_pass_same;
    try assumption; try apply incl_refl.
  reflexivity.
Qed.

Lemma first_pass_nil_old (new : list Placement.t) :
  first_pass [] new = map place_of new.
Proof.
  unfold first_pass. induction new as [|p l IH]; simpl; [reflexivity|].
  now f_equal.
Qed.

Lemma second_pass_nil_new (old : list Placement.t) :
  second_pass old [] = map remove_of old.
Proof.
  unfold second_pass. induction old as [|p l IH]; simpl; [reflexivity|].
  now f_equal.
Qed.

(** X15. Against an empty old snapshot the differ emits exactly one [place]
    step per item of the new snapshot, in order; against an empty new
    snapshot exactly one [remove] step per item of the old one, in order. *)
Theorem generate_rearrangements_from_or_to_empty :
  forall placements : list Placement.t,
    generate_rearrangements [] placements
    = number_steps 1 (map place_of (effective_snapshot placements))
    /\
    generate_rearrangements placements []
    = number_steps 1 (map remove_of (effective_snapshot placements)).
Proof.
  intros l. rewrite !generate_rearrangements_effective.
  change (effective_snapshot []) with (@nil Placement.t). split.
  - rewrite first_pass_nil_old. unfold second_pass. simpl.
    now rewrite app_nil_r.
  - rewrite second_pass_nil_new. unfold first_pass. simpl. reflexivity.
Qed.

Lemma number_steps_nth (l : list (Z -> Step.t)) :
  Forall step_body_ok l ->
  forall n i s,
    nth_error (number_steps n l) i = Some s ->
    Step.step s = n + Z.of_nat i.
Proof.
  induction 1 as [|f l Hf Hl IH]; intros n i s Hi.
  - destruct i; discriminate.
  - destruct i as [|i]; simpl in Hi.
    + inversion Hi; subst. destruct Hf as [Hf _]. rewrite Hf. lia.
    + rewrite (IH _ _ _ Hi). lia.
Qed.

Lemma number_steps_ids (l : list (Z -> Step.t)) :
  Forall step_body_ok l ->
  forall n,
    map Step.itemId (number_steps n l)
    = map (fun f => Step.itemId (f 0)) l.
Proof.
  induction 1 as [|f l Hf Hl IH]; intros n; simpl.
  - reflexivity.
  - destruct Hf as [_ Hf]. now rewrite (Hf n), IH.
Qed.

Lemma first_pass_ok (old new : list Placement.t) :
  Forall step_body_ok (first_pass old new)
  /\ incl (map (fun f => Step.itemId (f 0)) (first_pass old new))
          (map Placement.itemId new)
  /\ (NoDup (map Placement.itemId new) ->
      NoDup (map (fun f => Step.itemId (f 0)) (first_pass old new))).
Proof.
  unfold first_pass. induction new as [|p l (IH1 & IH2 & IH3)]; simpl.
  - repeat split; [constructor|intros x []|constructor].
  - destruct (lookup (Placement.itemId p) old) as [oldp|].
    + destruct (same_place_dec oldp p); simpl.
      * split; [assumption|]. split.
        -- intros x Hx. right. now apply IH2.
        -- intros Hnd. inversion Hnd; subst. now apply IH3.
      * split; [constructor; [now split|assumption]|]. split.
        -- intros x [<-|Hx]; [now left|right; now apply IH2].
        -- intros Hnd. inversion Hnd as [|y ys Hp Hl]; subst.
           constructor; [|now apply IH3].
           intros C. apply Hp. now apply IH2.
    + simpl. split; [constructor; [now split|assumption]|]. split.
      * intros x [<-|Hx]; [now left|right; now apply IH2].
      * intros Hnd. inversion Hnd as [|y ys Hp Hl]; subst.
        constructor; [|now apply IH3].
        intros C. apply Hp. now apply IH2.
Qed.

Lemma lookup_none_iff (k : string) (l : list Placement.t) :
  lookup k l = None <-> ~ In k (map Placement.itemId l).
Proof.
  split; [|apply lookup_none_not_in].
  unfold lookup. induction l as [|p l IH]; simpl; intros H.
  - intros [].
  - destruct (String.eqb_spec (Placement.itemId p) k) as [E|N];
      [discriminate|].
    intros [C|C]; [contradiction|]. now apply IH.
Qed.

Lemma second_pass_ok (old new : list Placement.t) :
  Forall step_body_ok (second_pass old new)
  /\ (forall x, In x (map (fun f => Step.itemId (f 0))
                          (second_pass old new)) ->
                In x (map Placement.itemId old)
                /\ ~ In x (map Placement.itemId new))
  /\ (NoDup (map Placement.itemId old) ->
      NoDup (map (fun f => Step.itemId (f 0)) (second_pass old new))).
Proof.
  unfold second_pass. induction old as [|p l (IH1 & IH2 & IH3)]; simpl.
  - repeat split; [constructor|destruct H|destruct H|constructor].
  - destruct (lookup (Placement.itemId p) new) as [newp|] eqn:L.
    + split; [assumption|]. split.
      * intros x Hx. destruct (IH2 x Hx). split; [now right|assumption].
      * intros Hnd. inversion Hnd; subst. now apply IH3.
    + simpl. split; [constructor; [now split|assumption]|]. split.
      * intros x [<-|Hx].
        -- split; [now left|]. now apply lookup_none_iff.
        -- destruct (IH2 x Hx). split; [now right|assumption].
      * intros Hnd. inversion Hnd as [|y ys Hp Hl]; subst.
        constructor; [|now apply IH3].
        intros C. apply Hp. now apply (IH2 _ C).
Qed.

(** X16. Whatever the two snapshots, the steps [generate_rearrangements]
    returns are numbered 1, 2, 3, ... in list order, and no item identifier
    appears in more than one step. *)
Theorem generate_rearrangements_numbering :
  forall old_placements new_placements : list Placement.t,
    (forall i s,
       nth_error (generate_rearrangements old_placements new_placements) i
         = Some s ->
       Step.step s = 1 + Z.of_nat i)
    /\ NoDup (map Step.itemId
                  (generate_rearrangements old_placements new_placements)).
Proof.
  intros old new. rewrite generate_rearrangements_effective.
  destruct (placements_by_id_inv old) as (Ao & _ & _).
  destruct (placements_by_id_inv new) as (An & _ & _).
  rewrite <- effective_snapshot_ids in Ao, An.
  destruct (first_pass_ok (effective_snapshot old) (effective_snapshot new))
    as (F1 & F2 & F3).
  destruct (second_pass_ok (effective_snapshot old) (effective_snapshot new))
    as (S1 & S2 & S3).
  assert (Hall : Forall step_body_ok
                   (first_pass (effective_snapshot old)
                               (effective_snapshot new)
                      ++ second_pass (effective_snapshot old)
                                     (effective_snapshot new)))
    by (apply Forall_app; now split).
  split.
  - intros i s Hi. eapply number_steps_nth; [exact Hall|exact Hi].
  - rewrite (number_steps_ids Hall), map_app.
    apply NoDup_app; [now apply F3|now apply S3|].
    intros x Hx Hy. destruct (S2 x Hy) as [_ N]. apply N. now apply F2.
Qed.

(* ------------------------------------------------------------------ *)
(** ** Shape of a retrieval plan *)

Lemma remove_steps_from_ok (target : Placement.t) :
  forall blockers n,
    Forall (fun p => blocksb target p = true) blockers ->
    Forall (fun s =>
              RetrievalStep.action s = remove /\
              RetrievalStep.placeBack s = true /\
              RetrievalStep.itemId s <> Placement.itemId target /\
              In (RetrievalStep.itemId s) (map Placement.itemId blockers))
           (remove_steps_from n blockers)
    /\ length (remove_steps_from n blockers) = length blockers.
Proof.
  induction blockers as [|b l IH]; intros n Hb; simpl.
  - split; [constructor|reflexivity].
  - inversion Hb as [|x xs Hx Hl]; subst.
    destruct (IH (n + 1) Hl) as [IH1 IH2]. split; [|now rewrite IH2].
    constructor.
    + simpl. apply blocksb_spec in Hx. destruct Hx as (_ & Hne & _).
      repeat split; try assumption. now left.
    + eapply Forall_impl; [|exact IH1].
      intros s (A & B & C & D). repeat split; try assumption. now right.
Qed.

(** X17. A retrieval plan is never empty and always ends with the [retrieve]
    step of the target, not to be placed back. Every step before it is a
    [remove] step to be placed back, of an item of the placement list other
    than the target; the last step is numbered 0 for a target at depth-start
    0 and otherwise one more than the number of [remove] steps. *)
Theorem retrieval_steps_shape :
  forall (target : Placement.t) (placements : list Placement.t),
    exists removes last,
      retrieval_steps target placements = removes ++ [last] /\
      RetrievalStep.action last = retrieve /\
      RetrievalStep.placeBack last = false /\
      RetrievalStep.itemId last = Placement.itemId target /\
      RetrievalStep.step last
        = (if start_depth target =? 0 then 0
           else 1 + Z.of_nat (length removes)) /\
      (length removes <= length placements)%nat /\
      Forall (fun s =>
                RetrievalStep.action s = remove /\
                RetrievalStep.placeBack s = true /\
                RetrievalStep.itemId s <> Placement.itemId target /\
                In (RetrievalStep.itemId s)
                   (map Placement.itemId placements))
             removes.
Proof.
  intros target placements. unfold retrieval_steps.
  destruct (start_depth target =? 0) eqn:D.
  - exists [], (RetrievalStep.mk 0 retrieve false (Placement.itemId target)
                                 (display_name target)).
    simpl. repeat split; try constructor. lia.
  - rewrite blocking_scan_filter, remove_loop. simpl.
    destruct (@remove_steps_from_ok target
                (filter (blocksb target) placements) 1) as [H1 H2].
    { apply Forall_forall. intros p Hp. now apply filter_In in Hp. }
    eexists _, _. split; [reflexivity|]. simpl. rewrite H2.
    repeat split.
    + apply length_filter_le.
    + eapply Forall_impl; [|exact H1].
      intros s (A & B & C & E). repeat split; try assumption.
      apply in_map_iff in E. destruct E as (p & Ep & Hp).
      apply filter_In in Hp. apply in_map_iff. exists p. tauto.
Qed.

Lemma filter_filter_implied {A} (f g : A -> bool) (l : list A) :
  (forall a, f a = true -> g a = true) ->
  filter f (filter g l) = filter f l.
Proof.
  intros H. induction l as [|a l IH]; simpl; [reflexivity|].
  destruct (g a) eqn:G; simpl.
  - now rewrite IH.
  - destruct (f a) eqn:F; [|assumption].
    apply H in F. congruence.
Qed.

(** X18. A retrieval plan depends only on the placements of the target's
    container that start at depth 0: leaving every other placement out of the
    list gives the same plan. *)
Theorem retrieval_steps_ignores_other_placements :
  forall (target : Placement.t) (placements : list Placement.t),
    retrieval_steps target
      (filter (fun p =>
                 String.eqb (Placement.containerId p)
                            (Placement.containerId target)
                 && (start_depth p =? 0))
              placements)
    = retrieval_steps target placements.
Proof.
  intros target placements. unfold retrieval_steps.
  destruct (start_depth target =? 0); [reflexivity|].
  rewrite !blocking_scan_filter. simpl.
  rewrite filter_filter_implied; [reflexivity|].
  intros p Hp. unfold blocksb in Hp.
  apply andb_true_iff in Hp. destruct Hp as [Hp _].
  apply andb_true_iff in Hp. destruct Hp as [Hp Hd].
  apply andb_true_iff in Hp. destruct Hp as [Hc _].
  now rewrite Hc, Hd.
Qed.

(* ================================================================== *)
(** * Properties of the service handlers *)

(* ------------------------------------------------------------------ *)
(** ** Retrieve item *)


Lemma filter_id_iff {A} (f : A -> bool) (l : list A) :
  filter f l = l <-> forall a, In a l -> f a = true.
Proof.
  induction l as [|a l IH]; simpl.
  - split; [intros _ a []|reflexivity].
  - destruct (f a) eqn:F.
    + split.
      * intros E b [<-|Hb]; [assumption|].
        apply (proj1 IH); [congruence|assumption].
      * intros H. f_equal. apply IH. intros b Hb. apply H. now right.
    + split.
      * intros E. exfalso.
        pose proof (length_filter_le f l) as L. rewrite E in L. simpl in L.
        lia.
      * intros H. specialize (H a (or_introl eq_refl)). congruence.
Qed.


(** X20. Whenever [retrieve_item] answers 200, with or without a warning,
    [placement.json] afterwards holds the former placements of the other
    items, in their order, and none of the retrieved item. *)
Theorem retrieve_item_removes_placements :
  forall (item_id user_id timestamp : string) (fs : Files.t) (wd : World.t)
         (body : RetrieveBody.t),
    fst (fst (retrieve_item (retrieve_request item_id user_id timestamp)
                            fs wd))
      = Json 200 body ->
    rows (Files.placement_json
            (snd (fst (retrieve_item
                         (retrieve_request item_id user_id timestamp)
                         fs wd))))
      = filter (fun p => negb (String.eqb (Placement.itemId p) item_id))
               (rows (Files.placement_json fs))
    /\ ~ In item_id
          (map Placement.itemId
               (rows (Files.placement_json
                        (snd (fst (retrieve_item
                                     (retrieve_request item_id user_id
                                                       timestamp)
                                     fs wd)))))).
Proof.
  intros item_id user_id timestamp fs wd body.
  unfold retrieve_item, retrieve_request. simpl.
  destruct (Files.placement_json fs) as [|l|field] eqn:P; simpl;
    try discriminate.
  destruct (Nat.eqb _ _); simpl; [discriminate|].
  destruct (Files.placement_writable fs); simpl; [|discriminate].
  assert (G : ~ In item_id
                (map Placement.itemId
                   (filter (fun p => negb (String.eqb (Placement.itemId p)
                                                      item_id))
                           (get_list field)))).
  { intros C. apply in_map_iff in C. destruct C as (p & E & Hp).
    apply filter_In in Hp. destruct Hp as [_ Hp].
    apply negb_true_iff, String.eqb_neq in Hp. contradiction. }
  destruct (Files.items_json fs); simpl; try discriminate.
  - intros _. now split.
  - destruct (Files.items_writable fs); simpl; intros _; now split.
Qed.

Lemma retrieve_item_removes_placements_witness :
  rows (Files.placement_json
          (snd (fst (retrieve_item (retrieve_request "A" "u1" "t1")
                                   example_files example_world))))
    = filter (fun p => negb (String.eqb (Placement.itemId p) "A"))
             (rows (Files.placement_json example_files))
  /\ ~ In "A"%string
        (map Placement.itemId
             (rows (Files.placement_json
                      (snd (fst (retrieve_item
                                   (retrieve_request "A" "u1" "t1")
                                   example_files example_world)))))).
Proof.
  apply (@retrieve_item_removes_placements "A" "u1" "t1" example_files
           example_world (RetrieveBody.mk true None None)).
  reflexivity.
Defined.

Lemma use_once_effect (item_id : string) :
  forall items : list StoredItem.t,
    (Forall (fun item => ~ usable item_id item) items
     /\ use_once item_id items = items)
    \/
    (exists pre item suf,
       items = pre ++ item :: suf /\
       Forall (fun item => ~ usable item_id item) pre /\
       usable item_id item /\
       use_once item_id items
       = pre ++ set_usageLimit item
                  (get_default (StoredItem.usageLimit item) 0 - 1) :: suf).
Proof.
  induction items as [|item rest IH]; simpl.
  - left. split; [constructor|reflexivity].
  - destruct (option_string_eqb (StoredItem.itemId item) item_id
              && (get_default (StoredItem.usageLimit item) 0 >? 0)) eqn:E.
    + right. exists [], item, rest. simpl.
      apply andb_true_iff in E. destruct E as [E1 E2].
      rewrite Z.gtb_lt in E2.
      repeat split; try assumption; try constructor.
      unfold option_string_eqb in E1.
      destruct (StoredItem.itemId item); [|discriminate].
      apply String.eqb_eq in E1. now subst.
    + assert (N : ~ usable item_id item).
      { intros [U1 U2]. rewrite U1 in E. simpl in E.
        rewrite String.eqb_refl in E. simpl in E.
        rewrite Z.gtb_ltb in E. apply Z.ltb_ge in E. lia. }
      destruct IH as [[Hn Eq]|(pre & it & suf & -> & Hn & Hu & Eq)].
      * left. split; [now constructor|now rewrite Eq].
      * right. exists (item :: pre), it, suf. simpl.
        repeat split; try (now constructor); try apply Hu.
        now rewrite Eq.
Qed.

(** X21. The usage loop of [retrieve_item] changes at most one row of
    [items.json]: the first row of the item that has uses left loses exactly
    one use and every other row is untouched; with no such row nothing
    changes. No usage count that was non-negative becomes negative. *)
Theorem use_once_first_usable_row :
  forall (item_id : string) (items : list StoredItem.t),
    ((Forall (fun item => ~ usable item_id item) items
      /\ use_once item_id items = items)
     \/
     (exists pre item suf,
        items = pre ++ item :: suf /\
        Forall (fun item => ~ usable item_id item) pre /\
        usable item_id item /\
        use_once item_id items
        = pre ++ set_usageLimit item
                   (get_default (StoredItem.usageLimit item) 0 - 1) :: suf))
    /\ (Forall usage_not_negative items ->
        Forall usage_not_negative (use_once item_id items)).
Proof.
  intros item_id items. split; [apply use_once_effect|].
  intros H.
  destruct (use_once_effect item_id items)
    as [[_ ->]|(pre & it & suf & -> & _ & [_ Hu] & ->)]; [assumption|].
  apply Forall_app in H. destruct H as [Hp Hs].
  inversion Hs; subst. apply Forall_app. split; [assumption|].
  constructor; [|assumption]. unfold usage_not_negative. simpl. lia.
Qed.

Lemma retrieve_item_ok_placement (item_id user_id timestamp : string)
  (fs : Files.t) (wd : World.t) (body : RetrieveBody.t) :
  fst (fst (retrieve_item (retrieve_request item_id user_id timestamp)
                          fs wd))
    = Json 200 body ->
  exists field,
    Files.placement_json fs = JObject field /\
    Files.placement_json
      (snd (fst (retrieve_item (retrieve_request item_id user_id timestamp)
                               fs wd)))
    = JObject
        (Some (filter (fun p => negb (String.eqb (Placement.itemId p)
                                                 item_id))
                      (get_list field))).
Proof.
  unfold retrieve_item, retrieve_request. simpl.
  destruct (Files.placement_json fs) as [|l|field] eqn:P; simpl;
    try discriminate.
  destruct (Nat.eqb _ _); simpl; [discriminate|].
  destruct (Files.placement_writable fs) eqn:PW; simpl; [|discriminate].
  destruct (Files.items_json fs) eqn:I; simpl; try discriminate.
  - intros _. now exists field.
  - destruct (Files.items_writable fs); simpl; intros _; now exists field.
Qed.

Lemma retrieve_item_absent (item_id user_id timestamp : string)
  (fs : Files.t) (wd : World.t) (l : list Placement.t) :
  Files.placement_json fs
  = JObject (Some (filter (fun p => negb (String.eqb (Placement.itemId p)
                                                     item_id)) l)) ->
  retrieve_item (retrieve_request item_id user_id timestamp) fs wd
  = (Json 404 (RetrieveBody.mk false (Some "Item not found"%string) None),
     fs, wd).
Proof.
  intros E. unfold retrieve_item, retrieve_request. simpl. rewrite E. simpl.
  rewrite filter_filter_implied by auto. now rewrite Nat.eqb_refl.
Qed.

(** X22. After [retrieve_item] has answered 200 for an item, a second
    retrieval of the same item answers 404 and changes nothing. *)
Theorem retrieve_item_twice :
  forall (item_id user_id timestamp user_id' timestamp' : string)
         (fs : Files.t) (wd : World.t) (body : RetrieveBody.t),
    fst (fst (retrieve_item (retrieve_request item_id user_id timestamp)
                            fs wd))
      = Json 200 body ->
    retrieve_item (retrieve_request item_id user_id' timestamp')
      (snd (fst (retrieve_item (retrieve_request item_id user_id timestamp)
                               fs wd)))
      (snd (retrieve_item (retrieve_request item_id user_id timestamp)
                          fs wd))
    = (Json 404 (RetrieveBody.mk false (Some "Item not found"%string) None),
       snd (fst (retrieve_item (retrieve_request item_id user_id timestamp)
                               fs wd)),
       snd (retrieve_item (retrieve_request item_id user_id timestamp)
                          fs wd)).
Proof.
  intros item_id user_id timestamp user_id' timestamp' fs wd body H.
  destruct (retrieve_item_ok_placement _ _ _ _ _ H) as (field & _ & E).
  eapply retrieve_item_absent. exact E.
Qed.

Lemma retrieve_item_twice_witness :
  retrieve_item (retrieve_request "A" "u2" "t2")
    (snd (fst (retrieve_item (retrieve_request "A" "u1" "t1")
                             example_files example_world)))
    (snd (retrieve_item (retrieve_request "A" "u1" "t1")
                        example_files example_world))
  = (Json 404 (RetrieveBody.mk false (Some "Item not found"%string) None),
     snd (fst (retrieve_item (retrieve_request "A" "u1" "t1")
                             example_files example_world)),
     snd (retrieve_item (retrieve_request "A" "u1" "t1")
                        example_files example_world)).
Proof.
  apply (@retrieve_item_twice "A" "u1" "t1" "u2" "t2" example_files
           example_world (RetrieveBody.mk true None None)).
  reflexivity.
Defined.

(* ------------------------------------------------------------------ *)
(** ** Complete undocking *)

Lemma rows_load_json {A} (c : FileContent A) :
  rows (load_json c (JObject (Some []))) = rows c.
Proof. destruct c; reflexivity. Qed.

Lemma rows_with_rows {A} (c : FileContent A) (l : list A) :
  rows (with_rows c l) = l.
Proof. destruct c; reflexivity. Qed.

Lemma truthy_some (o : option string) (s : string) :
  truthy o = Some s -> o = Some s /\ s <> ""%string.
Proof.
  destruct o as [[|c t]|]; simpl; intros E; inversion E; subst.
  split; [reflexivity|discriminate].
Qed.

(** What a 200 answer of the undocking handler means for the state. *)
Lemma waste_complete_undocking_ok (valid_timestamp : string -> bool)
  (req : option UndockRequest.t) (fs : Files.t) (wd : World.t)
  (body : UndockBody.t) :
  fst (fst (waste_complete_undocking valid_timestamp req fs wd))
    = Json 200 body ->
  exists cid timestamp data,
    req = Some data /\
    truthy (UndockRequest.undockingContainerId data) = Some cid /\
    truthy (UndockRequest.timestamp data) = Some timestamp /\
    valid_timestamp timestamp = true /\
    Files.placement_writable fs = true /\
    Files.items_writable fs = true /\
    Files.containers_writable fs = true /\
    (exists field, load_json (Files.placement_json fs) (JObject (Some []))
                   = JObject field) /\
    waste_complete_undocking valid_timestamp req fs wd
    = (Json 200
         (UndockBody.mk true None
            (Some (Z.of_nat (length (rows (Files.items_json fs)))
                   - Z.of_nat
                       (length
                          (filter
                             (fun item =>
                                negb (placed_in
                                        (rows (Files.placement_json fs))
                                        cid item))
                             (rows (Files.items_json fs))))))),
       undocked cid fs,
       record_log "system" "COMPLETE_UNDOCKING" "" cid "Removed"
                  (String.append "Undocking completed at " timestamp) wd).
Proof.
  unfold waste_complete_undocking.
  destruct req as [data|]; simpl; [|discriminate].
  destruct (truthy (UndockRequest.undockingContainerId data))
    as [cid|] eqn:T1; simpl; [|discriminate].
  destruct (truthy (UndockRequest.timestamp data))
    as [timestamp|] eqn:T2; simpl; [|discriminate].
  destruct (valid_timestamp timestamp) eqn:V; simpl; [|discriminate].
  destruct (load_json (Files.placement_json fs) (JObject (Some [])))
    as [|l|field] eqn:L; simpl; try discriminate.
  destruct (Files.placement_writable fs) eqn:PW; simpl; [|discriminate].
  destruct (Files.items_writable fs) eqn:IW; simpl; [|discriminate].
  destruct (Files.containers_writable fs) eqn:CW; simpl; [|discriminate].
  intros _. exists cid, timestamp, data.
  repeat (split; [first [reflexivity|assumption]|]).
  split; [now exists field|].
  assert (R : get_list field = rows (Files.placement_json fs)).
  { rewrite <- rows_load_json, L. reflexivity. }
  unfold undocked, placed_in. rewrite !rows_load_json, R. reflexivity.
Qed.

(** X23. When [waste_complete_undocking] answers 200, [placement.json] holds
    the former placements of the other containers, in order, and none of the
    undocked container; [containers.json] holds the other containers;
    [items.json] holds the items that were not placed in the undocked
    container; [itemsRemoved] is the number of rows dropped from
    [items.json]; and one COMPLETE_UNDOCKING entry is logged. *)
Theorem waste_complete_undocking_empties_container :
  forall (valid_timestamp : string -> bool) (cid timestamp : string)
         (fs : Files.t) (wd : World.t) (body : UndockBody.t),
    fst (fst (waste_complete_undocking valid_timestamp
                (undock_request cid timestamp) fs wd))
      = Json 200 body ->
    let result :=
      waste_complete_undocking valid_timestamp
        (undock_request cid timestamp) fs wd in
    let fs' := snd (fst result) in
    rows (Files.placement_json fs')
      = filter (fun p => negb (String.eqb (Placement.containerId p) cid))
               (rows (Files.placement_json fs))
    /\ ~ In cid (map Placement.containerId (rows (Files.placement_json fs')))
    /\ rows (Files.containers_json fs')
       = filter (fun c => negb (String.eqb (Container.containerId c) cid))
                (rows (Files.containers_json fs))
    /\ ~ In cid (map Container.containerId
                     (rows (Files.containers_json fs')))
    /\ rows (Files.items_json fs')
       = filter (fun item =>
                   negb (placed_in (rows (Files.placement_json fs)) cid item))
                (rows (Files.items_json fs))
    /\ UndockBody.itemsRemoved body
       = Some (Z.of_nat (length (rows (Files.items_json fs)))
               - Z.of_nat (length (rows (Files.items_json fs'))))
    /\ World.logs_json (snd result)
       = World.logs_json wd
           ++ [LogEntry.mk (World.clock wd (World.reads wd)) "system"
                 "COMPLETE_UNDOCKING" "" cid "Removed"
                 (String.append "Undocking completed at " timestamp)].
Proof.
  intros valid_timestamp cid timestamp fs wd body H.
  destruct (waste_complete_undocking_ok _ _ _ _ H)
    as (c & t & data & Ereq & T1 & T2 & _ & _ & _ & _ & _ & E).
  unfold undock_request in Ereq. inversion Ereq; subst data.
  cbn [UndockRequest.undockingContainerId UndockRequest.timestamp] in T1, T2.
  apply truthy_some in T1, T2. destruct T1 as [T1 _], T2 as [T2 _].
  inversion T1; inversion T2; subst c t.
  rewrite E in H. simpl in H. inversion H; subst body.
  cbv zeta. rewrite E. simpl. rewrite !rows_with_rows.
  assert (NoneLeft :
            forall A (key : A -> string) (l : list A),
              ~ In cid (map key (filter (fun a => negb (String.eqb (key a)
                                                                   cid)) l))).
  { intros A key l C. apply in_map_iff in C. destruct C as (a & Ea & Ha).
    apply filter_In in Ha. destruct Ha as [_ Ha].
    apply negb_true_iff, String.eqb_neq in Ha. contradiction. }
  repeat split; try reflexivity.
  - apply (NoneLeft _ Placement.containerId).
  - apply (NoneLeft _ Container.containerId).
Qed.

Lemma waste_complete_undocking_empties_container_witness :
  rows (Files.placement_json
          (snd (fst (waste_complete_undocking (fun _ => true)
                       (undock_request "C" "t1") example_files
                       example_world))))
    = filter (fun p => negb (String.eqb (Placement.containerId p) "C"))
             (rows (Files.placement_json example_files))
  /\ ~ In "C"%string
        (map Placement.containerId
             (rows (Files.placement_json
                      (snd (fst (waste_complete_undocking (fun _ => true)
                                   (undock_request "C" "t1") example_files
                                   example_world))))))
  /\ rows (Files.containers_json
             (snd (fst (waste_complete_undocking (fun _ => true)
                          (undock_request "C" "t1") example_files
                          example_world))))
     = filter (fun c => negb (String.eqb (Container.containerId c) "C"))
              (rows (Files.containers_json example_files))
  /\ ~ In "C"%string
        (map Container.containerId
             (rows (Files.containers_json
                      (snd (fst (waste_complete_undocking (fun _ => true)
                                   (undock_request "C" "t1") example_files
                                   example_world))))))
  /\ rows (Files.items_json
             (snd (fst (waste_complete_undocking (fun _ => true)
                          (undock_request "C" "t1") example_files
                          example_world))))
     = filter (fun item =>
                 negb (placed_in (rows (Files.placement_json example_files))
                                 "C" item))
              (rows (Files.items_json example_files))
  /\ UndockBody.itemsRemoved (UndockBody.mk true None (Some 2))
     = Some (Z.of_nat (length (rows (Files.items_json example_files)))
             - Z.of_nat
                 (length
                    (rows (Files.items_json
                             (snd (fst (waste_complete_undocking
                                          (fun _ => true)
                                          (undock_request "C" "t1")
                                          example_files
                                          example_world)))))))
  /\ World.logs_json
       (snd (waste_complete_undocking (fun _ => true)
               (undock_request "C" "t1") example_files example_world))
     = World.logs_json example_world
         ++ [LogEntry.mk
               (World.clock example_world (World.reads example_world))
               "system" "COMPLETE_UNDOCKING" "" "C" "Removed"
               (String.append "Undocking completed at " "t1")].
Proof.
  apply (@waste_complete_undocking_empties_container (fun _ => true)
           "C" "t1" example_files example_world
           (UndockBody.mk true None (Some 2))).
  reflexivity.
Defined.

Lemma truthy_nonempty (s : string) : s <> ""%string -> truthy (Some s) = Some s.
Proof. destruct s; [congruence|reflexivity]. Qed.

Lemma waste_complete_undocking_run (valid_timestamp : string -> bool)
  (cid timestamp : string) (fs : Files.t) (wd : World.t) :
  cid <> ""%string -> timestamp <> ""%string ->
  valid_timestamp timestamp = true ->
  Files.placement_writable fs = true ->
  Files.items_writable fs = true ->
  Files.containers_writable fs = true ->
  (exists field, load_json (Files.placement_json fs) (JObject (Some []))
                 = JObject field) ->
  waste_complete_undocking valid_timestamp (undock_request cid timestamp)
                           fs wd
  = (Json 200
       (UndockBody.mk true None
          (Some (Z.of_nat (length (rows (Files.items_json fs)))
                 - Z.of_nat
                     (length
                        (filter
                           (fun item =>
                              negb (placed_in
                                      (rows (Files.placement_json fs))
                                      cid item))
                           (rows (Files.items_json fs))))))),
     undocked cid fs,
     record_log "system" "COMPLETE_UNDOCKING" "" cid "Removed"
                (String.append "Undocking completed at " timestamp) wd).
Proof.
  intros Hc Ht V PW IW CW [field L].
  unfold waste_complete_undocking, undock_request.
  cbn [UndockRequest.undockingContainerId UndockRequest.timestamp].
  rewrite (truthy_nonempty Hc), (truthy_nonempty Ht), V, L. simpl.
  rewrite PW, IW, CW. simpl.
  assert (R : get_list field = rows (Files.placement_json fs)).
  { rewrite <- rows_load_json, L. reflexivity. }
  unfold undocked, placed_in. rewrite !rows_load_json, R. reflexivity.
Qed.

Lemma filter_all {A} (f : A -> bool) (l : list A) :
  (forall a, f a = true) -> filter f l = l.
Proof. intros H. apply filter_id_iff. auto. Qed.

Lemma load_with_rows {A} (c : FileContent A) (l : list A) :
  load_json (with_rows c l) (JObject (Some [])) = with_rows c l.
Proof. destruct c; reflexivity. Qed.

Lemma with_rows_twice {A} (c : FileContent A) (l l' : list A) :
  with_rows (with_rows c l) l' = with_rows c l'.
Proof. destruct c; reflexivity. Qed.

Lemma placed_in_after (placements : list Placement.t) (cid : string)
  (item : StoredItem.t) :
  placed_in
    (filter (fun p => negb (String.eqb (Placement.containerId p) cid))
            placements)
    cid item = false.
Proof.
  unfold placed_in.
  replace (filter (fun p => String.eqb (Placement.containerId p) cid)
                  (filter (fun p => negb (String.eqb
                                            (Placement.containerId p) cid))
                          placements))
    with (@nil Placement.t); [reflexivity|].
  induction placements as [|p l IH]; simpl; [reflexivity|].
  destruct (String.eqb (Placement.containerId p) cid) eqn:E; simpl;
    [assumption|]. now rewrite E.
Qed.

Lemma undocked_rows (cid : string) (fs : Files.t) :
  rows (Files.placement_json (undocked cid fs))
  = filter (fun p => negb (String.eqb (Placement.containerId p) cid))
           (rows (Files.placement_json fs))
  /\ rows (Files.items_json (undocked cid fs))
     = filter (fun item =>
                 negb (placed_in (rows (Files.placement_json fs)) cid item))
              (rows (Files.items_json fs))
  /\ rows (Files.containers_json (undocked cid fs))
     = filter (fun c => negb (String.eqb (Container.containerId c) cid))
              (rows (Files.containers_json fs))
  /\ load_json (Files.items_json (undocked cid fs)) (JObject (Some []))
     = Files.items_json (undocked cid fs)
  /\ load_json (Files.containers_json (undocked cid fs)) (JObject (Some []))
     = Files.containers_json (undocked cid fs).
Proof.
  unfold undocked. cbn [Files.placement_json Files.items_json
                        Files.containers_json set_placement_json
                        set_items_json set_containers_json].
  rewrite !rows_with_rows, !load_with_rows. repeat split.
Qed.

Lemma undocked_twice (cid : string) (fs : Files.t) :
  undocked cid (undocked cid fs) = undocked cid fs.
Proof.
  destruct (undocked_rows cid fs) as (P & I & C & LI & LC).
  unfold undocked at 1. rewrite LI, LC, P, I, C.
  rewrite (filter_filter_implied _ _ (rows (Files.placement_json fs)))
    by auto.
  rewrite (filter_filter_implied _ _ (rows (Files.containers_json fs)))
    by auto.
  rewrite (filter_all
             (fun item =>
                negb (placed_in
                        (filter (fun p => negb (String.eqb
                                                  (Placement.containerId p)
                                                  cid))
                                (rows (Files.placement_json fs)))
                        cid item)))
    by (intros a; now rewrite placed_in_after).
  unfold undocked.
  cbn [Files.placement_json Files.items_json Files.containers_json
       Files.placement_writable Files.items_writable
       Files.containers_writable set_placement_json set_items_json
       set_containers_json].
  now rewrite !with_rows_twice.
Qed.

(** X24. Completing the undocking of a container a second time removes
    nothing more: after a 200 answer, the same request (with any accepted
    timestamp) answers 200 with [itemsRemoved] 0 and leaves the three files
    as they are. *)
Theorem waste_complete_undocking_twice :
  forall (valid_timestamp : string -> bool) (cid timestamp timestamp' : string)
         (fs : Files.t) (wd : World.t) (body : UndockBody.t),
    fst (fst (waste_complete_undocking valid_timestamp
                (undock_request cid timestamp) fs wd))
      = Json 200 body ->
    timestamp' <> ""%string ->
    valid_timestamp timestamp' = true ->
    fst (waste_complete_undocking valid_timestamp
           (undock_request cid timestamp')
           (snd (fst (waste_complete_undocking valid_timestamp
                        (undock_request cid timestamp) fs wd)))
           (snd (waste_complete_undocking valid_timestamp
                   (undock_request cid timestamp) fs wd)))
    = (Json 200 (UndockBody.mk true None (Some 0)),
       snd (fst (waste_complete_undocking valid_timestamp
                   (undock_request cid timestamp) fs wd))).
Proof.
  intros valid_timestamp cid timestamp timestamp' fs wd body H Ht' V'.
  destruct (waste_complete_undocking_ok _ _ _ _ H)
    as (c & t & data & Ereq & T1 & T2 & _ & PW & IW & CW & _ & E).
  unfold undock_request in Ereq. inversion Ereq; subst data.
  cbn [UndockRequest.undockingContainerId UndockRequest.timestamp] in T1, T2.
  apply truthy_some in T1, T2. destruct T1 as [T1 Hc], T2 as [T2 _].
  inversion T1; inversion T2; subst c t.
  rewrite E. cbn [fst snd].
  rewrite waste_complete_undocking_run; try assumption.
  - cbn [fst]. rewrite undocked_twice. f_equal. f_equal. f_equal.
    destruct (undocked_rows cid fs) as (P & I & _).
    rewrite I, P.
    rewrite (filter_all
               (fun item =>
                  negb (placed_in
                          (filter (fun p => negb (String.eqb
                                                    (Placement.containerId p)
                                                    cid))
                                  (rows (Files.placement_json fs)))
                          cid item)))
      by (intros a; now rewrite placed_in_after).
    f_equal. lia.
  - now exists (Some (filter (fun p => negb (String.eqb
                                               (Placement.containerId p)
                                               cid))
                             (rows (Files.placement_json fs)))).
Qed.

Lemma waste_complete_undocking_twice_witness :
  fst (waste_complete_undocking (fun _ => true) (undock_request "C" "t2")
         (snd (fst (waste_complete_undocking (fun _ => true)
                      (undock_request "C" "t1") example_files
                      example_world)))
         (snd (waste_complete_undocking (fun _ => true)
                 (undock_request "C" "t1") example_files example_world)))
  = (Json 200 (UndockBody.mk true None (Some 0)),
     snd (fst (waste_complete_undocking (fun _ => true)
                 (undock_request "C" "t1") example_files example_world))).
Proof.
  apply (@waste_complete_undocking_twice (fun _ => true) "C" "t1" "t2"
           example_files example_world (UndockBody.mk true None (Some 2))).
  - reflexivity.
  - discriminate.
  - reflexivity.
Defined.

(* ------------------------------------------------------------------ *)
(** ** Logs *)

Lemma filter_or_raise_some {A} (test : A -> option bool) :
  forall l l',
    filter_or_raise test l = Some l' ->
    l' = filter (fun a => match test a with
                          | Some true => true
                          | _ => false
                          end) l.
Proof.
  induction l as [|a l IH]; simpl; intros l' E.
  - now inversion E.
  - destruct (test a) as [b|]; [|discriminate].
    destruct (filter_or_raise test l) as [r|]; [|discriminate].
    inversion E; subst. rewrite (IH r eq_refl). now destruct b.
Qed.

Lemma filter_filter_and {A} (f g : A -> bool) (l : list A) :
  filter f (filter g l) = filter (fun a => g a && f a) l.
Proof.
  induction l as [|a l IH]; simpl; [reflexivity|].
  destruct (g a); simpl; [|assumption].
  destruct (f a); now rewrite IH.
Qed.

Section LogProperties.
Variable DateTime : Type.
Variable fromisoformat : string -> option DateTime.
Variable timestamp_ge : Z -> DateTime -> option bool.
Variable timestamp_le : Z -> DateTime -> option bool.

Lemma filter_by_date_is_filter (arg : option string)
  (test : Z -> DateTime -> option bool) (logs : list LogEntry.t) :
  exists keep, filter_by_date fromisoformat arg test logs = filter keep logs.
Proof.
  unfold filter_by_date.
  assert (Id : exists keep, logs = filter keep logs).
  { exists (fun _ => true). symmetry. now apply filter_all. }
  destruct (truthy arg) as [s|]; [|exact Id].
  destruct (fromisoformat s) as [d|]; [|exact Id].
  destruct (filter_or_raise _ logs) as [l|] eqn:E; [|exact Id].
  eexists. eapply filter_or_raise_some. exact E.
Qed.

Lemma filter_by_field_matches (arg : option string)
  (field : LogEntry.t -> string) (logs : list LogEntry.t) :
  filter_by_field arg field logs
  = filter (fun e => field_matches arg (field e)) logs.
Proof.
  unfold filter_by_field, field_matches.
  destruct (truthy arg); [reflexivity|].
  symmetry. now apply filter_all.
Qed.

Lemma get_logs_fields (q : LogQuery.t) (wd : World.t) :
  get_logs fromisoformat timestamp_ge timestamp_le q wd
  = filter (matches_query q)
      (filter_by_date fromisoformat (LogQuery.endDate q) timestamp_le
         (filter_by_date fromisoformat (LogQuery.startDate q) timestamp_ge
            (World.logs_json wd))).
Proof.
  unfold get_logs. rewrite !filter_by_field_matches, !filter_filter_and.
  reflexivity.
Qed.

(** X25. [get_logs] never invents or reorders entries: its answer is the
    stored log with some entries left out, and every entry it returns has
    the item, user and action type the query asks for (an absent or empty
    argument asks for nothing), whatever the date arguments do. *)
Theorem get_logs_sound :
  forall (q : LogQuery.t) (wd : World.t),
    (exists keep,
       get_logs fromisoformat timestamp_ge timestamp_le q wd
       = filter keep (World.logs_json wd))
    /\
    Forall (fun e =>
              (forall v, truthy (LogQuery.itemId q) = Some v ->
                         LogEntry.itemId e = v) /\
              (forall v, truthy (LogQuery.userId q) = Some v ->
                         LogEntry.userId e = v) /\
              (forall v, truthy (LogQuery.actionType q) = Some v ->
                         LogEntry.actionType e = v))
           (get_logs fromisoformat timestamp_ge timestamp_le q wd).
Proof.
  intros q wd. rewrite get_logs_fields. split.
  - destruct (filter_by_date_is_filter (LogQuery.startDate q) timestamp_ge
                (World.logs_json wd)) as [k1 E1].
    rewrite E1.
    destruct (filter_by_date_is_filter (LogQuery.endDate q) timestamp_le
                (filter k1 (World.logs_json wd))) as [k2 E2].
    rewrite E2, !filter_filter_and. now eexists.
  - apply Forall_forall. intros e He. apply filter_In in He.
    destruct He as [_ M]. unfold matches_query, field_matches in M.
    apply andb_true_iff in M. destruct M as [M1 M].
    apply andb_true_iff in M. destruct M as [M2 M3].
    repeat split; intros v Hv; rewrite Hv in *;
      now apply String.eqb_eq.
Qed.

(** X26. Without date arguments [get_logs] returns exactly the stored
    entries that have the item, user and action type asked for, in order;
    and an entry written by [record_log] is found by the next query: the
    answer is the former answer followed by the new entry when it matches,
    and the former answer otherwise. *)
Theorem get_logs_after_record_log :
  forall (item_arg user_arg action_arg : option string)
         (user_id action_type item_id from_container to_container
            reason : string)
         (wd : World.t),
    let q := LogQuery.mk None None item_arg user_arg action_arg in
    let entry :=
      LogEntry.mk (World.clock wd (World.reads wd)) user_id action_type
                  item_id from_container to_container reason in
    get_logs fromisoformat timestamp_ge timestamp_le q wd
    = filter (matches_query q) (World.logs_json wd)
    /\
    get_logs fromisoformat timestamp_ge timestamp_le q
      (record_log user_id action_type item_id from_container to_container
                  reason wd)
    = get_logs fromisoformat timestamp_ge timestamp_le q wd
        ++ (if matches_query q entry then [entry] else []).
Proof.
  intros item_arg user_arg action_arg user_id action_type item_id
    from_container to_container reason wd q entry.
  rewrite !get_logs_fields. unfold filter_by_date. simpl.
  split; [reflexivity|]. rewrite filter_app. reflexivity.
Qed.

End LogProperties.

(* ------------------------------------------------------------------ *)
(** ** Waste management *)

Section WasteProperties.
Variable expired_before : string -> Z -> option bool.

(** X27. The reason [identify_waste] and [waste_return_plan] give an item is
    "Expired" exactly when the item has a non-empty expiry date that lies
    before the current date, "Out of Uses" exactly when it is not expired and
    its usage limit is present and 0, and empty otherwise: expiry takes
    precedence and a missing usage limit never makes an item waste. The
    reason is undefined only when the date handling raises. *)
Theorem waste_reason_classifies :
  forall (item : StoredItem.t) (current_date : Z),
    let expired :=
      exists s, truthy (StoredItem.expiryDate item) = Some s
                /\ expired_before s current_date = Some true in
    let raises :=
      exists s, truthy (StoredItem.expiryDate item) = Some s
                /\ expired_before s current_date = None in
    (waste_reason expired_before item current_date = None <-> raises)
    /\ (waste_reason expired_before item current_date = Some "Expired"%string
        <-> expired)
    /\ (waste_reason expired_before item current_date
        = Some "Out of Uses"%string
        <-> ~ raises /\ ~ expired /\ StoredItem.usageLimit item = Some 0)
    /\ (waste_reason expired_before item current_date = Some ""%string
        <-> ~ raises /\ ~ expired /\ StoredItem.usageLimit item <> Some 0).
Proof.
  intros item current_date. cbv zeta. unfold waste_reason.
  destruct (truthy (StoredItem.expiryDate item)) as [s|] eqn:T.
  - destruct (expired_before s current_date) as [[|]|] eqn:X; simpl.
    + repeat split; try discriminate; try (intros _; now exists s).
      * intros (s' & E & C). inversion E; subst. congruence.
      * intros (_ & N & _). exfalso. apply N. now exists s.
      * intros (_ & N & _). exfalso. apply N. now exists s.
    + assert (NR : ~ exists s0, Some s = Some s0
                                /\ expired_before s0 current_date = None).
      { intros (s' & E & C). inversion E; subst. congruence. }
      assert (NE : ~ exists s0, Some s = Some s0
                                /\ expired_before s0 current_date = Some true).
      { intros (s' & E & C). inversion E; subst. congruence. }
      destruct (StoredItem.usageLimit item) as [u|]; simpl.
      * destruct (Z.eqb_spec u 0) as [->|N]; simpl;
          repeat split; try discriminate; try tauto; try congruence;
          try (intros (_ & _ & C); congruence).
      * repeat split; try discriminate; try tauto; try congruence;
          try (intros (_ & _ & C); congruence).
    + repeat split; try discriminate; try (intros _; now exists s).
      * intros (s' & E & C). inversion E; subst. congruence.
      * intros (N & _). exfalso. apply N. now exists s.
      * intros (N & _). exfalso. apply N. now exists s.
  - assert (NR : ~ exists s0, @None string = Some s0
                              /\ expired_before s0 current_date = None)
      by (intros (s' & E & _); discriminate).
    assert (NE : ~ exists s0, @None string = Some s0
                              /\ expired_before s0 current_date = Some true)
      by (intros (s' & E & _); discriminate).
    simpl. destruct (StoredItem.usageLimit item) as [u|]; simpl.
    + destruct (Z.eqb_spec u 0) as [->|N]; simpl;
        repeat split; try discriminate; try tauto; try congruence;
        try (intros (_ & _ & C); congruence).
    + repeat split; try discriminate; try tauto; try congruence;
        try (intros (_ & _ & C); congruence).
Qed.

End WasteProperties.

Lemma select_loop (max_weight : Z) :
  forall waste_items selected total_weight total_volume,
    total_weight = total_weight_of selected ->
    total_volume = total_volume_of selected ->
    exists added,
      fold_left (select_step max_weight) waste_items
                (selected, total_weight, total_volume)
      = (selected ++ added, total_weight_of (selected ++ added),
         total_volume_of (selected ++ added))
      /\ subsequence added waste_items
      /\ (added <> [] -> total_weight_of (selected ++ added) <= max_weight)
      /\ total_weight_of (selected ++ added)
         = total_weight + total_weight_of added
      /\ (Forall (fun item => 0 <= Marked.calculatedWeight item) waste_items ->
          forall item, In item waste_items -> ~ In item added ->
            max_weight
            < total_weight_of (selected ++ added)
              + Marked.calculatedWeight item).
Proof.
  assert (Wapp : forall a b,
             total_weight_of (a ++ b) = total_weight_of a + total_weight_of b).
  { induction a as [|x a IH]; intros b; simpl; [lia|]. rewrite IH. lia. }
  assert (Vapp : forall a b,
             total_volume_of (a ++ b) = total_volume_of a + total_volume_of b).
  { induction a as [|x a IH]; intros b; simpl; [lia|]. rewrite IH. lia. }
  assert (Wpos : forall l,
             Forall (fun item => 0 <= Marked.calculatedWeight item) l ->
             0 <= total_weight_of l).
  { induction 1; simpl; lia. }
  assert (Sub : forall (added l : list Marked.t),
             subsequence added l ->
             Forall (fun item => 0 <= Marked.calculatedWeight item) l ->
             Forall (fun item => 0 <= Marked.calculatedWeight item) added).
  { induction 1; intros F; inversion F; subst; auto. }
  induction waste_items as [|x l IH];
    intros selected tw tv Hw Hv.
  - exists []. rewrite app_nil_r. simpl. subst.
    repeat split; try constructor; try lia; try congruence;
      try (intros _ item []).
  - simpl. destruct (tw + Marked.calculatedWeight x <=? max_weight) eqn:C.
    + destruct (IH (selected ++ [x]) (tw + Marked.calculatedWeight x)
                   (tv + Marked.calculatedVolume x))
        as (added & E & S & L & T & G).
      * subst. rewrite Wapp. simpl. lia.
      * subst. rewrite Vapp. simpl. lia.
      * exists (x :: added). rewrite <- app_assoc in E, L, T, G. simpl in *.
        rewrite E. split; [reflexivity|]. split; [now constructor|].
        split.
        -- intros _. destruct added as [|y added'].
           ++ rewrite Wapp. simpl. apply Z.leb_le in C. subst. lia.
           ++ apply L. discriminate.
        -- split; [rewrite T; lia|].
           intros F item Hin Hn. inversion F; subst.
           destruct Hin as [->|Hin]; [exfalso; apply Hn; now left|].
           apply G; [assumption|assumption|].
           intros C'. apply Hn. now right.
    + destruct (IH selected tw tv Hw Hv) as (added & E & S & L & T & G).
      exists added. rewrite E. split; [reflexivity|].
      split; [now constructor|]. split; [assumption|].
      split; [assumption|].
      intros F item Hin Hn. inversion F as [|y ys Hx Hl]; subst.
      destruct Hin as [->|Hin]; [|now apply G].
      apply Z.leb_gt in C. rewrite T.
      pose proof (Wpos added (Sub _ _ S Hl)). lia.
Qed.

(** X28. The greedy selection of [waste_return_plan] picks waste items in
    their order, leaving some out; the total weight and total volume it
    reports are the sums over the selected items; and the total weight does
    not exceed [maxWeight] as soon as one item is selected or [maxWeight] is
    not negative. *)
Theorem select_items_within_weight :
  forall (max_weight : Z) (waste_items : list Marked.t),
    subsequence (fst (fst (select_items max_weight waste_items))) waste_items
    /\ snd (fst (select_items max_weight waste_items))
       = total_weight_of (fst (fst (select_items max_weight waste_items)))
    /\ snd (select_items max_weight waste_items)
       = total_volume_of (fst (fst (select_items max_weight waste_items)))
    /\ (fst (fst (select_items max_weight waste_items)) <> []
        \/ 0 <= max_weight ->
        snd (fst (select_items max_weight waste_items)) <= max_weight).
Proof.
  intros max_weight waste_items. unfold select_items.
  destruct (@select_loop max_weight waste_items [] 0 0 eq_refl eq_refl)
    as (added & E & S & L & _ & _).
  rewrite E. simpl in *. repeat split; try assumption.
  intros [N|P]; [now apply L|].
  destruct added as [|x added']; [simpl; lia|apply L; discriminate].
Qed.

(** X29. With non-negative weights the greedy selection is maximal: no waste
    item left out of the selection could be added to it without exceeding
    [maxWeight]. *)
Theorem select_items_maximal :
  forall (max_weight : Z) (waste_items : list Marked.t) (item : Marked.t),
    Forall (fun item => 0 <= Marked.calculatedWeight item) waste_items ->
    In item waste_items ->
    ~ In item (fst (fst (select_items max_weight waste_items))) ->
    max_weight
    < snd (fst (select_items max_weight waste_items))
      + Marked.calculatedWeight item.
Proof.
  intros max_weight waste_items item F Hin Hn. unfold select_items in *.
  destruct (@select_loop max_weight waste_items [] 0 0 eq_refl eq_refl)
    as (added & E & _ & _ & _ & G).
  rewrite E in *. simpl in *. now apply G.
Qed.

Lemma select_items_maximal_witness :
  10 < snd (fst (select_items 10 example_waste))
       + Marked.calculatedWeight (example_marked "B" 7).
Proof.
  apply (@select_items_maximal 10 example_waste (example_marked "B" 7)).
  - repeat constructor; simpl; lia.
  - simpl. auto.
  - simpl. intros [H|[H|[]]]; discriminate.
Defined.

(* ------------------------------------------------------------------ *)
(** ** Return plan followed by undocking *)

Lemma waste_return_plan_ok (expired_before : string -> Z -> option bool)
  (float_of_text : string -> option Z) (req : option ReturnPlanRequest.t)
  (fs : Files.t) (wd : World.t) (body : ReturnPlanBody) :
  fst (fst (waste_return_plan expired_before float_of_text req fs wd))
    = Json 200 body ->
  exists cid date max_weight waste_items return_plan retrieval,
    mark_loop expired_before (World.clock wd (World.reads wd))
              (rows (Files.items_json fs)) = Some waste_items /\
    body
    = Plan return_plan retrieval
        (Manifest.mk cid date
           (map (fun item =>
                   ReturnItem.mk (marked_id item) (marked_name item)
                                 (Marked.wasteReason item))
                (fst (fst (select_items max_weight waste_items))))
           (snd (select_items max_weight waste_items))
           (snd (fst (select_items max_weight waste_items)))) /\
    Files.placement_json
      (snd (fst (waste_return_plan expired_before float_of_text req fs wd)))
    = JObject
        (Some (move_selected cid
                 (fst (fst (select_items max_weight waste_items)))
                 (rows (Files.placement_json fs)))) /\
    Files.items_json
      (snd (fst (waste_return_plan expired_before float_of_text req fs wd)))
    = Files.items_json fs.
Proof.
  unfold waste_return_plan.
  destruct req as [data|]; simpl; [|discriminate].
  destruct (truthy (ReturnPlanRequest.undockingContainerId data))
    as [cid|]; simpl; [|discriminate].
  destruct (truthy (ReturnPlanRequest.undockingDate data))
    as [date|]; simpl; [|discriminate].
  destruct (ReturnPlanRequest.maxWeight data) as [mw|]; simpl;
    [|discriminate].
  destruct (match mw with JNum n => Some n | JText s => float_of_text s end)
    as [max_weight|]; simpl; [|discriminate].
  rewrite rows_load_json.
  destruct (mark_loop expired_before (World.clock wd (World.reads wd))
              (rows (Files.items_json fs))) as [waste_items|] eqn:M; simpl;
    [|discriminate].
  destruct (select_items max_weight waste_items) as [[sel tw] tv] eqn:S.
  destruct (fold_left (plan_step cid) sel ([], [], 1)) as [[rp rs] n] eqn:P.
  destruct (existsb _ (rows (load_json (Files.containers_json fs)
                                       (JObject (Some []))))).
  - destruct (load_json (Files.placement_json fs) (JObject (Some [])))
      as [|l|field] eqn:L; simpl; try discriminate.
    destruct (Files.placement_writable fs); simpl; [|discriminate].
    intros E. inversion E; subst.
    exists cid, date, max_weight, waste_items, rp, rs.
    rewrite S. simpl.
    assert (R : get_list field = rows (Files.placement_json fs))
      by (rewrite <- rows_load_json, L; reflexivity).
    rewrite R. now repeat split.
  - destruct (Files.containers_writable fs); simpl; [|discriminate].
    destruct (load_json (Files.placement_json fs) (JObject (Some [])))
      as [|l|field] eqn:L; simpl; try discriminate.
    destruct (Files.placement_writable fs); simpl; [|discriminate].
    intros E. inversion E; subst.
    exists cid, date, max_weight, waste_items, rp, rs.
    rewrite S. simpl.
    assert (R : get_list field = rows (Files.placement_json fs))
      by (rewrite <- rows_load_json, L; reflexivity).
    rewrite R. now repeat split.
Qed.

Lemma move_selected_in (cid : string) (selected : list Marked.t)
  (placements : list Placement.t) (item : Marked.t) (i : string) :
  In item selected ->
  StoredItem.itemId (Marked.item item) = Some i ->
  (forall p, In p (move_selected cid selected placements) ->
             Placement.itemId p = i -> Placement.containerId p = cid)
  /\ (In i (map Placement.itemId placements) ->
      exists p, In p (move_selected cid selected placements)
                /\ Placement.itemId p = i /\ Placement.containerId p = cid).
Proof.
  intros Hin Hid.
  assert (Sel : forall p0, Placement.itemId p0 = i ->
                  existsb (fun it =>
                             option_string_eqb
                               (StoredItem.itemId (Marked.item it))
                               (Placement.itemId p0)) selected = true).
  { intros p0 E. apply existsb_exists. exists item. split; [assumption|].
    rewrite Hid, E. simpl. apply String.eqb_refl. }
  unfold move_selected. split.
  - intros p Hp E. apply in_map_iff in Hp. destruct Hp as (p0 & Ep & Hp0).
    destruct (existsb _ selected) eqn:X.
    + subst p. reflexivity.
    + subst p. rewrite (Sel p0 E) in X. discriminate.
  - intros Hi. apply in_map_iff in Hi. destruct Hi as (p0 & E & Hp0).
    eexists. split; [apply in_map_iff; exists p0; split;
                     [reflexivity|exact Hp0]|].
    rewrite (Sel p0 E). simpl. now split.
Qed.

(** X30. A return plan followed by the undocking of its container removes
    what the plan selected: when [waste_return_plan] answered 200 and
    [waste_complete_undocking] of the plan's undocking container then
    answered 200, no placement of an item of the manifest (with a non-empty
    identifier) is left in [placement.json], and if the item had a placement
    before the plan, no row of the item is left in [items.json]. *)
Theorem return_plan_then_undocking_removes_selected :
  forall (expired_before : string -> Z -> option bool)
         (float_of_text : string -> option Z)
         (valid_timestamp : string -> bool)
         (req : option ReturnPlanRequest.t) (fs : Files.t) (wd : World.t)
         (return_plan : list ReturnStep.t) (retrieval : list RetrievalStep.t)
         (manifest : Manifest.t) (timestamp : string) (body : UndockBody.t)
         (i : string),
    fst (fst (waste_return_plan expired_before float_of_text req fs wd))
      = Json 200 (Plan return_plan retrieval manifest) ->
    fst (fst (waste_complete_undocking valid_timestamp
                (undock_request (Manifest.undockingContainerId manifest)
                                timestamp)
                (snd (fst (waste_return_plan expired_before float_of_text
                                             req fs wd)))
                (snd (waste_return_plan expired_before float_of_text
                                        req fs wd))))
      = Json 200 body ->
    In i (map ReturnItem.itemId (Manifest.returnItems manifest)) ->
    i <> ""%string ->
    ~ In i
        (map Placement.itemId
           (rows (Files.placement_json
                    (snd (fst (waste_complete_undocking valid_timestamp
                                 (undock_request
                                    (Manifest.undockingContainerId manifest)
                                    timestamp)
                                 (snd (fst (waste_return_plan expired_before
                                              float_of_text req fs wd)))
                                 (snd (waste_return_plan expired_before
                                         float_of_text req fs wd))))))))
    /\
    (In i (map Placement.itemId (rows (Files.placement_json fs))) ->
     ~ In (Some i)
         (map StoredItem.itemId
            (rows (Files.items_json
                     (snd (fst (waste_complete_undocking valid_timestamp
                                  (undock_request
                                     (Manifest.undockingContainerId manifest)
                                     timestamp)
                                  (snd (fst (waste_return_plan expired_before
                                               float_of_text req fs wd)))
                                  (snd (waste_return_plan expired_before
                                          float_of_text req fs wd))))))))).
Proof.
  intros expired_before float_of_text valid_timestamp req fs wd rp rs
    manifest timestamp body i H1 H2 Hi Hne.
  destruct (waste_return_plan_ok _ _ _ _ _ H1)
    as (cid & date & mw & waste & rp' & rs' & _ & Eb & EP & EI).
  inversion Eb; subst rp' rs' manifest. clear Eb.
  cbn [Manifest.undockingContainerId Manifest.returnItems] in *.
  set (sel := fst (fst (select_items mw waste))) in *.
  set (fs1 := snd (fst (waste_return_plan expired_before float_of_text
                                          req fs wd))) in *.
  set (wd1 := snd (waste_return_plan expired_before float_of_text
                                     req fs wd)) in *.
  destruct (waste_complete_undocking_ok _ _ _ _ H2)
    as (c & t & data & Ereq & T1 & T2 & _ & _ & _ & _ & _ & E).
  unfold undock_request in Ereq. inversion Ereq; subst data.
  cbn [UndockRequest.undockingContainerId UndockRequest.timestamp] in T1, T2.
  apply truthy_some in T1. destruct T1 as [T1 _]. inversion T1; subst c.
  rewrite E. cbn [fst snd].
  destruct (undocked_rows cid fs1) as (P & I & _).
  rewrite P, I, EP, EI. cbn [rows get_list].
  rewrite map_map in Hi. apply in_map_iff in Hi.
  destruct Hi as (item & Eid & Hsel). cbn [ReturnItem.itemId] in Eid.
  assert (Hid : StoredItem.itemId (Marked.item item) = Some i).
  { unfold marked_id in Eid.
    destruct (StoredItem.itemId (Marked.item item)) as [x|]; simpl in Eid;
      [now subst|congruence]. }
  destruct (@move_selected_in cid sel (rows (Files.placement_json fs))
              item i Hsel Hid) as [M1 M2].
  split.
  - intros C. apply in_map_iff in C. destruct C as (p & Ep & Hp).
    apply filter_In in Hp. destruct Hp as [Hp N].
    apply negb_true_iff, String.eqb_neq in N. apply N. now apply M1.
  - intros Hplaced C. apply in_map_iff in C. destruct C as (row & Er & Hr).
    apply filter_In in Hr. destruct Hr as [_ N].
    apply negb_true_iff in N.
    destruct (M2 Hplaced) as (p & Hp & Epi & Epc).
    assert (T : placed_in
                  (move_selected cid sel (rows (Files.placement_json fs)))
                  cid row = true).
    { unfold placed_in. apply existsb_exists. exists i. split.
      - apply in_map_iff. exists p. split; [assumption|].
        apply filter_In. split; [assumption|].
        now apply String.eqb_eq.
      - rewrite Er. simpl. apply String.eqb_refl. }
    congruence.
Qed.

Lemma return_plan_then_undocking_removes_selected_witness :
  ~ In "B"%string
      (map Placement.itemId
         (rows (Files.placement_json
                  (snd (fst (waste_complete_undocking (fun _ => true)
                               (undock_request "W" "t2")
                               (snd (fst (waste_return_plan
                                            (fun _ _ => Some false)
                                            (fun _ => None)
                                            (return_plan_request "W" "d1"
                                                                 30000)
                                            example_files example_world)))
                               (snd (waste_return_plan
                                       (fun _ _ => Some false)
                                       (fun _ => None)
                                       (return_plan_request "W" "d1" 30000)
                                       example_files example_world))))))))
  /\
  (In "B"%string
      (map Placement.itemId (rows (Files.placement_json example_files))) ->
   ~ In (Some "B"%string)
       (map StoredItem.itemId
          (rows (Files.items_json
                   (snd (fst (waste_complete_undocking (fun _ => true)
                                (undock_request "W" "t2")
                                (snd (fst (waste_return_plan
                                             (fun _ _ => Some false)
                                             (fun _ => None)
                                             (return_plan_request "W" "d1"
                                                                  30000)
                                             example_files example_world)))
                                (snd (waste_return_plan
                                        (fun _ _ => Some false)
                                        (fun _ => None)
                                        (return_plan_request "W" "d1" 30000)
                                        example_files
                                        example_world))))))))).
Proof.
  apply (@return_plan_then_undocking_removes_selected
           (fun _ _ => Some false) (fun _ => None) (fun _ => true)
           (return_plan_request "W" "d1" 30000) example_files example_world
           [ReturnStep.mk 1 "B" "Unknown" "Not Placed" "W"]
           [RetrievalStep.mk 1 retrieve false "B" "Unknown"]
           (Manifest.mk "W" "d1" [ReturnItem.mk "B" "Unknown" "Out of Uses"]
                        25000 25000)
           "t2" (UndockBody.mk true None (Some 1)) "B").
  - reflexivity.
  - reflexivity.
  - simpl. auto.
  - discriminate.
Defined.
